(** * Skribb handwriting-sample service: label store, ingestion, review
      workflow, readiness report and training-list preparation.

    A shallow embedding of [Handwriting-OCR/uploads.py],
    [Handwriting-OCR/monitor.py] and [Handwriting-OCR/train.py].

    Conventions of the embedding.
    - A Python [str] is a [string]; each [ascii] stands for one code point
      below 256, so [str.lower], [str.strip] and [str.split] are the
      restrictions of the Python methods to that range.
    - [bytes] is [list byte].
    - A metadata dict is the record [entry]; a key that is absent from the
      dict is a field holding [None].
    - The label store ([DataManager.labels], a Python dict, which iterates
      in insertion order) is an association list with dict operations.
    - A directory is a [gmap] from file names to contents.
    - Every call that can raise returns a [result]; what the operating
      system, the clock, the uuid generator and the OCR engine answer is
      passed in explicitly. *)

From Stdlib Require Import ZArith QArith Ascii String List Bool Lia.
From Stdlib.Strings Require Import Byte.
From stdpp Require Import base option list gmap strings pretty.

Local Open Scope Z_scope.
Local Open Scope string_scope.

(** ** Python built-ins on [str] *)

Module Py.

(** [str.isspace] for one character (code points below 256). *)
Definition isspace (c : ascii) : bool :=
  let n := N_of_ascii c in
  ((9 <=? n)%N && (n <=? 13)%N) || ((28 <=? n)%N && (n <=? 32)%N)
  || (n =? 133)%N || (n =? 160)%N.

(** [str.lower] for one character (code points below 256). *)
Definition lower_char (c : ascii) : ascii :=
  let n := N_of_ascii c in
  if ((65 <=? n)%N && (n <=? 90)%N)
     || ((192 <=? n)%N && (n <=? 222)%N && negb (n =? 215)%N)
  then ascii_of_N (n + 32) else c.

Fixpoint lower (s : string) : string :=
  match s with
  | EmptyString => EmptyString
  | String c r => String (lower_char c) (lower r)
  end.

Fixpoint lstrip (s : string) : string :=
  match s with
  | EmptyString => EmptyString
  | String c r => if isspace c then lstrip r else s
  end.

(** [all_space s] is [s.strip() == ""] computed left to right. *)
Fixpoint all_space (s : string) : bool :=
  match s with
  | EmptyString => true
  | String c r => isspace c && all_space r
  end.

Fixpoint rstrip (s : string) : string :=
  match s with
  | EmptyString => EmptyString
  | String c r => if all_space s then EmptyString else String c (rstrip r)
  end.

Definition strip (s : string) : string := rstrip (lstrip s).

(** Truth value of a [str]: the empty string is false. *)
Definition truthy (s : string) : bool :=
  match s with EmptyString => false | _ => true end.

(** [x or ""] for an [Optional[str]]. *)
Definition or_empty (o : option string) : string := default "" o.

(** Truth value of an [Optional[str]]: [None] and [""] are false. *)
Definition truthy_opt (o : option string) : bool := truthy (or_empty o).

Definition startswith (p s : string) : bool := String.prefix p s.

(** [sep.join(l)]. *)
Fixpoint join (sep : string) (l : list string) : string :=
  match l with
  | [] => ""
  | [x] => x
  | x :: r => x ++ sep ++ join sep r
  end.

(** [s.split()]: the maximal runs of characters that are not
    whitespace, in order. *)
Fixpoint split_go (cur : option string) (s : string) : list string :=
  match s with
  | EmptyString => match cur with Some w => [String.rev w] | None => [] end
  | String c r =>
      if isspace c
      then match cur with
           | Some w => String.rev w :: split_go None r
           | None => split_go None r
           end
      else split_go (Some (String c (default "" cur))) r
  end.

Definition split (s : string) : list string := split_go None s.

(** [s.split(sep)] for a one-character separator. *)
Fixpoint split_on_go (sep : ascii) (cur : string) (s : string) : list string :=
  match s with
  | EmptyString => [String.rev cur]
  | String c r =>
      if Ascii.eqb c sep
      then String.rev cur :: split_on_go sep "" r
      else split_on_go sep (String c cur) r
  end.

Definition split_on (sep : ascii) (s : string) : list string :=
  split_on_go sep "" s.

(** [s.replace(a, b)] for single characters. *)
Fixpoint replace_char (a b : ascii) (s : string) : string :=
  match s with
  | EmptyString => EmptyString
  | String c r => String (if Ascii.eqb c a then b else c) (replace_char a b r)
  end.

(** [s.rfind(c)], [None] for -1. *)
Fixpoint rfind (c : ascii) (s : string) : option nat :=
  match s with
  | EmptyString => None
  | String d r =>
      match rfind c r with
      | Some i => Some (S i)
      | None => if Ascii.eqb d c then Some O else None
      end
  end.

(** The strings ["\t"] and ["\n"]. *)
Definition TAB : string := String "009"%char EmptyString.
Definition NL : string := String "010"%char EmptyString.

(** [s[i:]] and [s[:n]]. *)
Definition slice_from (i : nat) (s : string) : string :=
  String.substring i (String.length s - i) s.

Definition slice_to (n : nat) (s : string) : string :=
  String.substring 0 (Nat.min n (String.length s)) s.

End Py.

(** ** pathlib (POSIX flavour) *)

Module Path.

(** [PurePosixPath(p).name]: the last component, where empty components
    and ["."] components are dropped by the parser. *)
Definition name (p : string) : string :=
  List.last
    (List.filter (fun c => negb (String.eqb c "") && negb (String.eqb c "."))
                 (Py.split_on "/" p))
    "".

(** [PurePosixPath(p).suffix]. *)
Definition suffix (p : string) : string :=
  let nm := name p in
  match Py.rfind "." nm with
  | Some i =>
      if (0 <? i)%nat && (i <? String.length nm - 1)%nat
      then Py.slice_from i nm else ""
  | None => ""
  end.

End Path.

(** ** Exceptions and results *)

(** [HTTPException(status_code, detail)] is what the endpoints raise; any
    other exception (an [OSError] from the file system, say) is [OtherError].
    Two details are formatted by the source from a float and from a set in
    iteration order; the embedding keeps their fixed prefix. *)
Inductive exn : Type :=
| HTTPException (status_code : Z) (detail : string)
| OtherError (what : string).

Inductive result (A : Type) : Type :=
| Return (a : A)
| Raise (e : exn).
Arguments Return {A} a.
Arguments Raise {A} e.

Definition is_return {A} (r : result A) : bool :=
  match r with Return _ => true | Raise _ => false end.

(** ** Data model *)

(** One metadata dict of [labels.json]. *)
Record entry : Type := {
  uid : option string;              (* "id" *)
  file : option string;
  orig_name : option string;
  provided_text : option string;
  predicted_text : option string;
  corrected_text : option string;
  status : option string;
  notes : option string;
  upload_time : option string;
  file_size : option Z;
  file_hash : option string;
  approval_time : option string;
  rejection_time : option string
}.

(** Truth value of a dict: only the empty dict is false. *)
Definition entry_truthy (e : entry) : bool :=
  negb (match e with
        | Build_entry None None None None None None None None None None None
                      None None => true
        | _ => false
        end).

(** Insertion-ordered dict with [str] keys. *)
Module Dict.
Section Ops.
Context {V : Type}.

Fixpoint get (k : string) (d : list (string * V)) : option V :=
  match d with
  | [] => None
  | (k', v) :: r => if String.eqb k' k then Some v else get k r
  end.

(** [d[k] = v]: an existing key keeps its position, a new key goes last. *)
Fixpoint set (k : string) (v : V) (d : list (string * V)) : list (string * V) :=
  match d with
  | [] => [(k, v)]
  | (k', v') :: r =>
      if String.eqb k' k then (k, v) :: r else (k', v') :: set k v r
  end.

(** [del d[k]]. *)
Fixpoint del (k : string) (d : list (string * V)) : list (string * V) :=
  match d with
  | [] => []
  | (k', v') :: r => if String.eqb k' k then r else (k', v') :: del k r
  end.

Definition mem (k : string) (d : list (string * V)) : bool :=
  match get k d with Some _ => true | None => false end.

Definition keys (d : list (string * V)) : list string := map fst d.
Definition values (d : list (string * V)) : list V := map snd d.
End Ops.
End Dict.

(** What [json.load] makes of the bytes of a file. *)
Inductive doc : Type :=
| JsonDoc (content : list (string * entry))   (* parses to this dict *)
| Malformed (raw : list byte)                 (* json.JSONDecodeError *)
| Unreadable (raw : list byte).               (* any other exception *)

(** File names inside [DATA_DIR]. *)
Definition LABELS_FILE : string := "labels.json".
Definition TEMP_FILE : string := "labels.tmp".     (* LABELS_FILE.with_suffix('.tmp') *)
(** [LABELS_FILE.with_suffix(f".backup.{stamp}.json")] *)
Definition backup_file (stamp : string) : string :=
  "labels" ++ ".backup." ++ stamp ++ ".json".

(** The state the service works on: the in-memory dict of the
    [DataManager], the files of [DATA_DIR], and the two image
    directories. *)
Record world : Type := {
  labels : list (string * entry);
  data_dir : gmap string doc;
  images : gmap string (list byte);       (* IMAGES_DIR *)
  approved : gmap string (list byte)      (* APPROVED_DIR *)
}.

Definition with_labels (l : list (string * entry)) (w : world) : world :=
  {| labels := l; data_dir := data_dir w; images := images w;
     approved := approved w |}.
Definition with_data_dir (d : gmap string doc) (w : world) : world :=
  {| labels := labels w; data_dir := d; images := images w;
     approved := approved w |}.
Definition with_images (i : gmap string (list byte)) (w : world) : world :=
  {| labels := labels w; data_dir := data_dir w; images := i;
     approved := approved w |}.
Definition with_dirs (i a : gmap string (list byte)) (w : world) : world :=
  {| labels := labels w; data_dir := data_dir w; images := i; approved := a |}.

(** ** Configuration *)

Definition ALLOWED_EXTENSIONS : list string :=
  [".jpg"; ".jpeg"; ".png"; ".bmp"; ".tiff"; ".webp"].

Definition allowed (ext : string) : bool :=
  existsb (String.eqb ext) ALLOWED_EXTENSIONS.

(** One line of [results[0]]: [None], a list shorter than two, or a line
    whose second item is empty, is [NoLine]; otherwise the line carries
    [(text, confidence)].  A confidence is a finite binary64 number, that
    is, a rational; the order on them is the order of [Q]. *)
Inductive ocr_line : Type :=
| NoLine
| Line (text : string) (confidence : Q).

(** What [ocr_engine.ocr(img)] does on an image, image decoding included:
    it raises, or it returns [results]; a page that is [None] is the empty
    page. *)
Inductive ocr_outcome : Type :=
| OcrRaises
| OcrResults (results : list (list ocr_line)).

Record Config : Type := {
  ADMIN_TOKEN : string;
  MAX_FILE_SIZE : Z;
  USE_OCR : bool;
  ocr_engine : option (list byte -> ocr_outcome)
}.

(** ** [DataManager] *)

Module DataManager.

(** What the operating system answers during [_load_labels]. *)
Record load_io : Type := {
  load_stamp : string;        (* datetime.now().strftime('%Y%m%d_%H%M%S') *)
  load_rename_ok : bool       (* LABELS_FILE.rename(backup_file) succeeds *)
}.

(** [_load_labels]: returns the dict, or raises, and the files of
    [DATA_DIR] afterwards. *)
Definition _load_labels (io : load_io) (dir : gmap string doc)
  : result (list (string * entry)) * gmap string doc :=
  match dir !! LABELS_FILE with
  | None => (Return [], dir)
  | Some (JsonDoc l) => (Return l, dir)
  | Some (Malformed raw) =>
      if load_rename_ok io
      then (Return [],
            <[backup_file (load_stamp io) := Malformed raw]>
              (delete LABELS_FILE dir))
      else (Raise (OtherError "OSError: rename"), dir)
  | Some (Unreadable raw) => (Return [], dir)
  end.

(** [save_labels]: write the temporary file and replace [LABELS_FILE] by
    it; when any step fails the temporary file is removed and the
    exception is raised again. *)
Definition save_labels (ok : bool) (w : world) : result unit * world :=
  if ok
  then (Return tt,
        with_data_dir (<[LABELS_FILE := JsonDoc (labels w)]>
                         (delete TEMP_FILE (data_dir w))) w)
  else (Raise (OtherError "save_labels"),
        with_data_dir (delete TEMP_FILE (data_dir w)) w).

Definition add_upload (ok : bool) (upload_id : string) (metadata : entry)
                      (w : world) : result unit * world :=
  save_labels ok (with_labels (Dict.set upload_id metadata (labels w)) w).

(** [dict.update(updates)] with the keys that approval sets. *)
Definition update_approved (corrected now : string) (e : entry) : entry :=
  {| uid := uid e; file := file e; orig_name := orig_name e;
     provided_text := provided_text e; predicted_text := predicted_text e;
     corrected_text := Some corrected;
     status := Some "approved";
     notes := Some "approved by admin";
     upload_time := upload_time e; file_size := file_size e;
     file_hash := file_hash e;
     approval_time := Some now;
     rejection_time := rejection_time e |}.

Definition update_upload (ok : bool) (upload_id : string)
                         (updates : entry -> entry) (w : world)
  : result bool * world :=
  match Dict.get upload_id (labels w) with
  | None => (Return false, w)
  | Some e =>
      match save_labels ok
              (with_labels (Dict.set upload_id (updates e) (labels w)) w) with
      | (Return _, w') => (Return true, w')
      | (Raise x, w') => (Raise x, w')
      end
  end.

Definition delete_upload (ok : bool) (upload_id : string) (w : world)
  : result bool * world :=
  if negb (Dict.mem upload_id (labels w)) then (Return false, w)
  else
    match save_labels ok (with_labels (Dict.del upload_id (labels w)) w) with
    | (Return _, w') => (Return true, w')
    | (Raise x, w') => (Raise x, w')
    end.

Definition get_upload (upload_id : string) (w : world) : option entry :=
  Dict.get upload_id (labels w).

Definition get_all_uploads (w : world) : list entry := Dict.values (labels w).

End DataManager.

(** ** Ingestion: [validate_file], [run_ocr], [upload_file] *)

(** A FastAPI [UploadFile] as the endpoint sees it. *)
Record UploadFile : Type := {
  filename : option string;
  content_type : option string;
  size : option Z;
  body : option (list byte)        (* what [file.read()] returns; [None]: it raises *)
}.

Record UploadResponse : Type := {
  success : bool;
  upload_id : string;
  predicted : option string;
  message : string
}.

(** What the environment answers during one call of [upload_file]. *)
Record upload_io : Type := {
  uuid4 : string;            (* str(uuid.uuid4()) *)
  upload_now : string;       (* datetime.now().isoformat() *)
  write_ok : bool;           (* writing the image file succeeds *)
  upload_save_ok : bool      (* save_labels succeeds *)
}.

Definition mime_to_ext : list (string * string) :=
  [("image/jpeg", ".jpg"); ("image/jpg", ".jpg"); ("image/png", ".png");
   ("image/bmp", ".bmp"); ("image/tiff", ".tiff"); ("image/webp", ".webp")].

Section Uploads.

(** [hashlib.sha256(content).hexdigest()] *)
Variable sha256_hexdigest : list byte -> string.
Variable config : Config.

Definition validate_file (f : UploadFile) : result unit :=
  if negb (Py.truthy_opt (filename f))
  then Raise (HTTPException 400 "No filename provided")
  else
    let ext := Py.lower (Path.suffix (Py.or_empty (filename f))) in
    if negb (allowed ext)
    then Raise (HTTPException 400 "Invalid file type")
    else
      match size f with
      | Some n =>
          if negb (n =? 0)%Z && (MAX_FILE_SIZE config <? n)%Z
          then Raise (HTTPException 413 "File too large")
          else Return tt
      | None => Return tt
      end.

Definition calculate_file_hash (content : list byte) : string :=
  sha256_hexdigest content.

(** The loop of [run_ocr] over [results[0]]. *)
Fixpoint ocr_lines (page : list ocr_line) : list string :=
  match page with
  | [] => []
  | NoLine :: r => ocr_lines r
  | Line text confidence :: r =>
      if negb (Qle_bool confidence (1 # 2))       (* confidence > 0.5 *)
      then text :: ocr_lines r
      else ocr_lines r
  end.

Definition run_ocr (image_bytes : list byte) : option string :=
  if negb (USE_OCR config) then None
  else
    match ocr_engine config with
    | None => None
    | Some engine =>
        match engine image_bytes with
        | OcrRaises => None
        | OcrResults [] => None
        | OcrResults ([] :: _) => None
        | OcrResults (page :: _) =>
            match ocr_lines page with
            | [] => None
            | lines => Some (Py.join " " lines)
            end
        end
    end.

(** The duplicate scan of [upload_file]: the first record, in dict order,
    whose ["file_hash"] equals the hash. *)
Fixpoint find_duplicate (h : string) (d : list (string * entry))
  : option (string * entry) :=
  match d with
  | [] => None
  | (existing_id, existing_data) :: r =>
      if bool_decide (file_hash existing_data = Some h)
      then Some (existing_id, existing_data)
      else find_duplicate h r
  end.

(** The extension of the stored file. *)
Definition resolve_ext (f : UploadFile) : string :=
  let ct := Py.or_empty (content_type f) in
  if Py.startswith "image/" ct
  then default ".jpg" (Dict.get ct mime_to_ext)
  else
    let ext := if Py.truthy_opt (filename f)
               then Py.lower (Path.suffix (Py.or_empty (filename f)))
               else ".jpg" in
    if allowed ext then ext else ".jpg".

Definition new_metadata (io : upload_io) (f : UploadFile) (text : option string)
           (contents : list byte) (save_name : string)
           (prediction : option string) : entry :=
  {| uid := Some (uuid4 io);
     file := Some save_name;
     orig_name := filename f;
     provided_text := Some (Py.or_empty text);
     predicted_text := Some (Py.or_empty prediction);
     corrected_text := Some "";
     status := Some "pending";
     notes := Some "";
     upload_time := Some (upload_now io);
     file_size := Some (Z.of_nat (length contents));
     file_hash := Some (calculate_file_hash contents);
     approval_time := None;
     rejection_time := None |}.

Definition upload_file (io : upload_io) (f : UploadFile) (text : option string)
                       (w : world) : result UploadResponse * world :=
  match validate_file f with
  | Raise e => (Raise e, w)
  | Return _ =>
  match body f with
  | None => (Raise (HTTPException 400 "Failed to read file"), w)
  | Some contents =>
  if (Z.of_nat (length contents) =? 0)%Z
  then (Raise (HTTPException 400 "Empty file"), w)
  else if (MAX_FILE_SIZE config <? Z.of_nat (length contents))%Z
  then (Raise (HTTPException 413 "File too large"), w)
  else
    let upload_id := uuid4 io in
    let file_hash := calculate_file_hash contents in
    match find_duplicate file_hash (labels w) with
    | Some (existing_id, existing_data) =>
        (Return {| success := true; upload_id := existing_id;
                   predicted := predicted_text existing_data;
                   message := "File already exists in system" |}, w)
    | None =>
        let ext := resolve_ext f in
        let save_name := upload_id ++ ext in
        if negb (write_ok io)
        then (Raise (HTTPException 500 "Failed to save file"), w)
        else
          let w1 := with_images (<[save_name := contents]> (images w)) w in
          let prediction := if USE_OCR config then run_ocr contents else None in
          let metadata := new_metadata io f text contents save_name prediction in
          match DataManager.add_upload (upload_save_ok io) upload_id metadata w1 with
          | (Raise _, w2) =>
              (Raise (HTTPException 500 "Failed to save upload metadata"),
               with_images (delete save_name (images w2)) w2)
          | (Return _, w2) =>
              (Return {| success := true; upload_id := upload_id;
                         predicted := prediction;
                         message := "Upload successful" |}, w2)
          end
    end
  end
  end.

End Uploads.

(** ** Review workflow: [admin_approve_upload] *)

Record AdminResponse : Type := {
  admin_success : bool;
  admin_message : string
}.

(** What the environment answers during one call of [admin_approve_upload]. *)
Record approve_io : Type := {
  rename_ok : bool;          (* src_path.rename(dst_path) succeeds *)
  approve_save_ok : bool;    (* save_labels succeeds *)
  rename_back_ok : bool;     (* dst_path.rename(src_path) succeeds *)
  approve_now : string       (* datetime.now().isoformat() *)
}.

Section Review.

Variable config : Config.

Definition verify_admin_token (admin_token : option string) : result string :=
  match admin_token with
  | Some t =>
      if negb (Py.truthy t) || negb (String.eqb t (ADMIN_TOKEN config))
      then Raise (HTTPException 401 "Invalid or missing admin token")
      else Return t
  | None => Raise (HTTPException 401 "Invalid or missing admin token")
  end.

(** [p.rename(q)] between the two image directories: the file leaves
    [from] and replaces whatever [to] held under that name. *)
Definition move (name : string) (from to : gmap string (list byte))
  : option (gmap string (list byte) * gmap string (list byte)) :=
  match from !! name with
  | Some c => Some (delete name from, <[name := c]> to)
  | None => None
  end.

Definition admin_approve_upload (io : approve_io) (upload_id corrected_text : string)
           (admin_token : option string) (w : world)
  : result AdminResponse * world :=
  match verify_admin_token admin_token with
  | Raise e => (Raise e, w)
  | Return _ =>
  if negb (Py.truthy upload_id) || negb (Py.truthy (Py.strip upload_id))
  then (Raise (HTTPException 400 "Upload ID is required"), w)
  else if negb (Py.truthy corrected_text) || negb (Py.truthy (Py.strip corrected_text))
  then (Raise (HTTPException 400 "Corrected text is required"), w)
  else
    let upload_id := Py.strip upload_id in
    let corrected_text := Py.strip corrected_text in
    match DataManager.get_upload upload_id w with
    | None => (Raise (HTTPException 404 "Upload not found"), w)
    | Some e =>
    if negb (entry_truthy e)
    then (Raise (HTTPException 404 "Upload not found"), w)
    else
      match file e with
      | None => (Raise (OtherError "KeyError: 'file'"), w)
      | Some name =>
      (* src_path = IMAGES_DIR / name, dst_path = APPROVED_DIR / name *)
      match images w !! name with
      | None => (Raise (HTTPException 404 "Source file not found"), w)
      | Some _ =>
      match (if rename_ok io then move name (images w) (approved w) else None) with
      | None => (Raise (HTTPException 500 "Failed to move file"), w)
      | Some (img, app) =>
          let w1 := with_dirs img app w in
          let updates := DataManager.update_approved corrected_text (approve_now io) in
          match DataManager.update_upload (approve_save_ok io) upload_id updates w1 with
          | (Raise _, w2) =>
              (* try to move the file back; a failure is swallowed *)
              let w3 := match (if rename_back_ok io
                               then move name (approved w2) (images w2)
                               else None) with
                        | Some (app', img') => with_dirs img' app' w2
                        | None => w2
                        end in
              (Raise (HTTPException 500 "Failed to update upload"), w3)
          | (Return _, w2) =>
              (Return {| admin_success := true;
                         admin_message := "Upload approved successfully" |}, w2)
          end
      end
      end
      end
    end
  end.

End Review.

(** ** binary64 products of a count and a constant

    [monitor.py] compares a count with [len(approved_samples) * 0.8] and
    with [len(approved_samples) * 0.7].  The product is a float: the count
    is converted (exactly, below 2^53) and the exact product is rounded to
    53 significant bits, ties to even.  A finite float is kept here as
    [mant * 2^expo]. *)

Module Binary64.

Record t : Type := { mant : Z; expo : Z }.

(** The literals [0.8] and [0.7] as binary64 numbers. *)
Definition lit_0_8 : t := {| mant := 7205759403792794; expo := -53 |}.
Definition lit_0_7 : t := {| mant := 6305039478318694; expo := -53 |}.

(** Round a natural number to 53 significant bits, ties to even:
    the result is [fst * 2^snd]. *)
Definition round53 (N : Z) : Z * Z :=
  let L := Z.log2 N in
  if (L <=? 52)%Z then (N, 0)
  else
    let s := L - 52 in
    let q := Z.shiftr N s in
    let r := N mod 2 ^ s in
    let half := 2 ^ (s - 1) in
    if (half <? r)%Z || ((r =? half)%Z && Z.odd q) then (q + 1, s) else (q, s).

(** [n * x] for a Python int [0 <= n < 2^53] and a float [x]. *)
Definition mul_int (n : Z) (x : t) : t :=
  let '(q, s) := round53 (n * mant x) in
  {| mant := q; expo := s + expo x |}.

(** [c < x] for a Python int [c] and a float [x]; Python compares the
    two exactly. *)
Definition int_lt (c : Z) (x : t) : bool :=
  if (0 <=? expo x)%Z
  then (c <? mant x * 2 ^ expo x)%Z
  else (c * 2 ^ (- expo x) <? mant x)%Z.

End Binary64.

(** ** [monitor.py]: the training-readiness report *)

Inductive readiness_report : Type :=
| NoData (ready : bool) (reason : string)
| Report (ready : bool) (total_samples approved_samples minimum_required : Z)
         (recommendations quality_issues : list string)
         (training_data_exists : bool).

Definition ready (r : readiness_report) : bool :=
  match r with NoData b _ => b | Report b _ _ _ _ _ _ => b end.

Definition recommendations (r : readiness_report) : list string :=
  match r with NoData _ _ => [] | Report _ _ _ _ l _ _ => l end.

Definition quality_issues (r : readiness_report) : list string :=
  match r with NoData _ _ => [] | Report _ _ _ _ _ l _ => l end.

Module OCRMonitor.

(** [load_labels]: a missing file and a file that fails to load both
    give the empty dict. *)
Definition load_labels (dir : gmap string doc) : list (string * entry) :=
  match dir !! LABELS_FILE with
  | Some (JsonDoc l) => l
  | _ => []
  end.

Definition is_approved (e : entry) : bool :=
  bool_decide (status e = Some "approved").

(** [s.get("corrected_text", "").strip()] is true *)
Definition has_correction (e : entry) : bool :=
  Py.truthy (Py.strip (Py.or_empty (corrected_text e))).

(** [set(text.lower().strip() for text in all_texts if text.strip())] *)
Definition unique_texts (approved_samples : list entry) : gset string :=
  list_to_set
    (map (fun text => Py.strip (Py.lower text))
         (List.filter (fun text => Py.truthy (Py.strip text))
                 (map (fun s => Py.or_empty (corrected_text s)) approved_samples))).

Definition minimum_message (minimum_required have : Z) : string :=
  "Need at least " ++ pretty minimum_required ++ " approved samples. "
  ++ "Currently have " ++ pretty have ++ ".".

Definition generate_training_readiness_report (dir : gmap string doc)
           (train_txt_exists : bool) : readiness_report :=
  let labels := load_labels dir in
  match labels with
  | [] => NoData false "No data available"
  | _ =>
      let approved_samples := List.filter is_approved (Dict.values labels) in
      let n := Z.of_nat (length approved_samples) in
      let minimum_required := 100 in
      let recommendations :=
        if (n <? minimum_required)%Z
        then [minimum_message minimum_required n] else [] in
      let samples_with_corrections := List.filter has_correction approved_samples in
      let issues1 :=
        if Binary64.int_lt (Z.of_nat (length samples_with_corrections))
                           (Binary64.mul_int n Binary64.lit_0_8)
        then ["Less than 80% of approved samples have corrected text"] else [] in
      let unique := unique_texts approved_samples in
      let issues2 :=
        if Binary64.int_lt (Z.of_nat (base.size unique))
                           (Binary64.mul_int n Binary64.lit_0_7)
        then ["Low text diversity - many duplicate texts detected"] else [] in
      let quality_issues := (issues1 ++ issues2)%list in
      Report ((minimum_required <=? n)%Z
              && (Z.of_nat (length quality_issues) =? 0)%Z)
             (Z.of_nat (length labels)) n minimum_required
             recommendations quality_issues train_txt_exists
  end.

End OCRMonitor.

(** ** [train.py]: preparing the training lists *)

(** What [copyfile(src, dst)] and the two reads around it do for one
    file: an exception somewhere, or the bytes found in [dst] afterwards. *)
Inductive copy_outcome : Type :=
| CopyRaises
| CopyWrites (written : list byte).

(** What the environment answers during one run of
    [prepare_training_data]. *)
Record prepare_io : Type := {
  copy : string -> list byte -> copy_outcome;  (* by file name and source bytes *)
  train_write_ok : bool;                       (* writing train.txt succeeds *)
  val_write_ok : bool                          (* writing val.txt succeeds *)
}.

(** The files of [output_dir]: copied images and written text files. *)
Record output : Type := {
  out_images : gmap string (list byte);
  out_texts : gmap string string
}.

(** The accumulators of the loop of [prepare_training_data]. *)
Record prepare_acc : Type := {
  train_list : list string;
  successful_copies : Z;
  total_approved : Z;
  skipped_samples : list (string * string);
  acc_images : gmap string (list byte)
}.

Module TrainingDataPreparer.
Section Hashing.

(** [hashlib.md5(b).hexdigest()] *)
Variable md5_hexdigest : list byte -> string.

Definition _load_labels (dir : gmap string doc)
  : result (list (string * entry)) :=
  match dir !! LABELS_FILE with
  | None => Raise (OtherError "FileNotFoundError")
  | Some (JsonDoc l) => Return l
  | Some (Malformed _) => Raise (OtherError "JSONDecodeError")
  | Some (Unreadable _) => Raise (OtherError "Exception")
  end.

Definition valid_extensions : list string :=
  [".jpg"; ".jpeg"; ".png"; ".bmp"; ".tiff"; ".webp"].

(** [_validate_image_file(approved_dir / img_name)] *)
Definition _validate_image_file (approved_dir : gmap string (list byte))
           (img_name : string) : bool :=
  match approved_dir !! img_name with
  | None => false
  | Some c =>
      if (Z.of_nat (length c) =? 0)%Z then false
      else existsb (String.eqb (Py.lower (Path.suffix img_name))) valid_extensions
  end.

Definition _sanitize_text (text : string) : string :=
  if negb (Py.truthy text) then ""
  else
    let text := Py.join " " (Py.split text) in
    let text := Py.replace_char "013"%char " "%char
                  (Py.replace_char "010"%char " "%char
                     (Py.replace_char "009"%char " "%char text)) in
    let max_length := 1000%nat in
    let text := if (max_length <? String.length text)%nat
                then Py.slice_to max_length text else text in
    Py.strip text.

Fixpoint first_text (text_sources : list string) : string :=
  match text_sources with
  | [] => ""
  | text :: r =>
      if Py.truthy text && Py.truthy (Py.strip text)
      then _sanitize_text text
      else first_text r
  end.

Definition _get_best_text (e : entry) : string :=
  first_text [Py.or_empty (corrected_text e); Py.or_empty (provided_text e);
              Py.or_empty (predicted_text e)].

(** [_copy_with_verification(approved_dir / img_name, output_dir / img_name)]:
    whether it reports success, and the images of [output_dir] afterwards. *)
Definition _copy_with_verification (io : prepare_io) (img_name : string)
           (src : list byte) (out : gmap string (list byte))
  : bool * gmap string (list byte) :=
  match copy io img_name src with
  | CopyRaises => (false, out)
  | CopyWrites written =>
      if negb (String.eqb (md5_hexdigest src) (md5_hexdigest written))
      then (false, delete img_name out)
      else (true, <[img_name := written]> out)
  end.

(** One iteration of the loop over [labels.items()]. *)
Definition prepare_step (io : prepare_io) (approved_dir : gmap string (list byte))
           (acc : prepare_acc) (item : string * entry) : prepare_acc :=
  let '(k, e) := item in
  if negb (bool_decide (status e = Some "approved")) then acc
  else
    let total := (total_approved acc + 1)%Z in
    let skip reason :=
      {| train_list := train_list acc;
         successful_copies := successful_copies acc;
         total_approved := total;
         skipped_samples := (skipped_samples acc ++ [(k, reason)])%list;
         acc_images := acc_images acc |} in
    if negb (Py.truthy_opt (file e)) then skip "No filename"
    else
      let img_name := Py.or_empty (file e) in
      let text := _get_best_text e in
      if negb (Py.truthy text) then skip "No valid text"
      else if negb (_validate_image_file approved_dir img_name)
      then skip "Invalid image file"
      else
        match _copy_with_verification io img_name
                (default [] (approved_dir !! img_name)) (acc_images acc) with
        | (false, out) =>
            {| train_list := train_list acc;
               successful_copies := successful_copies acc;
               total_approved := total;
               skipped_samples := (skipped_samples acc ++ [(k, "File copy failed")])%list;
               acc_images := out |}
        | (true, out) =>
            {| train_list := (train_list acc ++ [(img_name ++ Py.TAB ++ text)%string])%list;
               successful_copies := (successful_copies acc + 1)%Z;
               total_approved := total;
               skipped_samples := skipped_samples acc;
               acc_images := out |}
        end.

Definition prepare_loop (io : prepare_io) (approved_dir : gmap string (list byte))
           (out : gmap string (list byte)) (labels : list (string * entry))
  : prepare_acc :=
  fold_left (prepare_step io approved_dir) labels
            {| train_list := []; successful_copies := 0; total_approved := 0;
               skipped_samples := []; acc_images := out |}.

(** [prepare_training_data]: the pair it returns and [output_dir]
    afterwards.  The preparation report it also writes is left out. *)
Definition prepare_training_data (io : prepare_io) (dir : gmap string doc)
           (approved_dir : gmap string (list byte)) (out : output)
  : (Z * Z) * output :=
  match _load_labels dir with
  | Raise _ => ((0, 0), out)
  | Return labels =>
      let acc := prepare_loop io approved_dir (out_images out) labels in
      let content := Py.join Py.NL (train_list acc) in
      if negb (train_write_ok io)
      then ((0, total_approved acc),
            {| out_images := acc_images acc; out_texts := out_texts out |})
      else
        let texts1 := <["train.txt" := content]> (out_texts out) in
        let texts2 := if val_write_ok io
                      then <["val.txt" := content]> texts1 else texts1 in
        ((successful_copies acc, total_approved acc),
         {| out_images := acc_images acc; out_texts := texts2 |})
  end.

End Hashing.
End TrainingDataPreparer.

Import TrainingDataPreparer.

(** ** Vocabulary of the statements *)

(** The lowercased extension of the client's file name. *)
Definition filename_ext (f : UploadFile) : string :=
  Py.lower (Path.suffix (Py.or_empty (filename f))).

Definition with_body (b : option (list byte)) (f : UploadFile) : UploadFile :=
  {| filename := filename f; content_type := content_type f; size := size f;
     body := b |}.

(** An upload passes validation: [validate_file] returns, the body can
    be read, and it is neither empty nor above the maximum size. *)
Definition content_ok (config : Config) (contents : list byte) : Prop :=
  (0 < Z.of_nat (length contents) <= MAX_FILE_SIZE config)%Z.

Definition passes_validation (config : Config) (f : UploadFile)
           (contents : list byte) : Prop :=
  validate_file config f = Return tt /\ body f = Some contents
  /\ content_ok config contents.

(** Extension resolution as the specification words it: the MIME table
    first, the extension of the client's file name when the content type is
    absent or not in the table, the default when neither gives an allowed
    extension. *)
Definition spec_resolve_ext (f : UploadFile) : string :=
  match Dict.get (Py.or_empty (content_type f)) mime_to_ext with
  | Some ext => ext
  | None => if allowed (filename_ext f) then filename_ext f else ".jpg"
  end.

(** The lines kept as the specification words it: confidence not below
    0.5. *)
Fixpoint spec_ocr_lines (page : list ocr_line) : list string :=
  match page with
  | [] => []
  | NoLine :: r => spec_ocr_lines r
  | Line text confidence :: r =>
      if Qle_bool (1 # 2) confidence
      then text :: spec_ocr_lines r
      else spec_ocr_lines r
  end.

(** The text of a line whose confidence is above 0.5. *)
Definition above_threshold (l : ocr_line) : option string :=
  match l with
  | NoLine => None
  | Line text confidence =>
      if Qlt_le_dec (1 # 2) confidence then Some text else None
  end.

(** An item of the label store is successfully prepared by [train.py]:
    it is approved, names a file, has a usable text, its image in the
    approved directory is valid, and the verified copy succeeds. *)
Definition prepared (md5 : list byte -> string) (io : prepare_io)
           (approved_dir : gmap string (list byte)) (item : string * entry) : bool :=
  let e := snd item in
  let img_name := Py.or_empty (file e) in
  bool_decide (status e = Some "approved")
  && Py.truthy_opt (file e)
  && Py.truthy (_get_best_text e)
  && _validate_image_file approved_dir img_name
  && match copy io img_name (default [] (approved_dir !! img_name)) with
     | CopyRaises => false
     | CopyWrites written =>
         String.eqb (md5 (default [] (approved_dir !! img_name))) (md5 written)
     end.

(** The line [<filename>TAB<text>] of an item. *)
Definition train_line (item : string * entry) : string :=
  Py.or_empty (file (snd item)) ++ Py.TAB ++ _get_best_text (snd item).

(** Every character of [s] satisfies [P]. *)
Fixpoint string_forallb (P : ascii -> bool) (s : string) : bool :=
  match s with
  | EmptyString => true
  | String c r => P c && string_forallb P r
  end.

(** A character that cannot break a line of the training lists: not
    whitespace, or the blank. *)
Definition line_safe (c : ascii) : bool :=
  negb (Py.isspace c) || Ascii.eqb c " ".

(** Concrete values used to run the definitions. *)
Module Demo.

(** An injective stand-in for a digest. *)
Definition digest (content : list byte) : string := string_of_list_byte content.

Definition engine_none : list byte -> ocr_outcome := fun _ => OcrResults [].

Definition config : Config :=
  {| ADMIN_TOKEN := "changeme"; MAX_FILE_SIZE := 10485760; USE_OCR := true;
     ocr_engine := Some engine_none |}.

Definition io (id : string) : upload_io :=
  {| uuid4 := id; upload_now := "2025-01-01T00:00:00"; write_ok := true;
     upload_save_ok := true |}.

Definition empty_world : world :=
  {| labels := []; data_dir := ∅; images := ∅; approved := ∅ |}.

Definition png (name : string) (content : list byte) : UploadFile :=
  {| filename := Some name; content_type := Some "image/png"; size := None;
     body := Some content |}.

(** A store with one pending record whose file is in the pending
    directory. *)
Definition record1 : entry :=
  {| uid := Some "u1"; file := Some "u1.png"; orig_name := Some "a.png";
     provided_text := Some ""; predicted_text := Some "helo";
     corrected_text := Some ""; status := Some "pending"; notes := Some "";
     upload_time := Some "2025-01-01T00:00:00"; file_size := Some 1%Z;
     file_hash := Some (digest [x68]);
     approval_time := None; rejection_time := None |}.

Definition pending_world : world :=
  {| labels := [("u1", record1)];
     data_dir := {[ LABELS_FILE := JsonDoc [("u1", record1)] ]};
     images := {[ "u1.png" := [x68] ]};
     approved := ∅ |}.

(** A store of [n] approved records with pairwise different corrected
    texts. *)
Definition approved_record (i : nat) : entry :=
  {| uid := Some (pretty i); file := Some (pretty i ++ ".png");
     orig_name := Some "a.png"; provided_text := Some "";
     predicted_text := Some ""; corrected_text := Some ("Sample " ++ pretty i);
     status := Some "approved"; notes := Some "approved by admin";
     upload_time := Some "2025-01-01T00:00:00"; file_size := Some 1%Z;
     file_hash := Some (pretty i);
     approval_time := Some "2025-01-02T00:00:00"; rejection_time := None |}.

Definition approved_store (n : nat) : gmap string doc :=
  {[ LABELS_FILE := JsonDoc (map (fun i => (pretty i, approved_record i))
                                 (seq 0 n)) ]}.

Definition prepare_ok : prepare_io :=
  {| copy := fun _ src => CopyWrites src; train_write_ok := true;
     val_write_ok := true |}.

Definition empty_output : output := {| out_images := ∅; out_texts := ∅ |}.

Definition approve_ok : approve_io :=
  {| rename_ok := true; approve_save_ok := true; rename_back_ok := true;
     approve_now := "2025-01-02T00:00:00" |}.

Definition approve_save_fails : approve_io :=
  {| rename_ok := true; approve_save_ok := false; rename_back_ok := true;
     approve_now := "2025-01-02T00:00:00" |}.

End Demo.

(** * The rest of the service *)

(** ** Review workflow: [admin_list_uploads], [admin_reject_upload],
       [admin_delete_upload] *)

(** What the environment answers during one call of [admin_reject_upload]. *)
Record reject_io : Type := {
  reject_save_ok : bool;     (* save_labels succeeds *)
  reject_now : string        (* datetime.now().isoformat() *)
}.

(** What the environment answers during one call of [admin_delete_upload]. *)
Record delete_io : Type := {
  unlink_images_ok : bool;     (* unlinking the file in IMAGES_DIR succeeds *)
  unlink_approved_ok : bool;   (* unlinking the file in APPROVED_DIR succeeds *)
  delete_save_ok : bool        (* save_labels succeeds *)
}.

(** [dict.update(updates)] with the keys that rejection sets;
    [reason or "rejected by admin"] takes the default for [None] and for [""]. *)
Definition update_rejected (reason : option string) (now : string) (e : entry)
  : entry :=
  {| uid := uid e; file := file e; orig_name := orig_name e;
     provided_text := provided_text e; predicted_text := predicted_text e;
     corrected_text := corrected_text e;
     status := Some "rejected";
     notes := Some (if Py.truthy_opt reason then Py.or_empty reason
                    else "rejected by admin");
     upload_time := upload_time e; file_size := file_size e;
     file_hash := file_hash e;
     approval_time := approval_time e;
     rejection_time := Some now |}.

(** One round of the loop of [admin_delete_upload] over the two possible
    locations: the directory afterwards and whether a file was deleted. *)
Definition unlink_if_exists (ok : bool) (name : string)
           (dir : gmap string (list byte)) : gmap string (list byte) * Z :=
  match dir !! name with
  | Some _ => if ok then (delete name dir, 1) else (dir, 0)
  | None => (dir, 0)
  end.

Definition deleted_message (n : Z) : string :=
  "Upload deleted successfully. Files removed: " ++ pretty n.

Section ReviewMore.

Variable config : Config.

Definition admin_list_uploads (admin_token : option string) (w : world)
  : result (list entry) * world :=
  match verify_admin_token config admin_token with
  | Raise e => (Raise e, w)
  | Return _ => (Return (DataManager.get_all_uploads w), w)
  end.

Definition admin_reject_upload (io : reject_io) (upload_id : string)
           (reason : option string) (admin_token : option string) (w : world)
  : result AdminResponse * world :=
  match verify_admin_token config admin_token with
  | Raise e => (Raise e, w)
  | Return _ =>
  match DataManager.get_upload upload_id w with
  | None => (Raise (HTTPException 404 "Upload not found"), w)
  | Some e =>
  if negb (entry_truthy e)
  then (Raise (HTTPException 404 "Upload not found"), w)
  else
    let updates := update_rejected reason (reject_now io) in
    match DataManager.update_upload (reject_save_ok io) upload_id updates w with
    | (Raise _, w') => (Raise (HTTPException 500 "Failed to update upload"), w')
    | (Return _, w') =>
        (Return {| admin_success := true;
                   admin_message := "Upload rejected successfully" |}, w')
    end
  end
  end.

Definition admin_delete_upload (io : delete_io) (upload_id : string)
           (admin_token : option string) (w : world)
  : result AdminResponse * world :=
  match verify_admin_token config admin_token with
  | Raise e => (Raise e, w)
  | Return _ =>
  match DataManager.get_upload upload_id w with
  | None => (Raise (HTTPException 404 "Upload not found"), w)
  | Some e =>
  if negb (entry_truthy e)
  then (Raise (HTTPException 404 "Upload not found"), w)
  else
    match file e with
    | None => (Raise (OtherError "KeyError: 'file'"), w)
    | Some name =>
        let '(img, n1) := unlink_if_exists (unlink_images_ok io) name (images w) in
        let '(app, n2) := unlink_if_exists (unlink_approved_ok io) name (approved w) in
        let w1 := with_dirs img app w in
        match DataManager.delete_upload (delete_save_ok io) upload_id w1 with
        | (Raise _, w2) =>
            (Raise (HTTPException 500 "Failed to delete upload metadata"), w2)
        | (Return _, w2) =>
            (Return {| admin_success := true;
                       admin_message := deleted_message (n1 + n2) |}, w2)
        end
    end
  end
  end.

End ReviewMore.

(** ** [health_check] and [get_stats] *)

Record Health : Type := {
  health_status : string;
  health_timestamp : string;
  health_ocr_enabled : bool;
  total_uploads : Z;
  approved_uploads : Z;
  pending_uploads : Z
}.

(** [len([u for u in labels.values() if u.get("status") == s])] *)
Definition count_status (s : string) (uploads : list entry) : Z :=
  Z.of_nat (length (List.filter (fun u => bool_decide (status u = Some s)) uploads)).

Definition health_check (config : Config) (now : string) (w : world) : Health :=
  {| health_status := "healthy";
     health_timestamp := now;
     health_ocr_enabled := USE_OCR config;
     total_uploads := Z.of_nat (length (labels w));
     approved_uploads := count_status "approved" (Dict.values (labels w));
     pending_uploads := count_status "pending" (Dict.values (labels w)) |}.

(** The dict that [get_stats] returns, without ["average_file_size"], which
    is a float quotient. *)
Record Stats : Type := {
  stats_total_uploads : Z;
  status_breakdown : list (string * Z);
  total_file_size : Z;
  stats_ocr_enabled : bool
}.

(** [d[k] = d.get(k, 0) + 1] *)
Definition incr (k : string) (d : list (string * Z)) : list (string * Z) :=
  Dict.set k (default 0 (Dict.get k d) + 1)%Z d.

(** One round of the loop of [get_stats]. *)
Definition stats_step (stats : Stats) (upload : entry) : Stats :=
  let st := default "unknown" (status upload) in
  {| stats_total_uploads := stats_total_uploads stats;
     status_breakdown := incr st (status_breakdown stats);
     total_file_size := (total_file_size stats + default 0 (file_size upload))%Z;
     stats_ocr_enabled := stats_ocr_enabled stats |}.

Definition get_stats (config : Config) (w : world) : Stats :=
  let uploads := DataManager.get_all_uploads w in
  fold_left stats_step uploads
            {| stats_total_uploads := Z.of_nat (length uploads);
               status_breakdown := [];
               total_file_size := 0;
               stats_ocr_enabled := USE_OCR config |}.

(** ** [monitor.py]: [analyze_dataset]

    The accumulation loop of [analyze_dataset].  The three averages that the
    source adds at the end with [np.mean] and [np.std] are floats and are
    not part of the embedding.  [str.isalnum] on one character is a
    parameter. *)

Record analysis : Type := {
  an_total_samples : Z;
  an_status_breakdown : list (string * Z);
  text_length_stats : list Z;
  character_frequency : list (string * Z);
  word_frequency : list (string * Z);
  has_predicted_text : Z;
  has_provided_text : Z;
  has_corrected_text : Z;
  prediction_accuracy : list bool;     (* 1.0 is [true], 0.0 is [false] *)
  total_size : Z;
  size_distribution : list Z
}.

Module Analyzer.
Section WithIsalnum.

Variable isalnum : ascii -> bool.

(** [word.isalnum()]: non-empty and every character alphanumeric. *)
Definition word_isalnum (word : string) : bool :=
  Py.truthy word && string_forallb isalnum word.

(** [for char in text.lower(): ...] *)
Fixpoint count_chars (s : string) (freq : list (string * Z)) : list (string * Z) :=
  match s with
  | EmptyString => freq
  | String c r =>
      count_chars r (if isalnum c || Py.isspace c
                     then incr (String c EmptyString) freq else freq)
  end.

(** [for word in words: ...] *)
Definition count_words (words : list string) (freq : list (string * Z))
  : list (string * Z) :=
  fold_left (fun f word => if word_isalnum word then incr word f else f)
            words freq.

(** The body of [for text in texts]. *)
Definition text_step (a : analysis) (text : string) : analysis :=
  if negb (Py.truthy text) then a
  else
    {| an_total_samples := an_total_samples a;
       an_status_breakdown := an_status_breakdown a;
       text_length_stats :=
         (text_length_stats a ++ [Z.of_nat (String.length text)])%list;
       character_frequency := count_chars (Py.lower text) (character_frequency a);
       word_frequency := count_words (Py.split (Py.lower text)) (word_frequency a);
       has_predicted_text := has_predicted_text a;
       has_provided_text := has_provided_text a;
       has_corrected_text := has_corrected_text a;
       prediction_accuracy := prediction_accuracy a;
       total_size := total_size a;
       size_distribution := size_distribution a |}.

Definition bump (b : bool) (n : Z) : Z := if b then (n + 1)%Z else n.

(** The body of [for uid, entry in labels.items()]. *)
Definition entry_step (a : analysis) (item : string * entry) : analysis :=
  let e := snd item in
  let st := default "unknown" (status e) in
  let a1 :=
    {| an_total_samples := an_total_samples a;
       an_status_breakdown := incr st (an_status_breakdown a);
       text_length_stats := text_length_stats a;
       character_frequency := character_frequency a;
       word_frequency := word_frequency a;
       has_predicted_text := has_predicted_text a;
       has_provided_text := has_provided_text a;
       has_corrected_text := has_corrected_text a;
       prediction_accuracy := prediction_accuracy a;
       total_size := total_size a;
       size_distribution := size_distribution a |} in
  let a2 := fold_left text_step
              [Py.or_empty (predicted_text e); Py.or_empty (provided_text e);
               Py.or_empty (corrected_text e)] a1 in
  let pred := Py.strip (Py.lower (Py.or_empty (predicted_text e))) in
  let prov := Py.strip (Py.lower (Py.or_empty (provided_text e))) in
  let sz := default 0%Z (file_size e) in
  {| an_total_samples := an_total_samples a2;
     an_status_breakdown := an_status_breakdown a2;
     text_length_stats := text_length_stats a2;
     character_frequency := character_frequency a2;
     word_frequency := word_frequency a2;
     has_predicted_text :=
       bump (Py.truthy_opt (predicted_text e)) (has_predicted_text a2);
     has_provided_text :=
       bump (Py.truthy_opt (provided_text e)) (has_provided_text a2);
     has_corrected_text :=
       bump (Py.truthy_opt (corrected_text e)) (has_corrected_text a2);
     prediction_accuracy :=
       if Py.truthy pred && Py.truthy prov
       then (prediction_accuracy a2 ++ [String.eqb pred prov])%list
       else prediction_accuracy a2;
     total_size := (total_size a2 + sz)%Z;
     size_distribution := (size_distribution a2 ++ [sz])%list |}.

Definition empty_analysis (n : Z) : analysis :=
  {| an_total_samples := n; an_status_breakdown := [];
     text_length_stats := []; character_frequency := []; word_frequency := [];
     has_predicted_text := 0; has_provided_text := 0; has_corrected_text := 0;
     prediction_accuracy := []; total_size := 0; size_distribution := [] |}.

(** [analyze_dataset]: [inl] is the dict [{"error": ...}]. *)
Definition analyze_dataset (dir : gmap string doc) : string + analysis :=
  let labels := OCRMonitor.load_labels dir in
  match labels with
  | [] => inl "No data available"
  | _ => inr (fold_left entry_step labels
                        (empty_analysis (Z.of_nat (length labels))))
  end.

End WithIsalnum.
End Analyzer.

(** ** [OCR_Server.py] and [backend/python_services/ocr/main.py]:
       [sanitize_for_json]

    A Python value as the [isinstance] tests of [sanitize_for_json] see it:
    a numpy array, a list, a dict, a scalar ([str], [int], [float], [bool]
    or [None]), or anything else.  What [ndarray.tolist()] and [str(obj)]
    return are parameters. *)

Section SanitizeForJson.

Variables ndarray scalar other key : Type.

#[warnings="-register-all"] Inductive pyobj : Type :=
| Ndarray (a : ndarray)
| PyList (l : list pyobj)
| PyDict (d : list (key * pyobj))
| Scalar (s : scalar)
| Other (o : other).

Variable tolist : ndarray -> pyobj.
Variable str : other -> scalar.

Fixpoint sanitize_for_json (obj : pyobj) : pyobj :=
  match obj with
  | Ndarray a => tolist a
  | PyList l => PyList (map sanitize_for_json l)
  | PyDict d => PyDict (map (fun kv => let '(k, v) := kv in
                                       (k, sanitize_for_json v)) d)
  | Scalar s => Scalar s
  | Other o => Scalar (str o)
  end.

(** A value built from lists, dicts and scalars only. *)
Fixpoint json_safe (obj : pyobj) : bool :=
  match obj with
  | Ndarray _ => false
  | PyList l => forallb json_safe l
  | PyDict d => forallb (fun kv => let '(k, v) := kv in json_safe v) d
  | Scalar _ => true
  | Other _ => false
  end.

End SanitizeForJson.

Arguments Ndarray {ndarray scalar other key} a.
Arguments PyList {ndarray scalar other key} l.
Arguments PyDict {ndarray scalar other key} d.
Arguments Scalar {ndarray scalar other key} s.
Arguments Other {ndarray scalar other key} o.
Arguments sanitize_for_json {ndarray scalar other key} tolist str obj.
Arguments json_safe {ndarray scalar other key} obj.

(** ** Vocabulary of the further statements *)

(** Words separated by single blanks: no whitespace character but the
    blank, no blank after a blank or (with [after_blank] set) at the start,
    and no blank at the end unless [trailing] allows it. *)
Fixpoint single_spaced (trailing after_blank : bool) (s : string) : bool :=
  match s with
  | EmptyString => trailing || negb after_blank
  | String c r =>
      if Py.isspace c
      then negb after_blank && Ascii.eqb c " " && single_spaced trailing true r
      else single_spaced trailing false r
  end.

(** The shape of a sanitised text: empty, or words separated by single
    blanks. *)
Definition normalised (s : string) : bool :=
  match s with
  | EmptyString => true
  | _ => single_spaced false true s
  end.

(** A word of [str.split()]: not empty and without whitespace. *)
Definition word (w : string) : bool :=
  Py.truthy w && string_forallb (fun c => negb (Py.isspace c)) w.

(** A character of [str(uuid.uuid4())]: a lowercase hexadecimal digit or a
    dash. *)
Definition uuid_char (c : ascii) : bool :=
  let n := N_of_ascii c in
  ((48 <=? n)%N && (n <=? 57)%N) || ((97 <=? n)%N && (n <=? 102)%N) || (n =? 45)%N.

(** * Properties *)

(** ** The definitions run *)

Example suffix_ex1 : Path.suffix "dir/Scan.01.PNG" = ".PNG".
Proof. reflexivity. Qed.
Example suffix_ex2 : Path.suffix ".bashrc" = "" /\ Path.suffix "a." = ""
                     /\ Path.suffix "x.png/" = ".png" /\ Path.suffix ".." = "".
Proof. repeat split; reflexivity. Qed.
Example strip_ex : Py.strip "  a b  " = "a b" /\ Py.strip "   " = "".
Proof. split; reflexivity. Qed.
Example split_ex : Py.split "  ab   c d " = ["ab"; "c"; "d"].
Proof. reflexivity. Qed.
Example lower_ex : Py.lower "A.JpG" = "a.jpg".
Proof. reflexivity. Qed.
Example float_90_07 :
  Binary64.mul_int 90 Binary64.lit_0_7
  = {| Binary64.mant := 8866461766385663; Binary64.expo := -47 |}.
Proof. reflexivity. Qed.
Example float_5_08 :
  Binary64.int_lt 4 (Binary64.mul_int 5 Binary64.lit_0_8) = false
  /\ Binary64.int_lt 3 (Binary64.mul_int 5 Binary64.lit_0_8) = true.
Proof. split; reflexivity. Qed.

(** ** Dict lemmas *)

Section DictFacts.
Context {V : Type}.
Implicit Types (d : list (string * V)) (k : string) (v : V).

Lemma dict_get_set_eq d k v : Dict.get k (Dict.set k v d) = Some v.
Proof.
  induction d as [|[k' v'] d IH]; simpl.
  - by rewrite String.eqb_refl.
  - destruct (String.eqb k' k) eqn:E; simpl.
    + by rewrite String.eqb_refl.
    + by rewrite E.
Qed.

Lemma dict_get_set_ne d k k' v :
  k <> k' -> Dict.get k' (Dict.set k v d) = Dict.get k' d.
Proof.
  intros Hne. induction d as [|[k0 v0] d IH]; simpl.
  - destruct (String.eqb_spec k k'); congruence.
  - destruct (String.eqb_spec k0 k) as [->|Hk]; simpl.
    + destruct (String.eqb_spec k k'); congruence.
    + by rewrite IH.
Qed.

Lemma dict_get_Some_In d k v : Dict.get k d = Some v -> In (k, v) d.
Proof.
  induction d as [|[k0 v0] d IH]; simpl; [done|].
  destruct (String.eqb_spec k0 k) as [->|Hk]; intros H.
  - left. congruence.
  - right. by apply IH.
Qed.

Lemma dict_In_get d k v :
  NoDup (Dict.keys d) -> In (k, v) d -> Dict.get k d = Some v.
Proof.
  induction d as [|[k0 v0] d IH]; simpl; [done|].
  intros Hnd [Heq|Hin].
  - injection Heq as -> ->. by rewrite String.eqb_refl.
  - apply NoDup_cons in Hnd as [Hnot Hnd].
    destruct (String.eqb_spec k0 k) as [->|Hk].
    + exfalso. apply Hnot. apply list_elem_of_In.
      change k with (fst (k, v)). by apply in_map.
    + by apply IH.
Qed.

Lemma dict_keys_set_mem d k v : In k (Dict.keys (Dict.set k v d)).
Proof.
  induction d as [|[k0 v0] d IH]; simpl; [by left|].
  destruct (String.eqb_spec k0 k) as [->|Hk]; simpl; [by left|by right].
Qed.

Lemma dict_keys_set_old d k k' v :
  In k' (Dict.keys d) -> In k' (Dict.keys (Dict.set k v d)).
Proof.
  induction d as [|[k0 v0] d IH]; simpl; [done|].
  intros [<-|Hin].
  - destruct (String.eqb_spec k0 k) as [->|Hk]; simpl; by left.
  - destruct (String.eqb_spec k0 k) as [->|Hk]; simpl; right; auto.
Qed.

End DictFacts.

(** ** Validation comes first (C9, C5) *)

Section Validation.

Variable sha : list byte -> string.
Variable config : Config.

Lemma validate_file_no_filename f :
  Py.truthy_opt (filename f) = false ->
  validate_file config f = Raise (HTTPException 400 "No filename provided").
Proof. intros H. unfold validate_file. by rewrite H. Qed.

Lemma validate_file_bad_ext f :
  Py.truthy_opt (filename f) = true -> allowed (filename_ext f) = false ->
  validate_file config f = Raise (HTTPException 400 "Invalid file type").
Proof.
  intros H1 H2. unfold validate_file. rewrite H1. simpl.
  unfold filename_ext in H2. by rewrite H2.
Qed.

Lemma validate_file_Return f :
  validate_file config f = Return tt ->
  Py.truthy_opt (filename f) = true /\ allowed (filename_ext f) = true.
Proof.
  unfold validate_file, filename_ext.
  destruct (Py.truthy_opt (filename f)); simpl; [|discriminate].
  destruct (allowed _); simpl; [done|discriminate].
Qed.

Lemma validate_file_with_body f b :
  validate_file config (with_body b f) = validate_file config f.
Proof. reflexivity. Qed.

Lemma upload_file_validate_raise io f text w e :
  validate_file config f = Raise e ->
  upload_file sha config io f text w = (Raise e, w).
Proof. intros H. unfold upload_file. by rewrite H. Qed.

Lemma upload_file_Return_validated io f text w r w' :
  upload_file sha config io f text w = (Return r, w') ->
  validate_file config f = Return tt.
Proof.
  unfold upload_file. destruct (validate_file config f) as [[]|e]; [done|].
  discriminate.
Qed.

End Validation.

(** C9. An upload whose file name is missing or empty, or whose file name
    has a lowercased extension outside the allowed image extensions, is
    rejected with a 400 validation error whatever its declared content
    type; nothing is read or hashed by then (the outcome is the same for
    every body and every hash function, and the state is untouched); and so
    every successful ingestion had a file name with an allowed extension. *)
Theorem upload_needs_allowed_filename :
  forall (sha : list byte -> string) (config : Config) (io : upload_io)
         (f : UploadFile) (text : option string) (w : world),
    (Py.truthy_opt (filename f) = false \/ allowed (filename_ext f) = false ->
     (exists detail,
        upload_file sha config io f text w = (Raise (HTTPException 400 detail), w))
     /\ (forall sha' io' b,
           upload_file sha' config io' (with_body b f) text w
           = upload_file sha config io f text w))
    /\ (forall r w',
           upload_file sha config io f text w = (Return r, w') ->
           exists name, filename f = Some name /\ name <> ""
                        /\ In (Py.lower (Path.suffix name)) ALLOWED_EXTENSIONS).
Proof.
  intros sha config io f text w. split.
  - intros Hbad.
    assert (exists detail,
               validate_file config f = Raise (HTTPException 400 detail)) as [d Hd].
    { destruct (Py.truthy_opt (filename f)) eqn:Hn.
      - destruct Hbad as [|Hext]; [done|]. eexists.
        by apply validate_file_bad_ext.
      - eexists. by apply validate_file_no_filename. }
    split.
    + exists d. by apply upload_file_validate_raise.
    + intros sha' io' b.
      rewrite (upload_file_validate_raise sha config io f text w _ Hd).
      apply upload_file_validate_raise. by rewrite validate_file_with_body.
  - intros r w' Hok.
    apply upload_file_Return_validated, validate_file_Return in Hok as [Hn Hext].
    unfold filename_ext in Hext.
    destruct (filename f) as [name|]; [|done]. exists name. split; [done|].
    split; [by destruct name|].
    simpl in Hext. unfold allowed in Hext. apply existsb_exists in Hext.
    destruct Hext as [x [Hin Heq]]. apply String.eqb_eq in Heq. by subst.
Qed.

Lemma upload_needs_allowed_filename_witness :
  exists detail,
    upload_file Demo.digest Demo.config (Demo.io "u1")
                (Demo.png "notes.txt" [x68; x69]) None Demo.empty_world
    = (Raise (HTTPException 400 detail), Demo.empty_world).
Proof.
  apply (proj1 (proj1 (upload_needs_allowed_filename
                         Demo.digest Demo.config (Demo.io "u1")
                         (Demo.png "notes.txt" [x68; x69]) None Demo.empty_world)
                      (or_intror eq_refl))).
Defined.

(** ** What a call of [upload_file] that returns has done *)

Section UploadInversion.

Variable sha : list byte -> string.
Variable config : Config.

Lemma upload_file_after_validation io f text w contents :
  passes_validation config f contents ->
  upload_file sha config io f text w =
    match find_duplicate (sha contents) (labels w) with
    | Some (existing_id, existing_data) =>
        (Return {| success := true; upload_id := existing_id;
                   predicted := predicted_text existing_data;
                   message := "File already exists in system" |}, w)
    | None =>
        let save_name := uuid4 io ++ resolve_ext f in
        if negb (write_ok io)
        then (Raise (HTTPException 500 "Failed to save file"), w)
        else
          let w1 := with_images (<[save_name := contents]> (images w)) w in
          let prediction := if USE_OCR config then run_ocr config contents else None in
          let metadata := new_metadata sha io f text contents save_name prediction in
          match DataManager.add_upload (upload_save_ok io) (uuid4 io) metadata w1 with
          | (Raise _, w2) =>
              (Raise (HTTPException 500 "Failed to save upload metadata"),
               with_images (delete save_name (images w2)) w2)
          | (Return _, w2) =>
              (Return {| success := true; upload_id := uuid4 io;
                         predicted := prediction;
                         message := "Upload successful" |}, w2)
          end
    end.
Proof.
  intros (Hv & Hb & Hpos & Hmax). unfold upload_file.
  rewrite Hv, Hb.
  destruct (Z.eqb_spec (Z.of_nat (length contents)) 0) as [E|_]; [lia|].
  destruct (Z.ltb_spec (MAX_FILE_SIZE config) (Z.of_nat (length contents)));
    [lia|reflexivity].
Qed.

Lemma upload_file_Return_passes io f text w r w' :
  upload_file sha config io f text w = (Return r, w') ->
  exists contents, passes_validation config f contents.
Proof.
  unfold upload_file, passes_validation, content_ok.
  destruct (validate_file config f) as [[]|e]; [|discriminate].
  destruct (body f) as [contents|]; [|discriminate].
  destruct (Z.eqb_spec (Z.of_nat (length contents)) 0) as [E|Hne]; [discriminate|].
  destruct (Z.ltb_spec (MAX_FILE_SIZE config) (Z.of_nat (length contents)));
    [discriminate|].
  intros _. exists contents. repeat split; lia.
Qed.

(** A returning call either found a duplicate and changed nothing, or
    stored the file and the record under the fresh id. *)
Lemma upload_file_Return_cases io f text w r w' contents :
  body f = Some contents ->
  upload_file sha config io f text w = (Return r, w') ->
  (exists e, find_duplicate (sha contents) (labels w) = Some (upload_id r, e)
             /\ predicted r = predicted_text e
             /\ message r = "File already exists in system" /\ w' = w)
  \/ (exists e, find_duplicate (sha contents) (labels w) = None
                /\ upload_id r = uuid4 io
                /\ message r = "Upload successful"
                /\ file e = Some (uuid4 io ++ resolve_ext f)
                /\ file_hash e = Some (sha contents)
                /\ labels w' = Dict.set (uuid4 io) e (labels w)
                /\ images w' = <[uuid4 io ++ resolve_ext f := contents]> (images w)
                /\ approved w' = approved w).
Proof.
  intros Hb Hup.
  destruct (upload_file_Return_passes _ _ _ _ _ _ Hup) as [c Hpass].
  assert (c = contents) as -> by (destruct Hpass as (_ & Hb' & _); congruence).
  rewrite (upload_file_after_validation _ _ _ _ _ Hpass) in Hup.
  destruct (find_duplicate (sha contents) (labels w)) as [[k e]|] eqn:Hdup.
  - left. injection Hup as <- <-. by exists e.
  - right. simpl in Hup.
    destruct (write_ok io); simpl in Hup; [|discriminate].
    unfold DataManager.add_upload, DataManager.save_labels in Hup.
    destruct (upload_save_ok io); simpl in Hup; [|discriminate].
    injection Hup as <- <-. eexists. repeat split; reflexivity.
Qed.

End UploadInversion.

(** C5, as the code has it.  The rejections of an upload are tested in
    this order: no file name; the extension of the client's file name
    outside the allow-list; a declared size above the maximum; a body that
    cannot be read; empty content; content above the maximum size.  Every
    rejection leaves the state untouched, and an upload that is empty and
    has a disallowed extension is rejected for its file type. *)
Theorem upload_rejection_order :
  forall (sha : list byte -> string) (config : Config) (io : upload_io)
         (f : UploadFile) (text : option string) (w : world),
    let run := upload_file sha config io f text w in
    (Py.truthy_opt (filename f) = false ->
     run = (Raise (HTTPException 400 "No filename provided"), w))
    /\ (Py.truthy_opt (filename f) = true -> allowed (filename_ext f) = false ->
        run = (Raise (HTTPException 400 "Invalid file type"), w))
    /\ (Py.truthy_opt (filename f) = true -> allowed (filename_ext f) = true ->
        forall n, size f = Some n -> n <> 0%Z -> (MAX_FILE_SIZE config < n)%Z ->
        run = (Raise (HTTPException 413 "File too large"), w))
    /\ (validate_file config f = Return tt -> body f = None ->
        run = (Raise (HTTPException 400 "Failed to read file"), w))
    /\ (validate_file config f = Return tt -> body f = Some [] ->
        run = (Raise (HTTPException 400 "Empty file"), w))
    /\ (validate_file config f = Return tt ->
        forall c, body f = Some c -> c <> [] ->
        (MAX_FILE_SIZE config < Z.of_nat (length c))%Z ->
        run = (Raise (HTTPException 413 "File too large"), w))
    /\ (body f = Some [] -> allowed (filename_ext f) = false ->
        exists detail, run = (Raise (HTTPException 400 detail), w)
                       /\ detail <> "Empty file").
Proof.
  intros sha config io f text w run. subst run.
  assert (Hno : Py.truthy_opt (filename f) = false ->
                upload_file sha config io f text w
                = (Raise (HTTPException 400 "No filename provided"), w)).
  { intros H. by apply upload_file_validate_raise, validate_file_no_filename. }
  assert (Hext : Py.truthy_opt (filename f) = true ->
                 allowed (filename_ext f) = false ->
                 upload_file sha config io f text w
                 = (Raise (HTTPException 400 "Invalid file type"), w)).
  { intros H1 H2. by apply upload_file_validate_raise, validate_file_bad_ext. }
  repeat split.
  - exact Hno.
  - exact Hext.
  - intros H1 H2 n Hn Hn0 Hmax. apply upload_file_validate_raise.
    unfold validate_file. rewrite H1. simpl.
    unfold filename_ext in H2. rewrite H2, Hn. simpl.
    destruct (Z.eqb_spec n 0); [done|].
    destruct (Z.ltb_spec (MAX_FILE_SIZE config) n); [done|lia].
  - intros Hv Hb. unfold upload_file. by rewrite Hv, Hb.
  - intros Hv Hb. unfold upload_file. by rewrite Hv, Hb.
  - intros Hv c Hb Hc Hmax. unfold upload_file. rewrite Hv, Hb.
    destruct (Z.eqb_spec (Z.of_nat (length c)) 0) as [E|_].
    { destruct c; [done|simpl in E; lia]. }
    destruct (Z.ltb_spec (MAX_FILE_SIZE config) (Z.of_nat (length c))); [done|lia].
  - intros _ Hbad. destruct (Py.truthy_opt (filename f)) eqn:Hn.
    + eexists. split; [by apply Hext|done].
    + eexists. split; [by apply Hno|done].
Qed.

Lemma upload_rejection_order_witness :
  upload_file Demo.digest Demo.config (Demo.io "u1") (Demo.png "notes.txt" [])
              None Demo.empty_world
  = (Raise (HTTPException 400 "Invalid file type"), Demo.empty_world).
Proof.
  apply (proj1 (proj2 (upload_rejection_order
                         Demo.digest Demo.config (Demo.io "u1")
                         (Demo.png "notes.txt" []) None Demo.empty_world))
               eq_refl eq_refl).
Defined.

(** C5 as stated fails: this upload is empty and has a disallowed
    extension, and the error reported is the file-type rejection, not the
    empty-content rejection. *)
Lemma empty_content_first_counterexample :
  let f := Demo.png "notes.txt" [] in
  body f = Some [] /\ allowed (filename_ext f) = false
  /\ fst (upload_file Demo.digest Demo.config (Demo.io "u1") f None Demo.empty_world)
     = Raise (HTTPException 400 "Invalid file type")
  /\ fst (upload_file Demo.digest Demo.config (Demo.io "u1") f None Demo.empty_world)
     <> Raise (HTTPException 400 "Empty file").
Proof. repeat split. vm_compute. discriminate. Qed.

(** ** The extension of the stored file (C4) *)

Lemma mime_to_ext_image ct ext :
  Dict.get ct mime_to_ext = Some ext -> Py.startswith "image/" ct = true.
Proof.
  intros H. apply dict_get_Some_In in H. unfold mime_to_ext in H. simpl in H.
  repeat (destruct H as [H|H]; [injection H as <- <-; reflexivity|]).
  destruct H.
Qed.

Lemma mime_to_ext_allowed ct :
  In (default ".jpg" (Dict.get ct mime_to_ext)) ALLOWED_EXTENSIONS.
Proof.
  destruct (Dict.get ct mime_to_ext) as [ext|] eqn:H; [|simpl; tauto].
  apply dict_get_Some_In in H. unfold mime_to_ext in H. simpl in H.
  repeat (destruct H as [H|H]; [injection H as <- <-; simpl; tauto|]).
  destruct H.
Qed.

Lemma allowed_In ext : allowed ext = true <-> In ext ALLOWED_EXTENSIONS.
Proof.
  unfold allowed. rewrite existsb_exists. split.
  - intros [x [Hin Heq]]. apply String.eqb_eq in Heq. by subst.
  - intros Hin. exists ext. split; [done|apply String.eqb_refl].
Qed.

Lemma resolve_ext_allowed f : In (resolve_ext f) ALLOWED_EXTENSIONS.
Proof.
  unfold resolve_ext. destruct (Py.startswith _ _).
  - apply mime_to_ext_allowed.
  - match goal with |- context [allowed ?e] => destruct (allowed e) eqn:E end.
    + by apply allowed_In.
    + simpl. tauto.
Qed.

Lemma resolve_ext_not_image f :
  Py.startswith "image/" (Py.or_empty (content_type f)) = false ->
  resolve_ext f = if allowed (filename_ext f) then filename_ext f else ".jpg".
Proof.
  intros H. unfold resolve_ext. rewrite H. unfold filename_ext.
  destruct (filename f) as [[|c s]|]; reflexivity.
Qed.

(** C4, as the code has it.  A content type that starts with [image/] is
    mapped through the MIME table, and to the default [.jpg] when the table
    does not have it, whatever the file name; any other content type, or
    none, gives the lowercased extension of the client's file name when that
    is allowed and the default otherwise.  So the code agrees with the
    resolution of the specification except for image content types outside
    the table.  The stored name of an accepted upload is the fresh id
    followed by that extension, which is always an allowed one. *)
Theorem stored_extension :
  forall (sha : list byte -> string) (config : Config) (io : upload_io)
         (f : UploadFile) (text : option string) (w : world),
    let ct := Py.or_empty (content_type f) in
    (Py.startswith "image/" ct = true ->
     resolve_ext f = default ".jpg" (Dict.get ct mime_to_ext))
    /\ (Py.startswith "image/" ct = false ->
        resolve_ext f = if allowed (filename_ext f) then filename_ext f else ".jpg")
    /\ (~ (Py.startswith "image/" ct = true /\ Dict.get ct mime_to_ext = None) ->
        resolve_ext f = spec_resolve_ext f)
    /\ In (resolve_ext f) ALLOWED_EXTENSIONS
    /\ (forall r w' contents,
           body f = Some contents ->
           upload_file sha config io f text w = (Return r, w') ->
           message r = "Upload successful" ->
           upload_id r = uuid4 io
           /\ images w' !! (uuid4 io ++ resolve_ext f) = Some contents
           /\ exists e, Dict.get (uuid4 io) (labels w') = Some e
                        /\ file e = Some (uuid4 io ++ resolve_ext f)).
Proof.
  intros sha config io f text w ct. subst ct.
  split; [|split; [|split; [|split]]].
  - intros H. unfold resolve_ext. by rewrite H.
  - apply resolve_ext_not_image.
  - intros Hnot. unfold spec_resolve_ext.
    destruct (Dict.get _ mime_to_ext) as [ext|] eqn:Hget.
    + unfold resolve_ext. rewrite (mime_to_ext_image _ _ Hget). by rewrite Hget.
    + destruct (Py.startswith "image/" (Py.or_empty (content_type f))) eqn:Hst.
      * exfalso. by apply Hnot.
      * by apply resolve_ext_not_image.
  - apply resolve_ext_allowed.
  - intros r w' contents Hb Hup Hmsg.
    destruct (upload_file_Return_cases _ _ _ _ _ _ _ _ _ Hb Hup)
      as [(e & _ & _ & Hm & _)|(e & _ & Hid & _ & Hfile & _ & Hl & Hi & _)].
    + rewrite Hm in Hmsg. discriminate.
    + split; [done|]. split.
      * rewrite Hi. apply lookup_insert_eq.
      * exists e. split; [|done]. rewrite Hl. apply dict_get_set_eq.
Qed.

Lemma stored_extension_witness :
  resolve_ext (Demo.png "scan.jpeg" [x68]) = ".png".
Proof.
  exact (proj1 (stored_extension Demo.digest Demo.config (Demo.io "u1")
                                 (Demo.png "scan.jpeg" [x68]) None Demo.empty_world)
               eq_refl).
Defined.

(** C4 as stated fails: the content type [image/gif] is not in the table
    and the file name has the allowed extension [.png], yet the stored
    extension is the default [.jpg], not the extension of the file name. *)
Lemma unrecognized_image_type_counterexample :
  let f := {| filename := Some "scan.png"; content_type := Some "image/gif";
              size := None; body := Some [x68] |} in
  Dict.get "image/gif" mime_to_ext = None
  /\ allowed (filename_ext f) = true /\ filename_ext f = ".png"
  /\ spec_resolve_ext f = ".png"
  /\ resolve_ext f = ".jpg".
Proof. repeat split. Qed.

(** ** The predicted text (C7) *)

Lemma ocr_lines_omap page : ocr_lines page = omap above_threshold page.
Proof.
  induction page as [|[|text c] page IH]; simpl; [done|done|].
  destruct (Qlt_le_dec (1 # 2) c) as [Hlt|Hle].
  - destruct (Qle_bool c (1 # 2)) eqn:E; simpl.
    + apply Qle_bool_iff in E. exfalso. by apply (Qlt_not_le _ _ Hlt).
    + by rewrite IH.
  - apply Qle_bool_iff in Hle. by rewrite Hle.
Qed.

Lemma ocr_lines_In page text :
  In text (ocr_lines page) <->
  exists c, In (Line text c) page /\ (1 # 2 < c)%Q.
Proof.
  rewrite ocr_lines_omap. induction page as [|l page IH]; simpl.
  - split; [done|]. by intros (c & [] & _).
  - destruct l as [|t c]; simpl.
    + rewrite IH. split; intros (c' & H & Hc); exists c'.
      * split; [by right|done].
      * destruct H as [H|H]; [discriminate|done].
    + destruct (Qlt_le_dec (1 # 2) c) as [Hlt|Hle]; simpl; rewrite IH.
      * split.
        -- intros [->|(c' & H & Hc)]; [exists c; split; [by left|done]|].
           exists c'. split; [by right|done].
        -- intros (c' & [H|H] & Hc); [left; congruence|].
           right. by exists c'.
      * split.
        -- intros (c' & H & Hc). exists c'. split; [by right|done].
        -- intros (c' & [H|H] & Hc); [|by exists c'].
           injection H as -> ->. exfalso. by apply (Qlt_not_le _ _ Hc).
Qed.

(** C7, as the code has it.  The predicted text is the space-joined
    sequence of the texts of exactly those lines whose confidence is
    strictly above 0.5, in the order the engine returned them; a line at
    exactly 0.5 is not included.  [run_ocr] returns [None] when no line is
    kept, which the record stores as the empty string. *)
Theorem predicted_text_lines_above_threshold :
  forall (config : Config) (engine : list byte -> ocr_outcome)
         (image : list byte) (page : list ocr_line) (rest : list (list ocr_line)),
    USE_OCR config = true ->
    ocr_engine config = Some engine ->
    engine image = OcrResults (page :: rest) ->
    ocr_lines page = omap above_threshold page
    /\ (forall text, In text (ocr_lines page) <->
                     exists c, In (Line text c) page /\ (1 # 2 < c)%Q)
    /\ Py.or_empty (run_ocr config image) = Py.join " " (ocr_lines page)
    /\ (run_ocr config image = None <-> ocr_lines page = []).
Proof.
  intros config engine image page rest Huse Heng Hres.
  split; [apply ocr_lines_omap|]. split; [apply ocr_lines_In|].
  unfold run_ocr. rewrite Huse, Heng, Hres. simpl.
  destruct page as [|l page]; [by split|].
  destruct (ocr_lines (l :: page)) as [|t ts] eqn:E; [by split|].
  split; [done|]. by split.
Qed.

Lemma predicted_text_lines_above_threshold_witness :
  Py.or_empty
    (run_ocr {| ADMIN_TOKEN := "t"; MAX_FILE_SIZE := 10; USE_OCR := true;
                ocr_engine := Some (fun _ =>
                  OcrResults [[Line "dear" (9 # 10); Line "x" (1 # 2); NoLine;
                               Line "diary" (3 # 5); Line "y" (1 # 10)]]) |}
             [x68])
  = "dear diary".
Proof.
  exact (proj1 (proj2 (proj2
    (predicted_text_lines_above_threshold
       {| ADMIN_TOKEN := "t"; MAX_FILE_SIZE := 10; USE_OCR := true;
          ocr_engine := Some (fun _ =>
            OcrResults [[Line "dear" (9 # 10); Line "x" (1 # 2); NoLine;
                         Line "diary" (3 # 5); Line "y" (1 # 10)]]) |}
       _ [x68] _ [] eq_refl eq_refl eq_refl)))).
Defined.

(** C7 as stated fails: a line whose confidence is exactly 0.5 is not
    below the threshold, yet it is left out of the predicted text. *)
Lemma confidence_at_threshold_counterexample :
  let page := [Line "a" (1 # 2)] in
  let config := {| ADMIN_TOKEN := "t"; MAX_FILE_SIZE := 10; USE_OCR := true;
                   ocr_engine := Some (fun _ => OcrResults [page]) |} in
  ~ (1 # 2 < 1 # 2)%Q /\ (1 # 2 <= 1 # 2)%Q
  /\ spec_ocr_lines page = ["a"]
  /\ ocr_lines page = []
  /\ run_ocr config [x68] = None.
Proof.
  repeat split.
  - apply Qlt_irrefl.
  - apply Qle_refl.
Qed.

(** ** Loading a corrupted label store (C8) *)

Lemma load_labels_malformed io dir raw :
  dir !! LABELS_FILE = Some (Malformed raw) ->
  (DataManager.load_rename_ok io = true ->
   DataManager._load_labels io dir
   = (Return [], <[backup_file (DataManager.load_stamp io) := Malformed raw]>
                   (delete LABELS_FILE dir)))
  /\ (DataManager.load_rename_ok io = false ->
      DataManager._load_labels io dir = (Raise (OtherError "OSError: rename"), dir)).
Proof.
  intros H. unfold DataManager._load_labels. rewrite H.
  split; intros ->; reflexivity.
Qed.

(** C8 at the failing input.  The label file holds malformed JSON and the
    rename to the backup name fails: [_load_labels] raises, the corrupted
    file stays in place and no empty store is returned. *)
Theorem load_labels_rename_failure_raises :
  let dir : gmap string doc := {[ LABELS_FILE := Malformed [x7b] ]} in
  let io := {| DataManager.load_stamp := "20250101_000000";
               DataManager.load_rename_ok := false |} in
  DataManager._load_labels io dir = (Raise (OtherError "OSError: rename"), dir)
  /\ is_return (fst (DataManager._load_labels io dir)) = false.
Proof. split; reflexivity. Qed.

(** ** Approval (C2, C6) *)

Lemma strip_truthy s : Py.truthy (Py.strip s) = true -> Py.truthy s = true.
Proof. by destruct s. Qed.

Lemma file_entry_truthy e name : file e = Some name -> entry_truthy e = true.
Proof. destruct e as [u ? ? ? ? ? ? ? ? ? ? ? ?]; simpl. intros ->. by destruct u. Qed.

Section Approval.

Variable config : Config.
Variables (io : approve_io) (upload_id text : string) (token : option string).
Variables (w : world) (e : entry) (name : string) (c : list byte).

Hypothesis Hid : Py.truthy (Py.strip upload_id) = true.
Hypothesis Hrecord : Dict.get (Py.strip upload_id) (labels w) = Some e.
Hypothesis Hfile : file e = Some name.
Hypothesis Htext : Py.truthy (Py.strip text) = true.
Hypothesis Hpending : images w !! name = Some c.

(** Once the checks are passed the call is the file move followed by the
    metadata update, and the move back when the update fails. *)
Lemma approve_after_checks :
  is_return (verify_admin_token config token) = true ->
  let entry' := DataManager.update_approved (Py.strip text) (approve_now io) e in
  let labels' := Dict.set (Py.strip upload_id) entry' (labels w) in
  let w1 := with_labels labels'
              (with_dirs (delete name (images w)) (<[name := c]> (approved w)) w) in
  admin_approve_upload config io upload_id text token w =
    if rename_ok io
    then
      if approve_save_ok io
      then (Return {| admin_success := true;
                      admin_message := "Upload approved successfully" |},
            with_data_dir (<[LABELS_FILE := JsonDoc labels']>
                             (delete TEMP_FILE (data_dir w))) w1)
      else
        let w2 := with_data_dir (delete TEMP_FILE (data_dir w)) w1 in
        (Raise (HTTPException 500 "Failed to update upload"),
         if rename_back_ok io
         then with_dirs (<[name := c]> (images w2)) (delete name (approved w2)) w2
         else w2)
    else (Raise (HTTPException 500 "Failed to move file"), w).
Proof.
  intros Htok. simpl. unfold admin_approve_upload.
  destruct (verify_admin_token config token) as [t|x]; [|discriminate].
  rewrite Hid, Htext, (strip_truthy _ Hid), (strip_truthy _ Htext). simpl.
  unfold DataManager.get_upload. rewrite Hrecord.
  rewrite (file_entry_truthy _ _ Hfile). simpl. rewrite Hfile, Hpending.
  destruct (rename_ok io); [|reflexivity].
  unfold move. rewrite Hpending.
  unfold DataManager.update_upload. simpl. rewrite Hrecord.
  unfold DataManager.save_labels.
  destruct (approve_save_ok io); simpl; [reflexivity|].
  destruct (rename_back_ok io); [|reflexivity].
  unfold move. simpl. by rewrite lookup_insert_eq.
Qed.

Lemma approve_Return_inv resp w' :
  admin_approve_upload config io upload_id text token w = (Return resp, w') ->
  is_return (verify_admin_token config token) = true
  /\ rename_ok io = true /\ approve_save_ok io = true.
Proof.
  intros H.
  assert (Htok : is_return (verify_admin_token config token) = true).
  { unfold admin_approve_upload in H.
    by destruct (verify_admin_token config token). }
  split; [done|]. rewrite (approve_after_checks Htok) in H.
  destruct (rename_ok io); [|discriminate].
  destruct (approve_save_ok io); [done|discriminate].
Qed.

End Approval.

Lemma approve_Return_id config io upload_id text token w resp w' :
  admin_approve_upload config io upload_id text token w = (Return resp, w') ->
  Py.truthy (Py.strip upload_id) = true.
Proof.
  unfold admin_approve_upload.
  destruct (verify_admin_token config token); [|discriminate].
  destruct (Py.truthy upload_id); simpl; [|discriminate].
  by destruct (Py.truthy (Py.strip upload_id)).
Qed.

(** C2.  Let a record be present under the id that the form value
    [upload_id] trims to, let the corrected text be non-empty after
    trimming and the record's file be in the pending directory.  If the
    call returns successfully, then afterwards the file is in the approved
    directory and not in the pending directory, and the record has status
    [approved], the trimmed text as corrected text and the approval time
    set; the rewritten label file holds the same. *)
Theorem approve_moves_file_and_marks_record :
  forall (config : Config) (io : approve_io) (upload_id text : string)
         (token : option string) (w : world) (e : entry) (name : string)
         (c : list byte) (resp : AdminResponse) (w' : world),
    Dict.get (Py.strip upload_id) (labels w) = Some e ->
    file e = Some name ->
    Py.truthy (Py.strip text) = true ->
    images w !! name = Some c ->
    admin_approve_upload config io upload_id text token w = (Return resp, w') ->
    (approved w' !! name = Some c /\ images w' !! name = None)
    /\ (exists e', Dict.get (Py.strip upload_id) (labels w') = Some e'
                   /\ file e' = Some name
                   /\ status e' = Some "approved"
                   /\ corrected_text e' = Some (Py.strip text)
                   /\ approval_time e' = Some (approve_now io))
    /\ data_dir w' !! LABELS_FILE = Some (JsonDoc (labels w')).
Proof.
  intros config io upload_id text token w e name c resp w' Hrec Hfile Htext Hpend Hrun.
  pose proof (approve_Return_id _ _ _ _ _ _ _ _ Hrun) as Hid.
  destruct (approve_Return_inv config io upload_id text token w e name c
              Hid Hrec Hfile Htext Hpend resp w' Hrun) as (Htok & Hmv & Hsv).
  rewrite (approve_after_checks config io upload_id text token w e name c
             Hid Hrec Hfile Htext Hpend Htok) in Hrun.
  simpl in Hrun. rewrite Hmv, Hsv in Hrun. injection Hrun as <- <-. simpl.
  split; [split|split].
  - apply lookup_insert_eq.
  - apply lookup_delete_eq.
  - eexists. split; [apply dict_get_set_eq|]. by repeat split.
  - apply lookup_insert_eq.
Qed.

Lemma approve_moves_file_and_marks_record_witness :
  let w' := snd (admin_approve_upload Demo.config Demo.approve_ok " u1 "
                   " hello world " (Some "changeme") Demo.pending_world) in
  (approved w' !! "u1.png" = Some [x68] /\ images w' !! "u1.png" = None)
  /\ (exists e', Dict.get (Py.strip " u1 ") (labels w') = Some e'
                 /\ file e' = Some "u1.png"
                 /\ status e' = Some "approved"
                 /\ corrected_text e' = Some (Py.strip " hello world ")
                 /\ approval_time e' = Some (approve_now Demo.approve_ok))
  /\ data_dir w' !! LABELS_FILE = Some (JsonDoc (labels w')).
Proof.
  apply (approve_moves_file_and_marks_record
           Demo.config Demo.approve_ok " u1 " " hello world " (Some "changeme")
           Demo.pending_world Demo.record1 "u1.png" [x68]
           {| admin_success := true;
              admin_message := "Upload approved successfully" |}).
  - reflexivity.
  - reflexivity.
  - reflexivity.
  - reflexivity.
  - reflexivity.
Defined.

(** C6.  When the call reaches the metadata update (the file has been
    moved to the approved directory) and the store write raises, the call
    raises an error instead of reporting success, and the move back has
    been attempted: when it succeeds the file is in the pending directory
    again, when it fails too the file stays in the approved directory. *)
Theorem approve_update_failure_moves_back :
  forall (config : Config) (io : approve_io) (upload_id text : string)
         (token : option string) (w : world) (e : entry) (name : string)
         (c : list byte),
    is_return (verify_admin_token config token) = true ->
    Py.truthy (Py.strip upload_id) = true ->
    Dict.get (Py.strip upload_id) (labels w) = Some e ->
    file e = Some name ->
    Py.truthy (Py.strip text) = true ->
    images w !! name = Some c ->
    rename_ok io = true ->
    approve_save_ok io = false ->
    exists w',
      admin_approve_upload config io upload_id text token w
      = (Raise (HTTPException 500 "Failed to update upload"), w')
      /\ (rename_back_ok io = true ->
          images w' !! name = Some c /\ approved w' !! name = None)
      /\ (rename_back_ok io = false ->
          approved w' !! name = Some c /\ images w' !! name = None)
      /\ data_dir w' !! LABELS_FILE = data_dir w !! LABELS_FILE.
Proof.
  intros config io upload_id text token w e name c
         Htok Hid Hrec Hfile Htext Hpend Hmv Hsv.
  rewrite (approve_after_checks config io upload_id text token w e name c
             Hid Hrec Hfile Htext Hpend Htok).
  simpl. rewrite Hmv, Hsv. eexists. split; [reflexivity|].
  split; [|split].
  - intros ->. simpl. split; [apply lookup_insert_eq|apply lookup_delete_eq].
  - intros ->. simpl. split; [apply lookup_insert_eq|apply lookup_delete_eq].
  - destruct (rename_back_ok io); simpl; by apply lookup_delete_ne.
Qed.

Lemma approve_update_failure_moves_back_witness :
  exists w',
    admin_approve_upload Demo.config Demo.approve_save_fails "u1" "hello"
                         (Some "changeme") Demo.pending_world
    = (Raise (HTTPException 500 "Failed to update upload"), w')
    /\ (rename_back_ok Demo.approve_save_fails = true ->
        images w' !! "u1.png" = Some [x68] /\ approved w' !! "u1.png" = None)
    /\ (rename_back_ok Demo.approve_save_fails = false ->
        approved w' !! "u1.png" = Some [x68] /\ images w' !! "u1.png" = None)
    /\ data_dir w' !! LABELS_FILE = data_dir Demo.pending_world !! LABELS_FILE.
Proof.
  apply (approve_update_failure_moves_back
           Demo.config Demo.approve_save_fails "u1" "hello" (Some "changeme")
           Demo.pending_world Demo.record1 "u1.png" [x68]); reflexivity.
Defined.

(** ** Deduplication by content hash (C1) *)

Lemma find_duplicate_Some h d k e :
  find_duplicate h d = Some (k, e) -> In (k, e) d /\ file_hash e = Some h.
Proof.
  induction d as [|[k0 e0] d IH]; simpl; [done|].
  case_bool_decide as Hh.
  - intros [= -> ->]. split; [by left|done].
  - intros H. destruct (IH H). split; [by right|done].
Qed.

Lemma find_duplicate_None h d k e :
  find_duplicate h d = None -> In (k, e) d -> file_hash e <> Some h.
Proof.
  induction d as [|[k0 e0] d IH]; simpl; [done|].
  case_bool_decide as Hh; [done|].
  intros H [[= -> ->]|Hin]; [done|by apply IH].
Qed.

Lemma find_duplicate_set h d k e :
  find_duplicate h d = None -> file_hash e = Some h ->
  find_duplicate h (Dict.set k e d) = Some (k, e).
Proof.
  intros Hnone He. induction d as [|[k0 e0] d IH]; simpl in *.
  - by rewrite bool_decide_eq_true_2.
  - revert Hnone. case_bool_decide as Hh; [done|]. intros Hnone.
    destruct (String.eqb k0 k); simpl.
    + by rewrite bool_decide_eq_true_2.
    + rewrite bool_decide_eq_false_2 by done. by apply IH.
Qed.

Lemma dict_keys_set_inv {V} (d : list (string * V)) k k' v :
  In k' (Dict.keys (Dict.set k v d)) -> k' = k \/ In k' (Dict.keys d).
Proof.
  induction d as [|[k0 v0] d IH]; simpl.
  - intros [<-|[]]. by left.
  - destruct (String.eqb_spec k0 k) as [->|Hk]; simpl.
    + intros [<-|Hin]; [by left|right; by right].
    + intros [<-|Hin]; [right; by left|].
      destruct (IH Hin); [by left|right; by right].
Qed.

Lemma dict_set_NoDup {V} (d : list (string * V)) k v :
  NoDup (Dict.keys d) -> NoDup (Dict.keys (Dict.set k v d)).
Proof.
  induction d as [|[k0 v0] d IH]; simpl; intros Hnd.
  - apply NoDup_singleton.
  - apply NoDup_cons in Hnd as [Hnot Hnd].
    destruct (String.eqb_spec k0 k) as [->|Hk]; simpl.
    + by apply NoDup_cons.
    + apply NoDup_cons. split; [|by apply IH].
      intros Hin. apply list_elem_of_In, dict_keys_set_inv in Hin as [->|Hin];
        [done|].
      by apply Hnot, list_elem_of_In.
Qed.

(** The extension can be read back from a stored name. *)
Lemma rfind_dot_app u ext :
  In ext ALLOWED_EXTENSIONS -> Py.rfind "." (u ++ ext) = Some (String.length u).
Proof.
  intros Hext. induction u as [|ch u IH]; simpl.
  - unfold ALLOWED_EXTENSIONS in Hext. simpl in Hext.
    repeat (destruct Hext as [<-|Hext]; [reflexivity|]). destruct Hext.
  - by rewrite IH.
Qed.

Lemma string_app_inj_length (u1 u2 e1 e2 : string) :
  String.length u1 = String.length u2 -> u1 ++ e1 = u2 ++ e2 -> u1 = u2.
Proof.
  revert u2. induction u1 as [|c1 u1 IH]; intros [|c2 u2]; simpl; try done.
  intros [= Hlen] [= -> Happ]. f_equal. by apply IH.
Qed.

Lemma stored_name_inj u1 u2 e1 e2 :
  In e1 ALLOWED_EXTENSIONS -> In e2 ALLOWED_EXTENSIONS ->
  u1 ++ e1 = u2 ++ e2 -> u1 = u2.
Proof.
  intros H1 H2 Heq. apply (string_app_inj_length _ _ e1 e2); [|done].
  pose proof (rfind_dot_app u1 e1 H1) as R1.
  pose proof (rfind_dot_app u2 e2 H2) as R2.
  rewrite Heq in R1. congruence.
Qed.

Section Dedup.

Variable sha : list byte -> string.
Variable config : Config.

Lemma upload_duplicate io f text w contents k e :
  passes_validation config f contents ->
  find_duplicate (sha contents) (labels w) = Some (k, e) ->
  upload_file sha config io f text w
  = (Return {| success := true; upload_id := k;
               predicted := predicted_text e;
               message := "File already exists in system" |}, w).
Proof.
  intros Hp Hd. rewrite (upload_file_after_validation _ _ _ _ _ _ _ Hp).
  by rewrite Hd.
Qed.

Lemma find_duplicate_complete h d k e :
  In (k, e) d -> file_hash e = Some h ->
  exists k' e', find_duplicate h d = Some (k', e').
Proof.
  intros Hin Hh. destruct (find_duplicate h d) as [[k' e']|] eqn:E.
  - by exists k', e'.
  - exfalso. by apply (find_duplicate_None _ _ _ _ E Hin).
Qed.

(** After a call that returned, the record under the returned id holds
    the hash of the content and is the one the scan finds. *)
Lemma upload_file_Return_record io f text w r w' contents :
  body f = Some contents ->
  upload_file sha config io f text w = (Return r, w') ->
  exists e, find_duplicate (sha contents) (labels w') = Some (upload_id r, e).
Proof.
  intros Hb Hup.
  destruct (upload_file_Return_cases _ _ _ _ _ _ _ _ _ Hb Hup)
    as [(e & Hd & _ & _ & ->)|(e & Hd & -> & _ & _ & Hh & -> & _)].
  - by exists e.
  - exists e. by apply find_duplicate_set.
Qed.

End Dedup.

Section DedupClaims.

Variable sha : list byte -> string.
Variable config : Config.

(** A valid upload whose hash is that of a stored record returns the
    first such record and changes nothing. *)
Lemma upload_duplicate_returns_existing io f text w contents :
  passes_validation config f contents ->
  (exists k e, In (k, e) (labels w) /\ file_hash e = Some (sha contents)) ->
  exists k e,
    In (k, e) (labels w) /\ file_hash e = Some (sha contents)
    /\ upload_file sha config io f text w
       = (Return {| success := true; upload_id := k;
                    predicted := predicted_text e;
                    message := "File already exists in system" |}, w).
Proof.
  intros Hp (k0 & e0 & Hin & Hh).
  destruct (find_duplicate_complete _ _ _ _ Hin Hh) as (k & e & Hd).
  exists k, e. destruct (find_duplicate_Some _ _ _ _ Hd) as [Hin' Hh'].
  split; [done|]. split; [done|]. exact (upload_duplicate sha config io f text w contents k e Hp Hd).
Qed.

(** Uploading the same bytes again returns the same id and changes
    nothing. *)
Lemma upload_again_same_id io f text w r w' contents io2 f2 text2 :
  body f = Some contents ->
  upload_file sha config io f text w = (Return r, w') ->
  passes_validation config f2 contents ->
  exists r2, upload_file sha config io2 f2 text2 w' = (Return r2, w')
             /\ upload_id r2 = upload_id r.
Proof.
  intros Hb Hup Hp2.
  destruct (upload_file_Return_record _ _ _ _ _ _ _ _ _ Hb Hup) as [e Hd].
  eexists. split; [exact (upload_duplicate sha config io2 f2 text2 w' contents _ e Hp2 Hd)|done].
Qed.

(** The record under the id a call returned holds the hash of the
    uploaded content. *)
Lemma upload_file_Return_get io f text w r w' contents :
  NoDup (Dict.keys (labels w)) ->
  body f = Some contents ->
  upload_file sha config io f text w = (Return r, w') ->
  NoDup (Dict.keys (labels w'))
  /\ exists e, Dict.get (upload_id r) (labels w') = Some e
               /\ file_hash e = Some (sha contents).
Proof.
  intros Hnd Hb Hup.
  destruct (upload_file_Return_cases _ _ _ _ _ _ _ _ _ Hb Hup)
    as [(e & Hd & _ & _ & ->)|(e & Hd & -> & _ & _ & Hh & -> & _)].
  - split; [done|]. exists e.
    destruct (find_duplicate_Some _ _ _ _ Hd) as [Hin Hh].
    split; [by apply dict_In_get|done].
  - split; [by apply dict_set_NoDup|]. exists e.
    split; [apply dict_get_set_eq|done].
Qed.

(** Uploads of contents with different hashes get different ids, and
    different stored files when both are stored anew. *)
Lemma upload_distinct_content io f text w r w' contents
      io2 f2 text2 contents2 r2 w'' :
  NoDup (Dict.keys (labels w)) ->
  body f = Some contents -> body f2 = Some contents2 ->
  sha contents <> sha contents2 ->
  ~ In (uuid4 io2) (Dict.keys (labels w')) ->
  upload_file sha config io f text w = (Return r, w') ->
  upload_file sha config io2 f2 text2 w' = (Return r2, w'') ->
  upload_id r <> upload_id r2
  /\ (message r = "Upload successful" -> message r2 = "Upload successful" ->
      upload_id r ++ resolve_ext f <> upload_id r2 ++ resolve_ext f2
      /\ images w'' !! (upload_id r ++ resolve_ext f) = Some contents
      /\ images w'' !! (upload_id r2 ++ resolve_ext f2) = Some contents2).
Proof.
  intros Hnd Hb Hb2 Hsha Hfresh Hup Hup2.
  destruct (upload_file_Return_get _ _ _ _ _ _ _ Hnd Hb Hup)
    as (Hnd' & e1 & Hget1 & Hh1).
  assert (Hids : upload_id r <> upload_id r2).
  { destruct (upload_file_Return_cases _ _ _ _ _ _ _ _ _ Hb2 Hup2)
      as [(e2 & Hd2 & _)|(e2 & _ & Hid2 & _)].
    - destruct (find_duplicate_Some _ _ _ _ Hd2) as [Hin2 Hh2].
      apply (dict_In_get _ _ _ Hnd') in Hin2. intros Heq.
      rewrite Heq in Hget1. congruence.
    - rewrite Hid2. intros Heq. apply Hfresh. rewrite <- Heq.
      pose proof (dict_get_Some_In _ _ _ Hget1) as Hin.
      exact (in_map fst _ _ Hin). }
  split; [done|]. intros Hm1 Hm2.
  assert (Hnames : upload_id r ++ resolve_ext f
                   <> upload_id r2 ++ resolve_ext f2).
  { intros Heq. apply Hids.
    eapply stored_name_inj; [| |exact Heq]; apply resolve_ext_allowed. }
  split; [done|].
  destruct (upload_file_Return_cases _ _ _ _ _ _ _ _ _ Hb Hup)
    as [(? & _ & _ & Hm & _)|(? & _ & Hid1 & _ & _ & _ & _ & Hi1 & _)];
    [rewrite Hm in Hm1; discriminate|].
  destruct (upload_file_Return_cases _ _ _ _ _ _ _ _ _ Hb2 Hup2)
    as [(? & _ & _ & Hm & _)|(? & _ & Hid2 & _ & _ & _ & _ & Hi2 & _)];
    [rewrite Hm in Hm2; discriminate|].
  rewrite Hi2, Hi1, Hid1, Hid2 in *. split.
  - rewrite lookup_insert_ne by done. apply lookup_insert_eq.
  - apply lookup_insert_eq.
Qed.

End DedupClaims.

(** C1.  For an upload that passes validation: if some stored record has
    the hash of the uploaded bytes, the endpoint returns the id and the
    predicted text of such a record (the first in store order; the record,
    when only one has that hash) and leaves the store and the images
    directory as they were; uploading the same bytes again after a call
    that returned gives the same id and changes nothing; and an upload of
    content with a different hash, given an unused uuid, gets a different
    id and, when both were stored anew, a different stored file. *)
Theorem upload_deduplicates_by_hash :
  forall (sha : list byte -> string) (config : Config) (io : upload_io)
         (f : UploadFile) (text : option string) (w : world)
         (contents : list byte),
    passes_validation config f contents ->
    let run := upload_file sha config io f text w in
    ((exists k e, In (k, e) (labels w) /\ file_hash e = Some (sha contents)) ->
     exists k e,
       In (k, e) (labels w) /\ file_hash e = Some (sha contents)
       /\ run = (Return {| success := true; upload_id := k;
                           predicted := predicted_text e;
                           message := "File already exists in system" |}, w))
    /\ (forall k e,
           In (k, e) (labels w) -> file_hash e = Some (sha contents) ->
           (forall k' e', In (k', e') (labels w) ->
                          file_hash e' = Some (sha contents) -> k' = k /\ e' = e) ->
           run = (Return {| success := true; upload_id := k;
                            predicted := predicted_text e;
                            message := "File already exists in system" |}, w))
    /\ (forall r w',
           run = (Return r, w') ->
           forall io2 f2 text2,
             passes_validation config f2 contents ->
             exists r2, upload_file sha config io2 f2 text2 w' = (Return r2, w')
                        /\ upload_id r2 = upload_id r)
    /\ (forall r w',
           run = (Return r, w') ->
           NoDup (Dict.keys (labels w)) ->
           forall io2 f2 text2 contents2 r2 w'',
             passes_validation config f2 contents2 ->
             sha contents <> sha contents2 ->
             ~ In (uuid4 io2) (Dict.keys (labels w')) ->
             upload_file sha config io2 f2 text2 w' = (Return r2, w'') ->
             upload_id r <> upload_id r2
             /\ (message r = "Upload successful" ->
                 message r2 = "Upload successful" ->
                 upload_id r ++ resolve_ext f <> upload_id r2 ++ resolve_ext f2
                 /\ images w'' !! (upload_id r ++ resolve_ext f) = Some contents
                 /\ images w'' !! (upload_id r2 ++ resolve_ext f2) = Some contents2)).
Proof.
  intros sha config io f text w contents Hp run. subst run.
  pose proof Hp as (_ & Hb & _).
  split; [|split; [|split]].
  - by apply upload_duplicate_returns_existing.
  - intros k e Hin Hh Huniq.
    destruct (upload_duplicate_returns_existing sha config io f text w contents Hp)
      as (k' & e' & Hin' & Hh' & Hrun); [by exists k, e|].
    destruct (Huniq k' e' Hin' Hh') as [-> ->]. exact Hrun.
  - intros r w' Hup io2 f2 text2 Hp2.
    by apply (upload_again_same_id sha config io f text w r w' contents).
  - intros r w' Hup Hnd io2 f2 text2 contents2 r2 w'' Hp2 Hsha Hfresh Hup2.
    destruct Hp2 as (_ & Hb2 & _).
    by apply (upload_distinct_content sha config io f text w r w' contents
                io2 f2 text2 contents2 r2 w'').
Qed.

Lemma upload_deduplicates_by_hash_witness :
  upload_file Demo.digest Demo.config (Demo.io "u2") (Demo.png "b.png" [x68])
              None Demo.pending_world
  = (Return {| success := true; upload_id := "u1"; predicted := Some "helo";
               message := "File already exists in system" |},
     Demo.pending_world).
Proof.
  assert (Hp : passes_validation Demo.config (Demo.png "b.png" [x68]) [x68]).
  { split; [reflexivity|]. split; [reflexivity|]. split; [reflexivity|].
    vm_compute. discriminate. }
  apply (proj1 (proj2 (upload_deduplicates_by_hash
                         Demo.digest Demo.config (Demo.io "u2")
                         (Demo.png "b.png" [x68]) None Demo.pending_world [x68] Hp))
               "u1" Demo.record1).
  - by left.
  - reflexivity.
  - intros k' e' [[= <- <-]|[]] _. by split.
Defined.

(** ** The training lists (C10) *)

Section Characters.

Variable P : ascii -> bool.

Lemma string_forallb_app s1 s2 :
  string_forallb P (s1 ++ s2) = string_forallb P s1 && string_forallb P s2.
Proof.
  induction s1 as [|c r IH]; simpl; [done|]. by rewrite IH, andb_assoc.
Qed.

Lemma string_forallb_rev_app s1 s2 :
  string_forallb P (String.rev_app s1 s2)
  = string_forallb P s1 && string_forallb P s2.
Proof.
  revert s2. induction s1 as [|c r IH]; intros s2; simpl; [done|].
  rewrite IH. simpl. by destruct (P c), (string_forallb P r).
Qed.

Lemma string_forallb_rev s :
  string_forallb P (String.rev s) = string_forallb P s.
Proof. unfold String.rev. rewrite string_forallb_rev_app. simpl. apply andb_true_r. Qed.

Lemma string_forallb_substring i n s :
  string_forallb P s = true -> string_forallb P (String.substring i n s) = true.
Proof.
  revert i n. induction s as [|c r IH]; intros i n H.
  - by destruct i, n.
  - simpl in H. apply andb_prop in H as [Hc Hr].
    destruct i as [|i]; destruct n as [|n]; simpl; auto.
    rewrite Hc. simpl. by apply IH.
Qed.

Lemma string_forallb_lstrip s :
  string_forallb P s = true -> string_forallb P (Py.lstrip s) = true.
Proof.
  induction s as [|c r IH]; simpl; [done|]. intros H.
  destruct (Py.isspace c); [|done].
  apply andb_prop in H as [_ Hr]. by apply IH.
Qed.

Lemma string_forallb_rstrip s :
  string_forallb P s = true -> string_forallb P (Py.rstrip s) = true.
Proof.
  induction s as [|c r IH]; [done|]. intros H. cbn [Py.rstrip].
  destruct (Py.all_space (String c r)); [done|].
  simpl in *. apply andb_prop in H as [Hc Hr]. rewrite Hc. simpl. by apply IH.
Qed.

End Characters.

Lemma split_go_words cur s :
  string_forallb (fun c => negb (Py.isspace c)) (default "" cur) = true ->
  Forall (fun w => string_forallb (fun c => negb (Py.isspace c)) w = true)
         (Py.split_go cur s).
Proof.
  revert cur. induction s as [|c r IH]; intros cur Hcur; simpl.
  - destruct cur as [w|]; [|constructor].
    constructor; [|constructor]. by rewrite string_forallb_rev.
  - destruct (Py.isspace c) eqn:E.
    + destruct cur as [w|].
      * constructor; [by rewrite string_forallb_rev|]. by apply IH.
      * by apply IH.
    + apply IH. simpl. by rewrite E.
Qed.

Lemma join_blank_safe ws :
  Forall (fun w => string_forallb (fun c => negb (Py.isspace c)) w = true) ws ->
  string_forallb line_safe (Py.join " " ws) = true.
Proof.
  assert (Hw : forall w, string_forallb (fun c => negb (Py.isspace c)) w = true ->
                         string_forallb line_safe w = true).
  { induction w as [|c r IH]; simpl; [done|]. intros H.
    apply andb_prop in H as [Hc Hr]. unfold line_safe at 1. rewrite Hc. simpl.
    by apply IH. }
  induction 1 as [|w ws Hhead Htail IH]; [done|].
  destruct ws as [|w' ws]; [by apply Hw|].
  change (Py.join " " (w :: w' :: ws)) with (w ++ " " ++ Py.join " " (w' :: ws)).
  rewrite !string_forallb_app, (Hw _ Hhead), IH. reflexivity.
Qed.

Lemma replace_blank_safe a s :
  string_forallb line_safe s = true ->
  string_forallb line_safe (Py.replace_char a " " s) = true.
Proof.
  induction s as [|c r IH]; simpl; [done|]. intros H.
  apply andb_prop in H as [Hc Hr]. rewrite (IH Hr), andb_true_r.
  by destruct (Ascii.eqb c a).
Qed.

(** The text of a line holds no whitespace but single blanks; in
    particular no tab and no line break. *)
Lemma sanitize_text_safe text :
  string_forallb line_safe (_sanitize_text text) = true.
Proof.
  unfold _sanitize_text. destruct (Py.truthy text); simpl; [|done].
  unfold Py.strip. apply string_forallb_rstrip, string_forallb_lstrip.
  assert (H : string_forallb line_safe
                (Py.replace_char "013" " "
                   (Py.replace_char "010" " "
                      (Py.replace_char "009" " "
                         (Py.join " " (Py.split text))))) = true).
  { do 3 apply replace_blank_safe. apply join_blank_safe.
    by apply split_go_words. }
  match goal with |- context [if ?b then _ else _] => destruct b end; [|done].
  unfold Py.slice_to. by apply string_forallb_substring.
Qed.

Lemma best_text_safe e : string_forallb line_safe (_get_best_text e) = true.
Proof.
  unfold _get_best_text.
  generalize [Py.or_empty (corrected_text e); Py.or_empty (provided_text e);
              Py.or_empty (predicted_text e)].
  intros l. induction l as [|t l IH]; simpl; [done|].
  destruct (Py.truthy t && Py.truthy (Py.strip t)); [|done].
  apply sanitize_text_safe.
Qed.

Section TrainingLists.

Variable md5 : list byte -> string.
Variable io : prepare_io.
Variable approved_dir : gmap string (list byte).

Lemma prepare_step_prepared acc item :
  prepared md5 io approved_dir item = true ->
  let acc' := prepare_step md5 io approved_dir acc item in
  train_list acc' = (train_list acc ++ [train_line item])%list
  /\ successful_copies acc' = (successful_copies acc + 1)%Z.
Proof.
  destruct item as [k e]. unfold prepared, prepare_step, train_line. simpl.
  intros H. repeat (apply andb_prop in H as [H ?]).
  rewrite H. simpl.
  repeat match goal with
         | Hx : ?b = true |- context [negb ?b] => rewrite Hx; simpl
         end.
  unfold _copy_with_verification.
  destruct (copy io _ _) as [|written]; [discriminate|].
  match goal with Hx : String.eqb _ _ = true |- _ => rewrite Hx end.
  by split.
Qed.

Lemma prepare_step_not_prepared acc item :
  prepared md5 io approved_dir item = false ->
  let acc' := prepare_step md5 io approved_dir acc item in
  train_list acc' = train_list acc
  /\ successful_copies acc' = successful_copies acc.
Proof.
  destruct item as [k e]. unfold prepared, prepare_step. simpl.
  destruct (bool_decide (status e = Some "approved")); simpl; [|done].
  destruct (Py.truthy_opt (file e)); simpl; [|done].
  destruct (Py.truthy (_get_best_text e)); simpl; [|done].
  destruct (_validate_image_file approved_dir (Py.or_empty (file e)));
    simpl; [|done].
  unfold _copy_with_verification.
  destruct (copy io _ _) as [|written]; [done|].
  by intros ->.
Qed.

Lemma prepare_fold labels acc :
  let acc' := fold_left (prepare_step md5 io approved_dir) labels acc in
  train_list acc'
  = (train_list acc
     ++ map train_line (List.filter (prepared md5 io approved_dir) labels))%list
  /\ successful_copies acc'
     = (successful_copies acc
        + Z.of_nat (length (List.filter (prepared md5 io approved_dir) labels)))%Z.
Proof.
  revert acc. induction labels as [|item labels IH]; intros acc; simpl.
  - rewrite app_nil_r. split; [done|lia].
  - destruct (IH (prepare_step md5 io approved_dir acc item)) as [IH1 IH2].
    rewrite IH1, IH2.
    destruct (prepared md5 io approved_dir item) eqn:E.
    + destruct (prepare_step_prepared acc item E) as [-> ->]. simpl.
      rewrite <- app_assoc. split; [done|lia].
    + destruct (prepare_step_not_prepared acc item E) as [-> ->]. done.
Qed.

End TrainingLists.

(** C10.  When the label store loads and both list files are written,
    [val.txt] holds exactly the content of [train.txt]: the lines
    [<filename>TAB<text>] of the successfully prepared approved records,
    one per record and in store order, joined by newlines; the text of a
    line holds no tab and no line break; and the first number returned is
    the number of those lines. *)
Theorem val_list_is_copy_of_train_list :
  forall (md5 : list byte -> string) (io : prepare_io) (dir : gmap string doc)
         (approved_dir : gmap string (list byte)) (out : output)
         (labels : list (string * entry)),
    TrainingDataPreparer._load_labels dir = Return labels ->
    train_write_ok io = true ->
    val_write_ok io = true ->
    let run := prepare_training_data md5 io dir approved_dir out in
    let lines := map train_line (List.filter (prepared md5 io approved_dir) labels) in
    out_texts (snd run) !! "train.txt" = Some (Py.join Py.NL lines)
    /\ out_texts (snd run) !! "val.txt" = out_texts (snd run) !! "train.txt"
    /\ fst (fst run) = Z.of_nat (length lines)
    /\ (forall item, train_line item
                     = Py.or_empty (file (snd item)) ++ Py.TAB
                       ++ _get_best_text (snd item)
                     /\ string_forallb line_safe (_get_best_text (snd item)) = true).
Proof.
  intros md5 io dir approved_dir out labels Hload Htrain Hval run lines.
  assert (Hlists :
            out_texts (snd run) !! "train.txt" = Some (Py.join Py.NL lines)
            /\ out_texts (snd run) !! "val.txt" = out_texts (snd run) !! "train.txt"
            /\ fst (fst run) = Z.of_nat (length lines)).
  { subst run lines. unfold prepare_training_data.
    rewrite Hload, Htrain, Hval. simpl.
    unfold prepare_loop.
    destruct (prepare_fold md5 io approved_dir labels
                {| train_list := []; successful_copies := 0; total_approved := 0;
                   skipped_samples := []; acc_images := out_images out |})
      as [Hl Hn].
    simpl in Hl, Hn. rewrite Hl, Hn.
    split; [|split].
    - rewrite lookup_insert_ne by done. apply lookup_insert_eq.
    - rewrite lookup_insert_eq. rewrite lookup_insert_ne by done.
      by rewrite lookup_insert_eq.
    - by rewrite length_map. }
  destruct Hlists as (H1 & H2 & H3).
  split; [exact H1|]. split; [exact H2|]. split; [exact H3|].
  intros item. split; [reflexivity|apply best_text_safe].
Qed.

Lemma val_list_is_copy_of_train_list_witness :
  let run := prepare_training_data Demo.digest Demo.prepare_ok
               (Demo.approved_store 2) {[ "0.png" := [x68] ]} Demo.empty_output in
  out_texts (snd run) !! "train.txt" = Some ("0.png" ++ Py.TAB ++ "Sample 0")
  /\ out_texts (snd run) !! "val.txt" = out_texts (snd run) !! "train.txt"
  /\ fst (fst run) = 1%Z.
Proof.
  pose proof (val_list_is_copy_of_train_list Demo.digest Demo.prepare_ok
                (Demo.approved_store 2) {[ "0.png" := [x68] ]} Demo.empty_output
                _ eq_refl eq_refl eq_refl) as (H1 & H2 & H3 & _).
  exact (conj H1 (conj H2 H3)).
Defined.

(** ** The float comparisons of the readiness report are exact

    For fewer than 2^48 approved records, comparing a count with the
    binary64 product [n * 0.8] (or [n * 0.7]) gives the same answer as
    comparing exactly with four fifths (seven tenths) of [n]. *)

Section Binary64Facts.

Local Open Scope Z_scope.

Lemma scale_lt (c q P Q : Z) : 0 < P -> (c * Q < q <-> c * Q * P < q * P).
Proof. intros HP. apply Z.mul_lt_mono_pos_r. exact HP. Qed.

Lemma multiple_zero (P d t : Z) :
0 < P -> - (5 * P) < t < 5 * P -> t = 5 * (d * P) -> d = 0.
Proof.
intros HP Ht Heq.
destruct (Z.lt_trichotomy d 0) as [Hneg|[->|Hpos]]; [|reflexivity|].
- assert (d * P <= -1 * P) by (apply Z.mul_le_mono_nonneg_r; lia). lia.
- assert (1 * P <= d * P) by (apply Z.mul_le_mono_nonneg_r; lia). lia.
Qed.

Lemma multiple_step (P d : Z) : 0 < P -> 0 < d * P -> P <= d * P.
Proof.
intros HP Hd.
destruct (Z_lt_le_dec d 1) as [Hlt|Hge].
- assert (d * P <= 0 * P) by (apply Z.mul_le_mono_nonneg_r; lia). lia.
- assert (1 * P <= d * P) by (apply Z.mul_le_mono_nonneg_r; lia). lia.
Qed.

Lemma core_0_8 (n c q P Q q0 r : Z) :
0 <= n < 281474976710656 -> 0 < P -> P * Q = 9007199254740992 ->
4503599627370496 * P <= n * 7205759403792794 < 9007199254740992 * P ->
n * 7205759403792794 = q0 * P + r -> 0 <= r < P ->
(q = q0 \/ q = q0 + 1) -> (2 * r < P -> q = q0) ->
(c * Q < q <-> 5 * c < 4 * n).
Proof.
intros Hn HP HPQ HN Hdiv Hr Hq Hlow.
rewrite (scale_lt c q P Q HP).
assert (HcB : c * Q * P = c * 9007199254740992) by (rewrite <- HPQ; ring).
assert (HX : q * P = q0 * P \/ q * P = q0 * P + P)
  by (destruct Hq as [->| ->]; [left|right]; ring).
split; intros H.
- destruct (Z_lt_le_dec (5 * c) (4 * n)) as [|Hge]; [assumption|exfalso].
  destruct (Z.eq_dec (5 * c) (4 * n)) as [Heq|Hne].
  + assert (Hd : c * Q - q0 = 0).
    { apply (multiple_zero P (c * Q - q0) (5 * r - 2 * n) HP); [lia|].
      replace ((c * Q - q0) * P) with (c * Q * P - q0 * P) by ring. lia. }
    assert (Hq0 : q = q0) by (apply Hlow; lia).
    subst q. lia.
  + lia.
- lia.
Qed.

Lemma core_0_7 (n u q P Q q0 r : Z) :
0 <= n < 281474976710656 -> 0 < P -> P * Q = 9007199254740992 ->
4503599627370496 * P <= n * 6305039478318694 < 9007199254740992 * P ->
n * 6305039478318694 = q0 * P + r -> 0 <= r < P ->
(q = q0 \/ q = q0 + 1) -> (2 * r < P -> q = q0) ->
(u * Q < q <-> 10 * u < 7 * n).
Proof.
intros Hn HP HPQ HN Hdiv Hr Hq Hlow.
rewrite (scale_lt u q P Q HP).
assert (HuB : u * Q * P = u * 9007199254740992) by (rewrite <- HPQ; ring).
assert (HX : q * P = q0 * P \/ q * P = q0 * P + P)
  by (destruct Hq as [->| ->]; [left|right]; ring).
split; intros H.
- destruct (Z_lt_le_dec (10 * u) (7 * n)) as [|Hge]; [assumption|exfalso].
  destruct (Z.eq_dec r 0) as [Hr0|Hr0].
  + assert (Hq0 : q = q0) by (apply Hlow; lia). subst q. lia.
  + assert (Hstep : P <= (u * Q - q0) * P).
    { apply multiple_step; [assumption|].
      replace ((u * Q - q0) * P) with (u * Q * P - q0 * P) by ring. lia. }
    replace ((u * Q - q0) * P) with (u * Q * P - q0 * P) in Hstep by ring.
    lia.
- lia.
Qed.

Lemma round53_cases N :
0 <= N ->
exists q s,
  Binary64.round53 N = (q, s)
  /\ ((s = 0 /\ q = N /\ N < 9007199254740992)
      \/ (0 < s
          /\ 4503599627370496 * 2 ^ s <= N < 9007199254740992 * 2 ^ s
          /\ exists q0 r,
              N = q0 * 2 ^ s + r /\ 0 <= r < 2 ^ s
              /\ (q = q0 \/ q = q0 + 1) /\ (2 * r < 2 ^ s -> q = q0))).
Proof.
intros HN. unfold Binary64.round53.
destruct (Z.leb_spec (Z.log2 N) 52) as [HL|HL].
- exists N, 0. split; [reflexivity|]. left. split; [reflexivity|].
  split; [reflexivity|].
  destruct (Z.eq_dec N 0) as [->|Hne]; [reflexivity|].
  destruct (Z.log2_spec N) as [_ Hhi]; [lia|].
  eapply Z.lt_le_trans; [exact Hhi|].
  change 9007199254740992 with (2 ^ 53). apply Z.pow_le_mono_r; lia.
- assert (HNpos : 0 < N).
  { destruct (Z_lt_le_dec 0 N) as [|Hle]; [assumption|].
    rewrite (Z.log2_nonpos N Hle) in HL. lia. }
  destruct (Z.log2_spec N HNpos) as [Hlo Hhi].
  set (s := Z.log2 N - 52) in *.
  assert (Hs : 0 < s) by (unfold s; lia).
  assert (HP : 0 < 2 ^ s) by (apply Z.pow_pos_nonneg; lia).
  replace (Z.log2 N) with (52 + s) in Hlo by (unfold s; lia).
  replace (Z.succ (Z.log2 N)) with (53 + s) in Hhi by (unfold s; lia).
  rewrite Z.pow_add_r in Hlo, Hhi by lia.
  change (2 ^ 52) with 4503599627370496 in Hlo.
  change (2 ^ 53) with 9007199254740992 in Hhi.
  rewrite Z.shiftr_div_pow2 by lia.
  assert (Hhalf : 2 ^ s = 2 * 2 ^ (s - 1)).
  { replace s with (Z.succ (s - 1)) at 1 by lia. apply Z.pow_succ_r. lia. }
  pose proof (Z.div_mod N (2 ^ s) ltac:(lia)) as Hdm.
  pose proof (Z.mod_pos_bound N (2 ^ s) HP) as Hmod.
  match goal with
  | |- context [if ?b then _ else _] => destruct b eqn:Hb
  end.
  + exists (N / 2 ^ s + 1), s. split; [reflexivity|]. right.
    split; [assumption|]. split; [lia|].
    exists (N / 2 ^ s), (N mod 2 ^ s). split; [lia|]. split; [assumption|].
    split; [right; reflexivity|]. intros Hlow. exfalso.
    apply orb_true_iff in Hb as [Hb|Hb].
    * apply Z.ltb_lt in Hb. lia.
    * apply andb_true_iff in Hb as [Hb _]. apply Z.eqb_eq in Hb. lia.
  + exists (N / 2 ^ s), s. split; [reflexivity|]. right.
    split; [assumption|]. split; [lia|].
    exists (N / 2 ^ s), (N mod 2 ^ s). split; [lia|]. split; [assumption|].
    split; [left; reflexivity|]. reflexivity.
Qed.

Lemma bool_eq_iff_lt (a b c d : Z) : (a < b <-> c < d) -> (a <? b) = (c <? d).
Proof.
intros H. destruct (Z.ltb_spec a b), (Z.ltb_spec c d); try reflexivity; lia.
Qed.

Lemma round53_small_shift (n M s : Z) :
0 <= n < 281474976710656 -> 0 < M < 9007199254740992 ->
0 < s -> 4503599627370496 * 2 ^ s <= n * M -> s < 49.
Proof.
intros Hn HM Hs Hlo.
destruct (Z_lt_le_dec s 49) as [|Hge]; [assumption|exfalso].
assert (2 ^ 49 <= 2 ^ s) by (apply Z.pow_le_mono_r; lia).
change (2 ^ 49) with 562949953421312 in *.
assert (n * M <= 281474976710656 * M) by (apply Z.mul_le_mono_nonneg_r; lia).
lia.
Qed.

Lemma int_lt_mul_0_8 c n :
0 <= n < 2 ^ 48 ->
Binary64.int_lt c (Binary64.mul_int n Binary64.lit_0_8) = (5 * c <? 4 * n).
Proof.
change (2 ^ 48) with 281474976710656. intros Hn.
unfold Binary64.mul_int, Binary64.lit_0_8. cbn [Binary64.mant Binary64.expo].
destruct (round53_cases (n * 7205759403792794)) as (q & s & Hr & Hcases); [lia|].
rewrite Hr. unfold Binary64.int_lt. cbn [Binary64.mant Binary64.expo].
destruct Hcases as [(-> & -> & Hsmall)|(Hs & Hb & q0 & r & Hdiv & Hrr & Hq & Hlow)].
- change (0 <=? 0 + -53) with false. cbv iota.
  change (2 ^ (- (0 + -53))) with 9007199254740992.
  apply bool_eq_iff_lt.
  assert (Hn01 : n = 0 \/ n = 1) by lia.
  destruct Hn01 as [-> | ->]; split; lia.
- pose proof (round53_small_shift n 7205759403792794 s Hn ltac:(lia) Hs (proj1 Hb)) as Hs49.
  destruct (Z.leb_spec 0 (s + -53)) as [|_]; [lia|].
  apply bool_eq_iff_lt.
  replace (- (s + -53)) with (53 - s) by lia.
  apply (core_0_8 n c q (2 ^ s) (2 ^ (53 - s)) q0 r); try assumption.
  + apply Z.pow_pos_nonneg; lia.
  + rewrite <- Z.pow_add_r by lia. replace (s + (53 - s)) with 53 by lia.
    reflexivity.
Qed.

Lemma int_lt_mul_0_7 u n :
0 <= n < 2 ^ 48 ->
Binary64.int_lt u (Binary64.mul_int n Binary64.lit_0_7) = (10 * u <? 7 * n).
Proof.
change (2 ^ 48) with 281474976710656. intros Hn.
unfold Binary64.mul_int, Binary64.lit_0_7. cbn [Binary64.mant Binary64.expo].
destruct (round53_cases (n * 6305039478318694)) as (q & s & Hr & Hcases); [lia|].
rewrite Hr. unfold Binary64.int_lt. cbn [Binary64.mant Binary64.expo].
destruct Hcases as [(-> & -> & Hsmall)|(Hs & Hb & q0 & r & Hdiv & Hrr & Hq & Hlow)].
- change (0 <=? 0 + -53) with false. cbv iota.
  change (2 ^ (- (0 + -53))) with 9007199254740992.
  apply bool_eq_iff_lt.
  assert (Hn01 : n = 0 \/ n = 1) by lia.
  destruct Hn01 as [-> | ->]; split; lia.
- pose proof (round53_small_shift n 6305039478318694 s Hn ltac:(lia) Hs (proj1 Hb)) as Hs49.
  destruct (Z.leb_spec 0 (s + -53)) as [|_]; [lia|].
  apply bool_eq_iff_lt.
  replace (- (s + -53)) with (53 - s) by lia.
  apply (core_0_7 n u q (2 ^ s) (2 ^ (53 - s)) q0 r); try assumption.
  + apply Z.pow_pos_nonneg; lia.
  + rewrite <- Z.pow_add_r by lia. replace (s + (53 - s)) with 53 by lia.
    reflexivity.
Qed.

End Binary64Facts.

(** ** The readiness report (C3) *)

(** Trimming is idempotent, so a corrected text written by an approval is
    trimmed, and on a trimmed text "non-empty after trimming" is
    "non-empty". *)
Lemma all_space_rstrip s : Py.all_space (Py.rstrip s) = Py.all_space s.
Proof.
  induction s as [|c r IH]; [done|].
  cbn [Py.rstrip]. destruct (Py.all_space (String c r)) eqn:E; [done|].
  cbn [Py.all_space] in *. by rewrite IH.
Qed.

Lemma rstrip_idem s : Py.rstrip (Py.rstrip s) = Py.rstrip s.
Proof.
  induction s as [|c r IH]; [done|].
  cbn [Py.rstrip]. destruct (Py.all_space (String c r)) eqn:E; [done|].
  cbn [Py.rstrip]. cbn [Py.all_space] in *.
  rewrite all_space_rstrip, E. by rewrite IH.
Qed.

Lemma lstrip_rstrip_lstrip s :
  Py.lstrip (Py.rstrip (Py.lstrip s)) = Py.rstrip (Py.lstrip s).
Proof.
  induction s as [|c r IH]; [done|].
  cbn [Py.lstrip]. destruct (Py.isspace c) eqn:E; [done|].
  cbn [Py.rstrip Py.all_space]. rewrite E. cbn [andb Py.lstrip]. by rewrite E.
Qed.

Lemma strip_idem s : Py.strip (Py.strip s) = Py.strip s.
Proof. unfold Py.strip. by rewrite lstrip_rstrip_lstrip, rstrip_idem. Qed.

Lemma has_correction_trimmed e :
  Py.strip (Py.or_empty (corrected_text e)) = Py.or_empty (corrected_text e) ->
  OCRMonitor.has_correction e = Py.truthy_opt (corrected_text e).
Proof. intros H. unfold OCRMonitor.has_correction, Py.truthy_opt. by rewrite H. Qed.

Lemma approved_entry_trimmed text now e :
  let e' := DataManager.update_approved (Py.strip text) now e in
  Py.strip (Py.or_empty (corrected_text e')) = Py.or_empty (corrected_text e').
Proof. simpl. apply strip_idem. Qed.

Lemma unique_texts_nil : base.size (OCRMonitor.unique_texts []) = 0%nat.
Proof. reflexivity. Qed.

(** C3.  For a store with fewer than 2^48 approved records, the report
    is ready exactly when the three clauses hold: at least 100 approved
    records, at least 80% of them with a corrected text that is non-empty
    after trimming, and at least 70% as many distinct lowercased, trimmed,
    non-blank corrected texts as approved records.  A failing quality
    clause puts its message among the quality issues, a failing count on a
    non-empty store puts its message among the recommendations, and a
    report with a quality issue is not ready whatever the count. *)
Theorem readiness_policy :
  forall (dir : gmap string doc) (train_txt_exists : bool),
    let labels := OCRMonitor.load_labels dir in
    let approved_samples :=
      List.filter OCRMonitor.is_approved (Dict.values labels) in
    let n := Z.of_nat (length approved_samples) in
    let corrected :=
      Z.of_nat (length (List.filter OCRMonitor.has_correction approved_samples)) in
    let unique :=
      Z.of_nat (base.size (OCRMonitor.unique_texts approved_samples)) in
    let report :=
      OCRMonitor.generate_training_readiness_report dir train_txt_exists in
    (n < 2 ^ 48)%Z ->
    (ready report = true <->
     (100 <= n /\ 4 * n <= 5 * corrected /\ 7 * n <= 10 * unique)%Z)
    /\ ((5 * corrected < 4 * n)%Z <->
        In "Less than 80% of approved samples have corrected text"
           (quality_issues report))
    /\ ((10 * unique < 7 * n)%Z <->
        In "Low text diversity - many duplicate texts detected"
           (quality_issues report))
    /\ (quality_issues report <> [] -> ready report = false)
    /\ (labels <> [] ->
        ((n < 100)%Z <->
         In (OCRMonitor.minimum_message 100 n) (recommendations report))).
Proof.
  intros dir train_txt_exists. cbv zeta.
  unfold OCRMonitor.generate_training_readiness_report. cbv zeta.
  generalize (OCRMonitor.load_labels dir). intros labels.
  destruct labels as [|item rest].
  - simpl. intros _. repeat split; try done; try lia; intros []; lia.
  - cbv iota.
    remember (List.filter OCRMonitor.is_approved (Dict.values (item :: rest)))
      as approved_samples eqn:Happ.
    remember (Z.of_nat (length approved_samples)) as n eqn:En.
    remember (Z.of_nat (length (List.filter OCRMonitor.has_correction
                                            approved_samples))) as corrected.
    remember (Z.of_nat (base.size (OCRMonitor.unique_texts approved_samples)))
      as unique.
    intros Hn. assert (Hn0 : (0 <= n)%Z) by lia.
    rewrite (int_lt_mul_0_8 corrected n), (int_lt_mul_0_7 unique n) by lia.
    destruct (Z.ltb_spec (5 * corrected) (4 * n)) as [H8|H8];
      destruct (Z.ltb_spec (10 * unique) (7 * n)) as [H7|H7];
      destruct (Z.leb_spec 100 n) as [Hc|Hc];
      destruct (Z.ltb_spec n 100) as [Hc'|Hc']; try lia; simpl;
      repeat split; try done; try lia; intros;
      repeat match goal with
             | H : _ \/ _ |- _ => destruct H
             | H : False |- _ => destruct H
             | H : _ /\ _ |- _ => destruct H
             end;
      try discriminate; try lia; try tauto.
Qed.

Lemma readiness_policy_witness :
  ready (OCRMonitor.generate_training_readiness_report
           (Demo.approved_store 100) false) = true.
Proof.
  apply (proj1 (readiness_policy (Demo.approved_store 100) false
                                 ltac:(vm_compute; reflexivity))).
  vm_compute. repeat split; discriminate.
Defined.

(** * More properties *)

(** ** The label store as a map *)

Section DictMore.
Context {V : Type}.
Implicit Types (d : list (string * V)) (k : string) (v : V).

Lemma dict_mem_get d k : Dict.mem k d = true <-> exists v, Dict.get k d = Some v.
Proof.
  unfold Dict.mem. destruct (Dict.get k d) as [v|]; split; try done.
  - intros _. by exists v.
  - by intros [v H].
Qed.

Lemma dict_get_In_keys d k v : Dict.get k d = Some v -> In k (Dict.keys d).
Proof.
  intros H. apply dict_get_Some_In in H. exact (in_map fst _ _ H).
Qed.

Lemma dict_get_None_keys d k : Dict.get k d = None -> ~ In k (Dict.keys d).
Proof.
  induction d as [|[k0 v0] d IH]; simpl; [tauto|].
  destruct (String.eqb_spec k0 k) as [->|Hk]; [discriminate|].
  intros H [Heq|Hin]; [done|by apply IH].
Qed.

Lemma dict_get_del_ne d k k' :
  k <> k' -> Dict.get k' (Dict.del k d) = Dict.get k' d.
Proof.
  intros Hne. induction d as [|[k0 v0] d IH]; simpl; [done|].
  destruct (String.eqb_spec k0 k) as [->|Hk]; simpl.
  - destruct (String.eqb_spec k k'); [done|reflexivity].
  - by rewrite IH.
Qed.

Lemma dict_keys_del_inv d k k' :
  In k' (Dict.keys (Dict.del k d)) -> In k' (Dict.keys d).
Proof.
  induction d as [|[k0 v0] d IH]; simpl; [done|].
  destruct (String.eqb_spec k0 k) as [->|Hk]; simpl; [by right|].
  intros [<-|Hin]; [by left|right; by apply IH].
Qed.

Lemma dict_del_NoDup d k : NoDup (Dict.keys d) -> NoDup (Dict.keys (Dict.del k d)).
Proof.
  induction d as [|[k0 v0] d IH]; simpl; intros Hnd; [done|].
  apply NoDup_cons in Hnd as [Hnot Hnd].
  destruct (String.eqb_spec k0 k) as [->|Hk]; simpl; [done|].
  apply NoDup_cons. split; [|by apply IH].
  intros Hin. apply Hnot, list_elem_of_In.
  by apply list_elem_of_In, dict_keys_del_inv in Hin.
Qed.

Lemma dict_get_del_eq d k :
  NoDup (Dict.keys d) -> Dict.get k (Dict.del k d) = None.
Proof.
  induction d as [|[k0 v0] d IH]; simpl; intros Hnd; [done|].
  apply NoDup_cons in Hnd as [Hnot Hnd].
  destruct (String.eqb_spec k0 k) as [->|Hk]; simpl.
  - destruct (Dict.get k d) as [v|] eqn:E; [|done].
    exfalso. apply Hnot, list_elem_of_In. by apply (dict_get_In_keys _ _ v).
  - destruct (String.eqb_spec k0 k); [done|]. by apply IH.
Qed.

Lemma dict_length_set d k v :
  length (Dict.set k v d)
  = if Dict.mem k d then length d else S (length d).
Proof.
  unfold Dict.mem. induction d as [|[k0 v0] d IH]; simpl; [done|].
  destruct (String.eqb_spec k0 k) as [->|Hk]; simpl; [done|].
  rewrite IH. by destruct (Dict.get k d).
Qed.

Lemma dict_length_del d k :
  Dict.mem k d = true -> S (length (Dict.del k d)) = length d.
Proof.
  unfold Dict.mem. induction d as [|[k0 v0] d IH]; simpl; [done|].
  destruct (String.eqb_spec k0 k) as [->|Hk]; simpl; [done|].
  intros H. by rewrite IH.
Qed.

End DictMore.

(** X1.  Persistence round trip: whenever [add_upload], [update_upload] or
    [delete_upload] returns (for the last two, with [True]), loading
    [labels.json] again gives exactly the dict that is in memory, and the
    load touches no file. *)
Theorem saved_store_loads_back :
  forall (io : DataManager.load_io) (upload_id : string) (metadata : entry)
         (updates : entry -> entry) (w w' : world),
    (DataManager.add_upload true upload_id metadata w = (Return tt, w')
     \/ (exists ok, DataManager.update_upload ok upload_id updates w
                    = (Return true, w'))
     \/ (exists ok, DataManager.delete_upload ok upload_id w = (Return true, w'))) ->
    DataManager._load_labels io (data_dir w') = (Return (labels w'), data_dir w').
Proof.
  intros io upload_id metadata updates w w' H.
  assert (Hdisk : data_dir w' !! LABELS_FILE = Some (JsonDoc (labels w'))).
  { destruct H as [H|[[ok H]|[ok H]]].
    - injection H as <-. apply lookup_insert_eq.
    - unfold DataManager.update_upload in H.
      destruct (Dict.get upload_id (labels w)); [|discriminate].
      unfold DataManager.save_labels in H. destruct ok; [|discriminate].
      injection H as <-. apply lookup_insert_eq.
    - unfold DataManager.delete_upload in H.
      destruct (Dict.mem upload_id (labels w)); simpl in H; [|discriminate].
      unfold DataManager.save_labels in H. destruct ok; [|discriminate].
      injection H as <-. apply lookup_insert_eq. }
  unfold DataManager._load_labels. by rewrite Hdisk.
Qed.

Lemma saved_store_loads_back_witness :
  let w' := snd (DataManager.add_upload true "u2" Demo.record1 Demo.pending_world) in
  DataManager._load_labels
    {| DataManager.load_stamp := "20250101_000000";
       DataManager.load_rename_ok := true |} (data_dir w')
  = (Return (labels w'), data_dir w').
Proof.
  apply (saved_store_loads_back _ "u2" Demo.record1 (fun e => e)
                                Demo.pending_world).
  left. reflexivity.
Defined.

(** X2.  [add_upload] is an insert: whether or not the save succeeds,
    the record is afterwards found under its id, every other id reads as
    before, the store grows by one exactly when the id is new, and ids stay
    unique. *)
Theorem add_upload_then_get :
  forall (ok : bool) (upload_id : string) (metadata : entry) (w : world),
    let w' := snd (DataManager.add_upload ok upload_id metadata w) in
    DataManager.get_upload upload_id w' = Some metadata
    /\ (forall other, other <> upload_id ->
                      DataManager.get_upload other w' = DataManager.get_upload other w)
    /\ length (labels w')
       = (if Dict.mem upload_id (labels w) then length (labels w)
          else S (length (labels w)))
    /\ (NoDup (Dict.keys (labels w)) -> NoDup (Dict.keys (labels w'))).
Proof.
  intros ok upload_id metadata w w'.
  assert (Hl : labels w' = Dict.set upload_id metadata (labels w)).
  { subst w'. unfold DataManager.add_upload, DataManager.save_labels.
    by destruct ok. }
  unfold DataManager.get_upload. rewrite Hl.
  split; [apply dict_get_set_eq|]. split.
  - intros other Hne. by apply dict_get_set_ne.
  - split; [apply dict_length_set|apply dict_set_NoDup].
Qed.



(** X4.  An unknown id is answered, not raised: [update_upload] and
    [delete_upload] return [False] exactly when the id is not in the store,
    and then neither the dict nor any file changes (no save is attempted). *)
Theorem unknown_id_returns_false :
  forall (ok : bool) (upload_id : string) (updates : entry -> entry) (w : world),
    (DataManager.get_upload upload_id w = None ->
     DataManager.update_upload ok upload_id updates w = (Return false, w)
     /\ DataManager.delete_upload ok upload_id w = (Return false, w))
    /\ (forall w', DataManager.update_upload ok upload_id updates w
                   = (Return false, w') ->
                   DataManager.get_upload upload_id w = None)
    /\ (forall w', DataManager.delete_upload ok upload_id w = (Return false, w') ->
                   DataManager.get_upload upload_id w = None).
Proof.
  intros ok upload_id updates w.
  unfold DataManager.get_upload, DataManager.update_upload,
    DataManager.delete_upload, Dict.mem, DataManager.save_labels.
  destruct (Dict.get upload_id (labels w)) as [e|]; simpl.
  - split; [discriminate|]. split; intros w'; destruct ok; discriminate.
  - split; [done|]. by split.
Qed.

Lemma unknown_id_returns_false_witness :
  DataManager.update_upload false "nobody" (fun e => e) Demo.pending_world
  = (Return false, Demo.pending_world)
  /\ DataManager.delete_upload false "nobody" Demo.pending_world
     = (Return false, Demo.pending_world).
Proof.
  exact (proj1 (unknown_id_returns_false false "nobody" (fun e => e)
                                          Demo.pending_world) eq_refl).
Defined.

(** X5.  [delete_upload] of a known id removes exactly that record: the
    id is no longer found, every other id reads as before, the store
    shrinks by one and ids stay unique. *)
Theorem delete_upload_then_get :
  forall (ok : bool) (upload_id : string) (w : world) (e : entry),
    NoDup (Dict.keys (labels w)) ->
    DataManager.get_upload upload_id w = Some e ->
    let w' := snd (DataManager.delete_upload ok upload_id w) in
    DataManager.get_upload upload_id w' = None
    /\ (forall other, other <> upload_id ->
                      DataManager.get_upload other w' = DataManager.get_upload other w)
    /\ S (length (labels w')) = length (labels w)
    /\ NoDup (Dict.keys (labels w')).
Proof.
  intros ok upload_id w e Hnd Hget w'. unfold DataManager.get_upload in *.
  assert (Hmem : Dict.mem upload_id (labels w) = true).
  { apply dict_mem_get. by exists e. }
  assert (Hl : labels w' = Dict.del upload_id (labels w)).
  { subst w'. unfold DataManager.delete_upload, DataManager.save_labels.
    rewrite Hmem. by destruct ok. }
  rewrite Hl. split; [by apply dict_get_del_eq|]. split.
  - intros other Hne. by apply dict_get_del_ne.
  - split; [by apply dict_length_del|by apply dict_del_NoDup].
Qed.

Lemma delete_upload_then_get_witness :
  DataManager.get_upload "u1"
    (snd (DataManager.delete_upload true "u1" Demo.pending_world)) = None.
Proof.
  assert (Hnd : NoDup (Dict.keys (labels Demo.pending_world))).
  { apply NoDup_singleton. }
  exact (proj1 (delete_upload_then_get true "u1" Demo.pending_world
                                       Demo.record1 Hnd eq_refl)).
Defined.

(** ** The admin endpoints *)

Lemma verify_admin_token_ok config token :
  is_return (verify_admin_token config token) = true <->
  token = Some (ADMIN_TOKEN config) /\ ADMIN_TOKEN config <> "".
Proof.
  unfold verify_admin_token. destruct token as [t|]; simpl.
  - destruct (String.eqb_spec t (ADMIN_TOKEN config)) as [->|Hne].
    + destruct (ADMIN_TOKEN config) eqn:E; simpl; split; try done.
      * by intros [_ H].
    + rewrite orb_true_r. simpl. split; [done|]. intros [[= ->] _]. done.
  - split; [done|]. by intros [H _].
Qed.

Lemma verify_admin_token_raise config token :
  is_return (verify_admin_token config token) = false ->
  verify_admin_token config token
  = Raise (HTTPException 401 "Invalid or missing admin token").
Proof.
  unfold verify_admin_token. destruct token as [t|]; [|done].
  by destruct (negb (Py.truthy t) || negb (String.eqb t (ADMIN_TOKEN config))).
Qed.

(** X6.  The token check accepts exactly the configured token, and never
    an empty one; without it each of the four admin endpoints raises 401
    and changes nothing, whatever else it is given. *)
Theorem admin_endpoints_require_token :
  forall (config : Config) (token : option string),
    (is_return (verify_admin_token config token) = true <->
     token = Some (ADMIN_TOKEN config) /\ ADMIN_TOKEN config <> "")
    /\ (is_return (verify_admin_token config token) = false ->
        forall (w : world) (aio : approve_io) (rio : reject_io) (dio : delete_io)
               (upload_id text : string) (reason : option string),
          let denied {A} : result A * world :=
            (Raise (HTTPException 401 "Invalid or missing admin token"), w) in
          admin_list_uploads config token w = denied
          /\ admin_approve_upload config aio upload_id text token w = denied
          /\ admin_reject_upload config rio upload_id reason token w = denied
          /\ admin_delete_upload config dio upload_id token w = denied).
Proof.
  intros config token. split; [apply verify_admin_token_ok|].
  intros Hno w aio rio dio upload_id text reason denied. subst denied.
  unfold admin_list_uploads, admin_approve_upload, admin_reject_upload,
    admin_delete_upload.
  by rewrite (verify_admin_token_raise _ _ Hno).
Qed.

Lemma admin_endpoints_require_token_witness :
  admin_delete_upload Demo.config
    {| unlink_images_ok := true; unlink_approved_ok := true;
       delete_save_ok := true |} "u1" (Some "guess") Demo.pending_world
  = (Raise (HTTPException 401 "Invalid or missing admin token"),
     Demo.pending_world).
Proof.
  exact (proj2 (proj2 (proj2
    (proj2 (admin_endpoints_require_token Demo.config (Some "guess")) eq_refl
       Demo.pending_world Demo.approve_ok
       {| reject_save_ok := true; reject_now := "2025-01-03T00:00:00" |}
       {| unlink_images_ok := true; unlink_approved_ok := true;
          delete_save_ok := true |} "u1" "text" None)))).
Defined.

(** What a returning call of [admin_reject_upload] has done. *)
Lemma reject_Return_state config io upload_id reason token w resp w' :
  admin_reject_upload config io upload_id reason token w = (Return resp, w') ->
  exists e,
    DataManager.get_upload upload_id w = Some e
    /\ labels w' = Dict.set upload_id (update_rejected reason (reject_now io) e)
                            (labels w)
    /\ images w' = images w /\ approved w' = approved w
    /\ data_dir w' !! LABELS_FILE = Some (JsonDoc (labels w')).
Proof.
  unfold admin_reject_upload.
  destruct (verify_admin_token config token); [|discriminate].
  unfold DataManager.get_upload.
  destruct (Dict.get upload_id (labels w)) as [e|] eqn:Hget; [|discriminate].
  destruct (entry_truthy e); simpl; [|discriminate].
  unfold DataManager.update_upload. rewrite Hget.
  unfold DataManager.save_labels.
  destruct (reject_save_ok io); simpl; [|discriminate].
  intros [= <- <-]. exists e. simpl. repeat split. apply lookup_insert_eq.
Qed.

(** X7.  A successful [admin_reject_upload] changes the record and nothing
    else: status becomes [rejected], the note is the reason given, or the
    default when the reason is missing or empty, the rejection time is set;
    the texts, the file name, the hash and the approval time are kept; no
    file in either directory and no other record is touched. *)
Theorem reject_marks_record_only :
  forall (config : Config) (io : reject_io) (upload_id : string)
         (reason : option string) (token : option string) (w : world)
         (resp : AdminResponse) (w' : world),
    admin_reject_upload config io upload_id reason token w = (Return resp, w') ->
    exists e e',
      DataManager.get_upload upload_id w = Some e
      /\ DataManager.get_upload upload_id w' = Some e'
      /\ status e' = Some "rejected"
      /\ rejection_time e' = Some (reject_now io)
      /\ (reason = None \/ reason = Some "" -> notes e' = Some "rejected by admin")
      /\ (forall r, reason = Some r -> r <> "" -> notes e' = Some r)
      /\ (corrected_text e' = corrected_text e /\ provided_text e' = provided_text e
          /\ predicted_text e' = predicted_text e /\ file e' = file e
          /\ file_hash e' = file_hash e /\ approval_time e' = approval_time e)
      /\ images w' = images w /\ approved w' = approved w
      /\ (forall other, other <> upload_id ->
                        DataManager.get_upload other w'
                        = DataManager.get_upload other w).
Proof.
  intros config io upload_id reason token w resp w' Hrun.
  destruct (reject_Return_state _ _ _ _ _ _ _ _ Hrun)
    as (e & Hget & Hl & Hi & Ha & _).
  exists e, (update_rejected reason (reject_now io) e).
  unfold DataManager.get_upload in *. rewrite Hl.
  split; [done|]. split; [apply dict_get_set_eq|].
  split; [done|]. split; [done|]. split.
  { by intros [->| ->]. }
  split.
  { intros r -> Hr. simpl. by destruct r. }
  split; [done|]. split; [done|]. split; [done|].
  intros other Hne. by apply dict_get_set_ne.
Qed.

Lemma reject_marks_record_only_witness :
  exists e e',
    DataManager.get_upload "u1" Demo.pending_world = Some e
    /\ DataManager.get_upload "u1"
         (snd (admin_reject_upload Demo.config
                 {| reject_save_ok := true; reject_now := "2025-01-03T00:00:00" |}
                 "u1" (Some "") (Some "changeme") Demo.pending_world)) = Some e'
    /\ status e' = Some "rejected"
    /\ notes e' = Some "rejected by admin".
Proof.
  destruct (reject_marks_record_only Demo.config
              {| reject_save_ok := true; reject_now := "2025-01-03T00:00:00" |}
              "u1" (Some "") (Some "changeme") Demo.pending_world
              _ _ eq_refl)
    as (e & e' & H1 & H2 & H3 & _ & H5 & _).
  exists e, e'. split; [exact H1|]. split; [exact H2|]. split; [exact H3|].
  apply H5. by right.
Defined.

(** What a returning call of [admin_approve_upload] has done. *)
Lemma approve_Return_state config io upload_id text token w resp w' :
  admin_approve_upload config io upload_id text token w = (Return resp, w') ->
  exists e name c,
    DataManager.get_upload (Py.strip upload_id) w = Some e
    /\ file e = Some name /\ images w !! name = Some c
    /\ labels w' = Dict.set (Py.strip upload_id)
                            (DataManager.update_approved (Py.strip text)
                                                         (approve_now io) e)
                            (labels w)
    /\ images w' = delete name (images w)
    /\ approved w' = <[name := c]> (approved w)
    /\ data_dir w' !! LABELS_FILE = Some (JsonDoc (labels w')).
Proof.
  intros Hrun. pose proof (approve_Return_id _ _ _ _ _ _ _ _ Hrun) as Hid.
  assert (Hfound : exists e name c,
             Dict.get (Py.strip upload_id) (labels w) = Some e
             /\ file e = Some name /\ images w !! name = Some c
             /\ Py.truthy (Py.strip text) = true).
  { revert Hrun. unfold admin_approve_upload.
    destruct (verify_admin_token config token); [|discriminate].
    destruct (negb (Py.truthy upload_id) || negb (Py.truthy (Py.strip upload_id)));
      [discriminate|].
    destruct (Py.truthy text); simpl; [|discriminate].
    destruct (Py.truthy (Py.strip text)) eqn:Ht; simpl; [|discriminate].
    unfold DataManager.get_upload.
    destruct (Dict.get (Py.strip upload_id) (labels w)) as [e|] eqn:He;
      [|discriminate].
    destruct (entry_truthy e); simpl; [|discriminate].
    destruct (file e) as [name|] eqn:Hf; [|discriminate].
    destruct (images w !! name) as [c|] eqn:Hc; [|discriminate].
    intros _. by exists e, name, c. }
  destruct Hfound as (e & name & c & Hget & Hfile & Hpend & Htext).
  destruct (approve_Return_inv config io upload_id text token w e name c
              Hid Hget Hfile Htext Hpend resp w' Hrun) as (Htok & Hmv & Hsv).
  rewrite (approve_after_checks config io upload_id text token w e name c
             Hid Hget Hfile Htext Hpend Htok) in Hrun.
  simpl in Hrun. rewrite Hmv, Hsv in Hrun. injection Hrun as <- <-.
  exists e, name, c. simpl. repeat split; try done. apply lookup_insert_eq.
Qed.

(** X8.  Rejecting never moves a file back.  When a sample is approved
    and then rejected, the record ends with status [rejected] and still
    carries the corrected text of the approval, and its file stays in the
    approved directory and out of the pending one; [train.py] does not
    prepare it. *)
Theorem reject_after_approve_keeps_file_approved :
  forall (config : Config) (aio : approve_io) (rio : reject_io)
         (upload_id text : string) (reason : option string)
         (token token' : option string) (w w1 w2 : world)
         (r1 r2 : AdminResponse),
    admin_approve_upload config aio upload_id text token w = (Return r1, w1) ->
    admin_reject_upload config rio (Py.strip upload_id) reason token' w1
    = (Return r2, w2) ->
    exists e name c,
      DataManager.get_upload (Py.strip upload_id) w2 = Some e
      /\ status e = Some "rejected"
      /\ corrected_text e = Some (Py.strip text)
      /\ file e = Some name
      /\ approved w2 !! name = Some c /\ images w2 !! name = None
      /\ (forall md5 pio,
             prepared md5 pio (approved w2) (Py.strip upload_id, e) = false).
Proof.
  intros config aio rio upload_id text reason token token' w w1 w2 r1 r2 Happ Hrej.
  destruct (approve_Return_state _ _ _ _ _ _ _ _ Happ)
    as (e0 & name & c & _ & Hfile & _ & Hl1 & Hi1 & Ha1 & _).
  destruct (reject_Return_state _ _ _ _ _ _ _ _ Hrej)
    as (e1 & Hget1 & Hl2 & Hi2 & Ha2 & _).
  unfold DataManager.get_upload in *.
  rewrite Hl1, dict_get_set_eq in Hget1. injection Hget1 as <-.
  eexists _, name, c. rewrite Hl2, dict_get_set_eq.
  split; [reflexivity|]. split; [done|]. split; [done|]. split; [done|].
  rewrite Ha2, Ha1, Hi2, Hi1.
  split; [apply lookup_insert_eq|]. split; [apply lookup_delete_eq|].
  intros md5 pio. reflexivity.
Qed.

Lemma reject_after_approve_keeps_file_approved_witness :
  let w1 := snd (admin_approve_upload Demo.config Demo.approve_ok "u1"
                   "hello world" (Some "changeme") Demo.pending_world) in
  let w2 := snd (admin_reject_upload Demo.config
                   {| reject_save_ok := true; reject_now := "2025-01-03T00:00:00" |}
                   "u1" None (Some "changeme") w1) in
  exists e name c,
    DataManager.get_upload "u1" w2 = Some e
    /\ status e = Some "rejected"
    /\ corrected_text e = Some "hello world"
    /\ file e = Some name
    /\ approved w2 !! name = Some c /\ images w2 !! name = None.
Proof.
  destruct (reject_after_approve_keeps_file_approved
              Demo.config Demo.approve_ok
              {| reject_save_ok := true; reject_now := "2025-01-03T00:00:00" |}
              "u1" "hello world" None (Some "changeme") (Some "changeme")
              Demo.pending_world _ _ _ _ eq_refl eq_refl)
    as (e & name & c & H1 & H2 & H3 & H4 & H5 & H6 & _).
  exists e, name, c. repeat split; assumption.
Defined.

(** [admin_delete_upload] once the token is accepted and the record, with
    its file name, is found. *)
Lemma delete_after_checks config io upload_id token w e name :
  is_return (verify_admin_token config token) = true ->
  DataManager.get_upload upload_id w = Some e ->
  file e = Some name ->
  let img := unlink_if_exists (unlink_images_ok io) name (images w) in
  let app := unlink_if_exists (unlink_approved_ok io) name (approved w) in
  let w1 := with_labels (Dict.del upload_id (labels w))
                        (with_dirs (fst img) (fst app) w) in
  admin_delete_upload config io upload_id token w =
    if delete_save_ok io
    then (Return {| admin_success := true;
                    admin_message := deleted_message (snd img + snd app) |},
          with_data_dir (<[LABELS_FILE := JsonDoc (Dict.del upload_id (labels w))]>
                           (delete TEMP_FILE (data_dir w))) w1)
    else (Raise (HTTPException 500 "Failed to delete upload metadata"),
          with_data_dir (delete TEMP_FILE (data_dir w)) w1).
Proof.
  intros Htok Hget Hfile. simpl. unfold admin_delete_upload.
  destruct (verify_admin_token config token); [|discriminate].
  rewrite Hget, (file_entry_truthy _ _ Hfile), Hfile. simpl.
  destruct (unlink_if_exists (unlink_images_ok io) name (images w)) as [img n1].
  destruct (unlink_if_exists (unlink_approved_ok io) name (approved w)) as [app n2].
  unfold DataManager.delete_upload, DataManager.save_labels. simpl.
  unfold DataManager.get_upload in Hget.
  assert (Hmem : Dict.mem upload_id (labels w) = true).
  { apply dict_mem_get. by exists e. }
  rewrite Hmem. simpl. by destruct (delete_save_ok io).
Qed.

Lemma delete_Return_found config io upload_id token w resp w' :
  admin_delete_upload config io upload_id token w = (Return resp, w') ->
  exists e name,
    is_return (verify_admin_token config token) = true
    /\ DataManager.get_upload upload_id w = Some e /\ file e = Some name
    /\ delete_save_ok io = true.
Proof.
  intros Hrun.
  assert (Hpre : exists e name,
             is_return (verify_admin_token config token) = true
             /\ DataManager.get_upload upload_id w = Some e /\ file e = Some name).
  { revert Hrun. unfold admin_delete_upload.
    destruct (verify_admin_token config token); [|discriminate].
    destruct (DataManager.get_upload upload_id w) as [e|]; [|discriminate].
    destruct (entry_truthy e); simpl; [|discriminate].
    destruct (file e) as [name|] eqn:Hf; [|discriminate].
    intros _. by exists e, name. }
  destruct Hpre as (e & name & Htok & Hget & Hfile). exists e, name.
  repeat split; try done.
  rewrite (delete_after_checks _ _ _ _ _ _ _ Htok Hget Hfile) in Hrun.
  by destruct (delete_save_ok io).
Qed.

Lemma unlink_if_exists_ok name dir :
  fst (unlink_if_exists true name dir) !! name = None
  /\ (forall other, other <> name ->
                    fst (unlink_if_exists true name dir) !! other = dir !! other)
  /\ snd (unlink_if_exists true name dir)
     = match dir !! name with Some _ => 1 | None => 0 end%Z.
Proof.
  unfold unlink_if_exists. destruct (dir !! name) eqn:E; simpl.
  - split; [apply lookup_delete_eq|]. split; [|done].
    intros other Hne. by apply lookup_delete_ne.
  - by repeat split.
Qed.

(** X9.  A successful [admin_delete_upload] whose unlinks succeed removes
    the record and the file from both directories, and nothing else: the id
    is no longer found, the file name is absent from the pending and the
    approved directory, other records and other files are as before, and the
    message reports how many of the two locations held the file. *)
Theorem delete_removes_record_and_files :
  forall (config : Config) (io : delete_io) (upload_id : string)
         (token : option string) (w : world) (resp : AdminResponse) (w' : world),
    NoDup (Dict.keys (labels w)) ->
    unlink_images_ok io = true -> unlink_approved_ok io = true ->
    admin_delete_upload config io upload_id token w = (Return resp, w') ->
    exists e name,
      DataManager.get_upload upload_id w = Some e /\ file e = Some name
      /\ DataManager.get_upload upload_id w' = None
      /\ images w' !! name = None /\ approved w' !! name = None
      /\ (forall other, other <> upload_id ->
                        DataManager.get_upload other w'
                        = DataManager.get_upload other w)
      /\ (forall other, other <> name ->
                        images w' !! other = images w !! other
                        /\ approved w' !! other = approved w !! other)
      /\ admin_message resp
         = deleted_message
             (match images w !! name with Some _ => 1 | None => 0 end
              + match approved w !! name with Some _ => 1 | None => 0 end)
      /\ data_dir w' !! LABELS_FILE = Some (JsonDoc (labels w')).
Proof.
  intros config io upload_id token w resp w' Hnd Hui Hua Hrun.
  destruct (delete_Return_found _ _ _ _ _ _ _ Hrun)
    as (e & name & Htok & Hget & Hfile & Hsv).
  rewrite (delete_after_checks _ _ _ _ _ _ _ Htok Hget Hfile) in Hrun.
  rewrite Hsv, Hui, Hua in Hrun. injection Hrun as <- <-.
  destruct (unlink_if_exists_ok name (images w)) as (Hi1 & Hi2 & Hi3).
  destruct (unlink_if_exists_ok name (approved w)) as (Ha1 & Ha2 & Ha3).
  exists e, name. unfold DataManager.get_upload in *. simpl.
  split; [done|]. split; [done|]. split; [by apply dict_get_del_eq|].
  split; [done|]. split; [done|]. split.
  { intros other Hne. by apply dict_get_del_ne. }
  split.
  { intros other Hne. split; [by apply Hi2|by apply Ha2]. }
  split; [by rewrite Hi3, Ha3|apply lookup_insert_eq].
Qed.

Lemma delete_removes_record_and_files_witness :
  let io := {| unlink_images_ok := true; unlink_approved_ok := true;
               delete_save_ok := true |} in
  let run := admin_delete_upload Demo.config io "u1" (Some "changeme")
                                 Demo.pending_world in
  DataManager.get_upload "u1" (snd run) = None
  /\ images (snd run) !! "u1.png" = None
  /\ fst run = Return {| admin_success := true;
                         admin_message :=
                           "Upload deleted successfully. Files removed: 1" |}.
Proof.
  assert (Hnd : NoDup (Dict.keys (labels Demo.pending_world))).
  { apply NoDup_singleton. }
  destruct (delete_removes_record_and_files Demo.config
              {| unlink_images_ok := true; unlink_approved_ok := true;
                 delete_save_ok := true |} "u1" (Some "changeme")
              Demo.pending_world _ _ Hnd eq_refl eq_refl eq_refl)
    as (e & name & _ & Hfile & Hgone & Himg & _).
  split; [exact Hgone|]. split; [|reflexivity].
  reflexivity.
Defined.

(** X10.  Deletion is best effort, not a transaction.  When unlinking the
    pending file fails, the call still succeeds and removes the record, and
    the file stays behind without a record; when the store write fails, the
    call raises 500 although the files are already removed and the record is
    already gone from memory, while [labels.json] still holds it. *)
Theorem delete_is_best_effort :
  forall (config : Config) (io : delete_io) (upload_id : string)
         (token : option string) (w : world) (e : entry) (name : string)
         (c : list byte),
    NoDup (Dict.keys (labels w)) ->
    is_return (verify_admin_token config token) = true ->
    DataManager.get_upload upload_id w = Some e ->
    file e = Some name ->
    images w !! name = Some c ->
    let run := admin_delete_upload config io upload_id token w in
    DataManager.get_upload upload_id (snd run) = None
    /\ (unlink_images_ok io = false -> delete_save_ok io = true ->
        is_return (fst run) = true /\ images (snd run) !! name = Some c)
    /\ (unlink_images_ok io = true -> delete_save_ok io = false ->
        fst run = Raise (HTTPException 500 "Failed to delete upload metadata")
        /\ images (snd run) !! name = None
        /\ data_dir (snd run) !! LABELS_FILE = data_dir w !! LABELS_FILE).
Proof.
  intros config io upload_id token w e name c Hnd Htok Hget Hfile Hc run.
  subst run. rewrite (delete_after_checks _ _ _ _ _ _ _ Htok Hget Hfile).
  unfold DataManager.get_upload in *.
  split.
  { destruct (delete_save_ok io); simpl; by apply dict_get_del_eq. }
  split.
  - intros Hu Hs. rewrite Hs, Hu. simpl. split; [done|].
    unfold unlink_if_exists. by rewrite Hc.
  - intros Hu Hs. rewrite Hs, Hu. simpl. split; [done|].
    unfold unlink_if_exists at 1. rewrite Hc. simpl.
    split; [apply lookup_delete_eq|by apply lookup_delete_ne].
Qed.

Lemma delete_is_best_effort_witness :
  let io := {| unlink_images_ok := false; unlink_approved_ok := true;
               delete_save_ok := true |} in
  let run := admin_delete_upload Demo.config io "u1" (Some "changeme")
                                 Demo.pending_world in
  DataManager.get_upload "u1" (snd run) = None
  /\ is_return (fst run) = true /\ images (snd run) !! "u1.png" = Some [x68].
Proof.
  assert (Hnd : NoDup (Dict.keys (labels Demo.pending_world))).
  { apply NoDup_singleton. }
  destruct (delete_is_best_effort Demo.config
              {| unlink_images_ok := false; unlink_approved_ok := true;
                 delete_save_ok := true |} "u1" (Some "changeme")
              Demo.pending_world Demo.record1 "u1.png" [x68]
              Hnd eq_refl eq_refl eq_refl eq_refl) as (H1 & H2 & _).
  split; [exact H1|]. exact (H2 eq_refl eq_refl).
Defined.

(** X11.  Approve, then delete: the record is gone and the file is in
    neither directory; the one file removed is the copy in the approved
    directory. *)
Theorem delete_after_approve :
  forall (config : Config) (aio : approve_io) (dio : delete_io)
         (upload_id text : string) (token token' : option string)
         (w w1 w2 : world) (r1 r2 : AdminResponse),
    NoDup (Dict.keys (labels w)) ->
    unlink_images_ok dio = true -> unlink_approved_ok dio = true ->
    admin_approve_upload config aio upload_id text token w = (Return r1, w1) ->
    admin_delete_upload config dio (Py.strip upload_id) token' w1
    = (Return r2, w2) ->
    exists e name,
      DataManager.get_upload (Py.strip upload_id) w = Some e
      /\ file e = Some name
      /\ DataManager.get_upload (Py.strip upload_id) w2 = None
      /\ images w2 !! name = None /\ approved w2 !! name = None
      /\ admin_message r2 = deleted_message 1.
Proof.
  intros config aio dio upload_id text token token' w w1 w2 r1 r2
         Hnd Hui Hua Happ Hdel.
  destruct (approve_Return_state _ _ _ _ _ _ _ _ Happ)
    as (e & name & c & Hget & Hfile & Hc & Hl1 & Hi1 & Ha1 & _).
  destruct (delete_Return_found _ _ _ _ _ _ _ Hdel)
    as (e1 & name1 & Htok & Hget1 & Hfile1 & Hsv).
  assert (He1 : e1 = DataManager.update_approved (Py.strip text) (approve_now aio) e).
  { unfold DataManager.get_upload in Hget1.
    rewrite Hl1, dict_get_set_eq in Hget1. congruence. }
  assert (name1 = name) as -> by (subst e1; simpl in Hfile1; congruence).
  rewrite (delete_after_checks _ _ _ _ _ _ _ Htok Hget1 Hfile1) in Hdel.
  rewrite Hsv, Hui, Hua in Hdel. injection Hdel as <- <-.
  destruct (unlink_if_exists_ok name (images w1)) as (Hi2 & _ & Hi3).
  destruct (unlink_if_exists_ok name (approved w1)) as (Ha2 & _ & Ha3).
  exists e, name. simpl. unfold DataManager.get_upload in *.
  split; [done|]. split; [done|]. split.
  { apply dict_get_del_eq. rewrite Hl1. by apply dict_set_NoDup. }
  split; [done|]. split; [done|].
  rewrite Hi3, Ha3, Hi1, Ha1, lookup_delete_eq, lookup_insert_eq. reflexivity.
Qed.

Lemma delete_after_approve_witness :
  let io := {| unlink_images_ok := true; unlink_approved_ok := true;
               delete_save_ok := true |} in
  let w1 := snd (admin_approve_upload Demo.config Demo.approve_ok "u1"
                   "hello world" (Some "changeme") Demo.pending_world) in
  let run := admin_delete_upload Demo.config io "u1" (Some "changeme") w1 in
  exists e name,
    DataManager.get_upload "u1" Demo.pending_world = Some e
    /\ file e = Some name
    /\ DataManager.get_upload "u1" (snd run) = None
    /\ images (snd run) !! name = None /\ approved (snd run) !! name = None
    /\ admin_message
         {| admin_success := true;
            admin_message := "Upload deleted successfully. Files removed: 1" |}
       = deleted_message 1.
Proof.
  assert (Hnd : NoDup (Dict.keys (labels Demo.pending_world))).
  { apply NoDup_singleton. }
  exact (delete_after_approve Demo.config Demo.approve_ok
           {| unlink_images_ok := true; unlink_approved_ok := true;
              delete_save_ok := true |} "u1" "hello world"
           (Some "changeme") (Some "changeme") Demo.pending_world _ _ _ _
           Hnd eq_refl eq_refl eq_refl eq_refl).
Defined.

(** ** Ingestion and review together *)

Lemma find_duplicate_None_iff h d :
  find_duplicate h d = None <->
  forall k e, In (k, e) d -> file_hash e <> Some h.
Proof.
  split.
  - intros H k e. by apply find_duplicate_None.
  - intros H. destruct (find_duplicate h d) as [[k e]|] eqn:E; [|done].
    destruct (find_duplicate_Some _ _ _ _ E) as [Hin Hh].
    by destruct (H k e Hin).
Qed.

Lemma dict_del_set_In {V} (d : list (string * V)) k v x :
  In x (Dict.del k (Dict.set k v d)) -> In x d.
Proof.
  induction d as [|[k0 v0] d IH]; simpl.
  - by rewrite String.eqb_refl.
  - destruct (String.eqb_spec k0 k) as [->|Hk]; simpl.
    + rewrite String.eqb_refl. by right.
    + destruct (String.eqb_spec k0 k); [done|].
      intros [<-|Hin]; [by left|right; by apply IH].
Qed.

(** Replacing a record by one with the same hash and predicted text does
    not change what the duplicate scan answers. *)
Lemma find_duplicate_set_preserved h d k e k' e0 e' :
  find_duplicate h d = Some (k, e) ->
  Dict.get k' d = Some e0 ->
  file_hash e' = file_hash e0 -> predicted_text e' = predicted_text e0 ->
  exists e2, find_duplicate h (Dict.set k' e' d) = Some (k, e2)
             /\ predicted_text e2 = predicted_text e.
Proof.
  intros Hfind Hget Hhash Hpred.
  induction d as [|[k0 v0] d IH]; simpl in *; [done|].
  destruct (String.eqb_spec k0 k') as [->|Hk]; simpl.
  - injection Hget as ->. rewrite Hhash.
    revert Hfind. case_bool_decide as Hh.
    + intros [= <- <-]. by exists e'.
    + intros Hfind. exists e. by split.
  - revert Hfind. case_bool_decide as Hh.
    + intros [= <- <-]. by exists v0.
    + intros Hfind. by apply IH.
Qed.

(** X12.  Deleting a sample releases its hash: after an upload that was
    stored anew and the deletion of its record, uploading the same bytes is
    stored anew again, under the fresh id, instead of being answered as a
    duplicate. *)
Theorem deleted_sample_can_be_uploaded_again :
  forall (sha : list byte -> string) (config : Config) (io1 io2 : upload_io)
         (dio : delete_io) (f1 f2 : UploadFile) (text1 text2 token : option string)
         (contents : list byte) (w w1 w2 : world) (r1 : UploadResponse)
         (r2 : AdminResponse),
    body f1 = Some contents ->
    upload_file sha config io1 f1 text1 w = (Return r1, w1) ->
    message r1 = "Upload successful" ->
    admin_delete_upload config dio (upload_id r1) token w1 = (Return r2, w2) ->
    passes_validation config f2 contents ->
    write_ok io2 = true -> upload_save_ok io2 = true ->
    exists r3 w3,
      upload_file sha config io2 f2 text2 w2 = (Return r3, w3)
      /\ upload_id r3 = uuid4 io2
      /\ message r3 = "Upload successful"
      /\ images w3 !! (uuid4 io2 ++ resolve_ext f2) = Some contents.
Proof.
  intros sha config io1 io2 dio f1 f2 text1 text2 token contents w w1 w2 r1 r2
         Hb Hup Hmsg Hdel Hp2 Hw Hs.
  destruct (upload_file_Return_cases _ _ _ _ _ _ _ _ _ Hb Hup)
    as [(e & _ & _ & Hm & _)|(e & Hnone & Hid & _ & _ & _ & Hl1 & _)].
  { rewrite Hm in Hmsg. discriminate. }
  destruct (delete_Return_found _ _ _ _ _ _ _ Hdel)
    as (e1 & name & Htok & Hget & Hfile & Hsv).
  rewrite (delete_after_checks _ _ _ _ _ _ _ Htok Hget Hfile) in Hdel.
  rewrite Hsv in Hdel. injection Hdel as _ <-.
  rewrite (upload_file_after_validation _ _ _ _ _ _ _ Hp2). simpl.
  assert (Hnone2 : find_duplicate (sha contents)
                                  (Dict.del (upload_id r1) (labels w1)) = None).
  { apply find_duplicate_None_iff. intros k0 e0 Hin.
    rewrite Hl1, Hid in Hin. apply dict_del_set_In in Hin.
    by apply (find_duplicate_None _ _ _ _ Hnone Hin). }
  rewrite Hnone2, Hw. simpl.
  unfold DataManager.add_upload, DataManager.save_labels. rewrite Hs. simpl.
  eexists _, _. split; [reflexivity|]. simpl.
  split; [done|]. split; [done|]. apply lookup_insert_eq.
Qed.

Lemma deleted_sample_can_be_uploaded_again_witness :
  let w1 := snd (upload_file Demo.digest Demo.config (Demo.io "u1")
                   (Demo.png "a.png" [x68]) None Demo.empty_world) in
  let w2 := snd (admin_delete_upload Demo.config
                   {| unlink_images_ok := true; unlink_approved_ok := true;
                      delete_save_ok := true |} "u1" (Some "changeme") w1) in
  exists r3 w3,
    upload_file Demo.digest Demo.config (Demo.io "u2") (Demo.png "b.png" [x68])
                None w2 = (Return r3, w3)
    /\ upload_id r3 = "u2"
    /\ message r3 = "Upload successful"
    /\ images w3 !! "u2.png" = Some [x68].
Proof.
  assert (Hp : passes_validation Demo.config (Demo.png "b.png" [x68]) [x68]).
  { split; [reflexivity|]. split; [reflexivity|]. split; [reflexivity|].
    vm_compute. discriminate. }
  exact (deleted_sample_can_be_uploaded_again
           Demo.digest Demo.config (Demo.io "u1") (Demo.io "u2")
           {| unlink_images_ok := true; unlink_approved_ok := true;
              delete_save_ok := true |}
           (Demo.png "a.png" [x68]) (Demo.png "b.png" [x68]) None None
           (Some "changeme") [x68] Demo.empty_world _ _ _ _
           eq_refl eq_refl eq_refl eq_refl Hp eq_refl eq_refl).
Defined.

(** X13.  When the metadata save fails after the image was written, the
    upload raises 500 and the image file is removed again, but the record
    stays in the dict in memory while [labels.json] is unchanged; a retry
    with the same bytes is then answered as a duplicate of that record,
    whose file does not exist. *)
Theorem failed_metadata_save_leaves_record_in_memory :
  forall (sha : list byte -> string) (config : Config) (io : upload_io)
         (f : UploadFile) (text : option string) (w : world)
         (contents : list byte),
    passes_validation config f contents ->
    find_duplicate (sha contents) (labels w) = None ->
    write_ok io = true -> upload_save_ok io = false ->
    let run := upload_file sha config io f text w in
    let name := uuid4 io ++ resolve_ext f in
    fst run = Raise (HTTPException 500 "Failed to save upload metadata")
    /\ images (snd run) !! name = None
    /\ (exists e, DataManager.get_upload (uuid4 io) (snd run) = Some e
                  /\ file e = Some name
                  /\ file_hash e = Some (sha contents))
    /\ data_dir (snd run) !! LABELS_FILE = data_dir w !! LABELS_FILE
    /\ (forall io2 f2 text2,
           passes_validation config f2 contents ->
           exists p,
             upload_file sha config io2 f2 text2 (snd run)
             = (Return {| success := true; upload_id := uuid4 io; predicted := p;
                          message := "File already exists in system" |},
                snd run)).
Proof.
  intros sha config io f text w contents Hp Hnone Hw Hs run name. subst run name.
  rewrite (upload_file_after_validation _ _ _ _ _ _ _ Hp). rewrite Hnone. simpl.
  rewrite Hw. simpl.
  unfold DataManager.add_upload, DataManager.save_labels. rewrite Hs. simpl.
  split; [done|]. split; [apply lookup_delete_eq|].
  split.
  { eexists. unfold DataManager.get_upload. simpl.
    split; [apply dict_get_set_eq|]. by split. }
  split; [by apply lookup_delete_ne|].
  intros io2 f2 text2 Hp2. eexists.
  apply (upload_duplicate sha config io2 f2 text2 _ contents).
  - exact Hp2.
  - simpl. by apply find_duplicate_set.
Qed.

Lemma failed_metadata_save_leaves_record_in_memory_witness :
  let io := {| uuid4 := "u1"; upload_now := "2025-01-01T00:00:00";
               write_ok := true; upload_save_ok := false |} in
  let run := upload_file Demo.digest Demo.config io (Demo.png "a.png" [x68])
                         None Demo.empty_world in
  fst run = Raise (HTTPException 500 "Failed to save upload metadata")
  /\ images (snd run) !! "u1.png" = None
  /\ exists e, DataManager.get_upload "u1" (snd run) = Some e
               /\ file e = Some "u1.png"
               /\ file_hash e = Some (Demo.digest [x68]).
Proof.
  assert (Hp : passes_validation Demo.config (Demo.png "a.png" [x68]) [x68]).
  { split; [reflexivity|]. split; [reflexivity|]. split; [reflexivity|].
    vm_compute. discriminate. }
  destruct (failed_metadata_save_leaves_record_in_memory
              Demo.digest Demo.config
              {| uuid4 := "u1"; upload_now := "2025-01-01T00:00:00";
                 write_ok := true; upload_save_ok := false |}
              (Demo.png "a.png" [x68]) None Demo.empty_world [x68]
              Hp eq_refl eq_refl eq_refl) as (H1 & H2 & H3 & _).
  exact (conj H1 (conj H2 H3)).
Defined.

(** X14.  Review does not release a hash: after any successful approval
    or rejection, an upload of bytes that were a duplicate before is still
    answered with the same id and the same predicted text (the OCR
    prediction, not the reviewer's correction), and stores nothing. *)
Theorem duplicate_check_survives_review :
  forall (sha : list byte -> string) (config : Config) (aio : approve_io)
         (rio : reject_io) (upload_id text : string) (reason token : option string)
         (w w' : world) (resp : AdminResponse) (contents : list byte)
         (k : string) (e : entry),
    (admin_approve_upload config aio upload_id text token w = (Return resp, w')
     \/ admin_reject_upload config rio upload_id reason token w = (Return resp, w')) ->
    find_duplicate (sha contents) (labels w) = Some (k, e) ->
    forall io f t,
      passes_validation config f contents ->
      upload_file sha config io f t w'
      = (Return {| success := true; upload_id := k;
                   predicted := predicted_text e;
                   message := "File already exists in system" |}, w').
Proof.
  intros sha config aio rio upload_id text reason token w w' resp contents k e
         Hrev Hdup io f t Hp.
  assert (Hdup' : exists e2, find_duplicate (sha contents) (labels w') = Some (k, e2)
                             /\ predicted_text e2 = predicted_text e).
  { destruct Hrev as [Happ|Hrej].
    - destruct (approve_Return_state _ _ _ _ _ _ _ _ Happ)
        as (e0 & name & c & Hget & _ & _ & Hl & _).
      rewrite Hl. by apply (find_duplicate_set_preserved _ _ _ _ _ e0).
    - destruct (reject_Return_state _ _ _ _ _ _ _ _ Hrej)
        as (e0 & Hget & Hl & _).
      rewrite Hl. by apply (find_duplicate_set_preserved _ _ _ _ _ e0). }
  destruct Hdup' as (e2 & Hd2 & Hpred). rewrite <- Hpred.
  by apply (upload_duplicate sha config io f t w' contents).
Qed.

Lemma duplicate_check_survives_review_witness :
  let w' := snd (admin_approve_upload Demo.config Demo.approve_ok "u1"
                   "hello world" (Some "changeme") Demo.pending_world) in
  upload_file Demo.digest Demo.config (Demo.io "u2") (Demo.png "b.png" [x68])
              None w'
  = (Return {| success := true; upload_id := "u1"; predicted := Some "helo";
               message := "File already exists in system" |}, w').
Proof.
  assert (Hp : passes_validation Demo.config (Demo.png "b.png" [x68]) [x68]).
  { split; [reflexivity|]. split; [reflexivity|]. split; [reflexivity|].
    vm_compute. discriminate. }
  exact (duplicate_check_survives_review
           Demo.digest Demo.config Demo.approve_ok
           {| reject_save_ok := true; reject_now := "2025-01-03T00:00:00" |}
           "u1" "hello world" None (Some "changeme") Demo.pending_world _ _ [x68]
           "u1" Demo.record1 (or_introl eq_refl) eq_refl
           (Demo.io "u2") (Demo.png "b.png" [x68]) None Hp).
Defined.

(** ** Counting by status: [get_stats] and [health_check] *)

Section Counting.

Local Open Scope Z_scope.

Lemma incr_sum k d :
  foldr Z.add 0 (Dict.values (incr k d)) = foldr Z.add 0 (Dict.values d) + 1.
Proof.
  unfold incr. induction d as [|[k0 v0] d IH]; simpl; [done|].
  destruct (String.eqb_spec k0 k) as [->|Hk]; simpl; [lia|].
  rewrite IH. lia.
Qed.

Lemma incr_get k s d :
  default 0 (Dict.get s (incr k d))
  = default 0 (Dict.get s d) + (if String.eqb k s then 1 else 0).
Proof.
  unfold incr. destruct (String.eqb_spec k s) as [->|Hne].
  - by rewrite dict_get_set_eq.
  - rewrite dict_get_set_ne by done. lia.
Qed.

(** The number of entries filed under [s], where a missing status counts
    as ["unknown"]. *)
Lemma filter_disjoint_length {A} (P Q : A -> bool) (l : list A) :
  (forall x, P x = true -> Q x = true -> False) ->
  (Z.of_nat (length (List.filter P l)) + Z.of_nat (length (List.filter Q l))
   <= Z.of_nat (length l)).
Proof.
  intros Hdis. induction l as [|x l IH]; simpl; [lia|].
  destruct (P x) eqn:EP, (Q x) eqn:EQ; simpl; try lia.
  destruct (Hdis x EP EQ).
Qed.

Lemma stats_fold uploads st :
  let st' := fold_left stats_step uploads st in
  foldr Z.add 0 (Dict.values (status_breakdown st'))
  = foldr Z.add 0 (Dict.values (status_breakdown st)) + Z.of_nat (length uploads)
  /\ (forall s,
         default 0 (Dict.get s (status_breakdown st'))
         = default 0 (Dict.get s (status_breakdown st))
           + Z.of_nat (length (List.filter
                                 (fun u => String.eqb (default "unknown"%string (status u)) s)
                                 uploads)))
  /\ total_file_size st'
     = total_file_size st + foldr Z.add 0 (map (fun u => default 0 (file_size u)) uploads)
  /\ stats_total_uploads st' = stats_total_uploads st.
Proof.
  revert st. induction uploads as [|u uploads IH]; intros st; simpl.
  - split; [lia|]. split; [intros s; lia|]. split; [lia|done].
  - destruct (IH (stats_step st u)) as (H1 & H2 & H3 & H4).
    rewrite H1, H3, H4. simpl. rewrite incr_sum.
    split; [lia|]. split; [|split; [lia|done]].
    intros s. rewrite H2. cbn [stats_step status_breakdown]. rewrite incr_get.
    destruct (String.eqb (default "unknown"%string (status u)) s); simpl; lia.
Qed.

Lemma count_status_filter s uploads :
  s <> "unknown"%string ->
  count_status s uploads
  = Z.of_nat (length (List.filter
                        (fun u => String.eqb (default "unknown"%string (status u)) s)
                        uploads)).
Proof.
  intros Hs. unfold count_status. f_equal. f_equal.
  assert (Heq : forall u,
             bool_decide (status u = Some s)
             = String.eqb (default "unknown"%string (status u)) s).
  { intros u. destruct (status u) as [t|].
    - destruct (String.eqb_spec t s) as [->|Hne].
      + rewrite bool_decide_eq_true_2 by done. cbn [from_option id]. by rewrite String.eqb_refl.
      + rewrite bool_decide_eq_false_2 by congruence. cbn [from_option id].
        symmetry. by apply String.eqb_neq.
    - rewrite bool_decide_eq_false_2 by done. cbn [from_option id].
      symmetry. apply String.eqb_neq. congruence. }
  induction uploads as [|u uploads IH]; [done|].
  cbn [List.filter]. by rewrite Heq, IH.
Qed.

End Counting.

Lemma get_stats_counts config w :
  let st := get_stats config w in
  let uploads := Dict.values (labels w) in
  (foldr Z.add 0 (Dict.values (status_breakdown st)) = Z.of_nat (length uploads)
   /\ stats_total_uploads st = Z.of_nat (length uploads)
   /\ (forall s,
          default 0 (Dict.get s (status_breakdown st))
          = Z.of_nat (length (List.filter
                                (fun u => String.eqb (default "unknown"%string (status u)) s)
                                uploads)))
   /\ total_file_size st
      = foldr Z.add 0 (map (fun u => default 0 (file_size u)) uploads))%Z.
Proof.
  intros st uploads. subst st. unfold get_stats, DataManager.get_all_uploads.
  fold uploads.
  destruct (stats_fold uploads
              {| stats_total_uploads := Z.of_nat (length uploads);
                 status_breakdown := []; total_file_size := 0;
                 stats_ocr_enabled := USE_OCR config |}) as (H1 & H2 & H3 & H4).
  simpl in H1, H2, H3, H4.
  split; [lia|]. split; [done|]. split; [|lia].
  intros s. rewrite H2. lia.
Qed.

Lemma stats_absent_status st l s :
  (forall u, In u l -> default "unknown" (status u) <> s) ->
  Dict.get s (status_breakdown st) = None ->
  Dict.get s (status_breakdown (fold_left stats_step l st)) = None.
Proof.
  revert st. induction l as [|u l IH]; intros st Hl Hst; [done|].
  simpl. apply IH; [intros u' Hu'; apply Hl; by right|].
  simpl. unfold incr. rewrite dict_get_set_ne; [done|].
  apply Hl. by left.
Qed.

(** X15.  In the statistics the counts per status add up to the number of
    uploads; the count under a status other than ["unknown"] is the number
    of records with that status, a status that no record has is absent, and
    records without a status are counted under ["unknown"]; the total file
    size is the sum of the recorded sizes, a missing size counting as 0. *)
Theorem stats_breakdown_adds_up :
  forall (config : Config) (w : world),
    let st := get_stats config w in
    let uploads := Dict.values (labels w) in
    (foldr Z.add 0 (Dict.values (status_breakdown st)) = stats_total_uploads st
     /\ stats_total_uploads st = Z.of_nat (length (labels w)))%Z
    /\ (forall s, s <> "unknown" ->
                  default 0%Z (Dict.get s (status_breakdown st))
                  = count_status s uploads)
    /\ (forall s, (forall u, In u uploads -> default "unknown" (status u) <> s) ->
                  Dict.get s (status_breakdown st) = None)
    /\ default 0%Z (Dict.get "unknown" (status_breakdown st))
       = Z.of_nat (length (List.filter
                             (fun u => bool_decide (status u = None
                                                    \/ status u = Some "unknown"))
                             uploads))
    /\ total_file_size st
       = foldr Z.add 0%Z (map (fun u => default 0%Z (file_size u)) uploads).
Proof.
  intros config w st uploads.
  destruct (get_stats_counts config w) as (H1 & H2 & H3 & H4).
  fold st uploads in H1, H2, H3, H4.
  split.
  { rewrite H1, H2. split; [done|]. subst uploads. unfold Dict.values.
    by rewrite length_map. }
  split.
  { intros s Hs. rewrite H3. by rewrite count_status_filter. }
  split.
  { intros s Hnone. subst st. unfold get_stats, DataManager.get_all_uploads.
    by apply stats_absent_status. }
  split; [|exact H4].
  rewrite H3. f_equal. f_equal.
  assert (Heq : forall u,
             String.eqb (default "unknown" (status u)) "unknown"
             = bool_decide (status u = None \/ status u = Some "unknown")).
  { intros u. destruct (status u) as [t|].
    - destruct (String.eqb_spec t "unknown") as [->|Hne].
      + rewrite bool_decide_eq_true_2 by (by right). reflexivity.
      + rewrite bool_decide_eq_false_2 by (intros [H|H]; congruence).
        cbn [from_option id]. by apply String.eqb_neq.
    - rewrite bool_decide_eq_true_2 by (by left). reflexivity. }
  clear -Heq. induction uploads as [|u uploads IH]; [done|].
  cbn [List.filter]. by rewrite Heq, IH.
Qed.

(** X16.  The health report agrees with the statistics: its approved and
    pending counts are the entries of the status breakdown, and together
    they never exceed the total. *)
Theorem health_agrees_with_stats :
  forall (config : Config) (now : string) (w : world),
    let h := health_check config now w in
    let st := get_stats config w in
    approved_uploads h = default 0%Z (Dict.get "approved" (status_breakdown st))
    /\ pending_uploads h = default 0%Z (Dict.get "pending" (status_breakdown st))
    /\ total_uploads h = stats_total_uploads st
    /\ (0 <= approved_uploads h /\ 0 <= pending_uploads h
        /\ approved_uploads h + pending_uploads h <= total_uploads h)%Z.
Proof.
  intros config now w h st.
  destruct (get_stats_counts config w) as (_ & H2 & H3 & _).
  fold st in H2, H3. subst h. simpl.
  rewrite !H3, H2, <- !count_status_filter by done.
  unfold Dict.values. rewrite length_map.
  split; [done|]. split; [done|]. split; [done|].
  unfold count_status. split; [lia|]. split; [lia|].
  pose proof (filter_disjoint_length
                (fun u => bool_decide (status u = Some "approved"))
                (fun u => bool_decide (status u = Some "pending"))
                (map snd (labels w))) as Hd.
  rewrite length_map in Hd. apply Hd.
  intros u Ha Hp. apply bool_decide_eq_true_1 in Ha, Hp. congruence.
Qed.

(** ** [analyze_dataset] *)

Section AnalysisFacts.

Local Open Scope Z_scope.

Variable isalnum : ascii -> bool.

Lemma sum_snoc (l : list Z) (x : Z) :
  foldr Z.add 0 (l ++ [x]) = foldr Z.add 0 l + x.
Proof. induction l as [|y l IH]; simpl; lia. Qed.

Lemma text_step_delta a text :
  let a' := Analyzer.text_step isalnum a text in
  an_total_samples a' = an_total_samples a
  /\ an_status_breakdown a' = an_status_breakdown a
  /\ has_predicted_text a' = has_predicted_text a
  /\ has_provided_text a' = has_provided_text a
  /\ has_corrected_text a' = has_corrected_text a
  /\ prediction_accuracy a' = prediction_accuracy a
  /\ total_size a' = total_size a
  /\ size_distribution a' = size_distribution a
  /\ Z.of_nat (length (text_length_stats a'))
     = Z.of_nat (length (text_length_stats a))
       + (if Py.truthy text then 1 else 0).
Proof.
  unfold Analyzer.text_step. destruct (Py.truthy text); simpl.
  - repeat split; try done. rewrite length_app. simpl. lia.
  - repeat split; try done. lia.
Qed.

Lemma texts_fold_delta texts a :
  let a' := fold_left (Analyzer.text_step isalnum) texts a in
  an_total_samples a' = an_total_samples a
  /\ an_status_breakdown a' = an_status_breakdown a
  /\ has_predicted_text a' = has_predicted_text a
  /\ has_provided_text a' = has_provided_text a
  /\ has_corrected_text a' = has_corrected_text a
  /\ prediction_accuracy a' = prediction_accuracy a
  /\ total_size a' = total_size a
  /\ size_distribution a' = size_distribution a
  /\ Z.of_nat (length (text_length_stats a'))
     = Z.of_nat (length (text_length_stats a))
       + Z.of_nat (length (List.filter Py.truthy texts)).
Proof.
  revert a. induction texts as [|t texts IH]; intros a; simpl.
  - repeat split; try done. lia.
  - destruct (IH (Analyzer.text_step isalnum a t))
      as (H1 & H2 & H3 & H4 & H5 & H6 & H7 & H8 & H9).
    destruct (text_step_delta a t) as (T1 & T2 & T3 & T4 & T5 & T6 & T7 & T8 & T9).
    cbv zeta in *.
    rewrite H1, H2, H3, H4, H5, H6, H7, H8, H9, T1, T2, T3, T4, T5, T6, T7, T8, T9.
    repeat split; try done. destruct (Py.truthy t); simpl; lia.
Qed.

Lemma strip_lower_truthy s :
  Py.truthy (Py.strip (Py.lower s)) = true -> Py.truthy s = true.
Proof. by destruct s. Qed.

(** What one round of the loop adds to each accumulator. *)
Lemma entry_step_delta a item :
  let e := snd item in
  let a' := Analyzer.entry_step isalnum a item in
  let b (o : option string) : Z := if Py.truthy_opt o then 1 else 0 in
  an_total_samples a' = an_total_samples a
  /\ an_status_breakdown a'
     = incr (default "unknown"%string (status e)) (an_status_breakdown a)
  /\ has_predicted_text a' = has_predicted_text a + b (predicted_text e)
  /\ has_provided_text a' = has_provided_text a + b (provided_text e)
  /\ has_corrected_text a' = has_corrected_text a + b (corrected_text e)
  /\ Z.of_nat (length (text_length_stats a'))
     = Z.of_nat (length (text_length_stats a))
       + b (predicted_text e) + b (provided_text e) + b (corrected_text e)
  /\ (exists acc, prediction_accuracy a' = (prediction_accuracy a ++ acc)%list
                  /\ Z.of_nat (length acc) <= b (predicted_text e)
                  /\ Z.of_nat (length acc) <= b (provided_text e))
  /\ total_size a' = total_size a + default 0 (file_size e)
  /\ size_distribution a'
     = (size_distribution a ++ [default 0 (file_size e)])%list.
Proof.
  destruct item as [k e]. cbv zeta. unfold Analyzer.entry_step.
  cbn [snd].
  match goal with
  | |- context [fold_left (Analyzer.text_step isalnum) ?ts ?a1] =>
      destruct (texts_fold_delta ts a1)
        as (H1 & H2 & H3 & H4 & H5 & H6 & H7 & H8 & H9);
      set (a2 := fold_left (Analyzer.text_step isalnum) ts a1) in *
  end.
  cbv zeta in *. cbn [an_total_samples an_status_breakdown has_predicted_text
    has_provided_text has_corrected_text prediction_accuracy total_size
    size_distribution text_length_stats] in *.
  rewrite H1, H2, H3, H4, H5, H6, H7, H8, H9.
  unfold Analyzer.bump, Py.truthy_opt.
  split; [done|]. split; [done|].
  split; [destruct (Py.truthy (Py.or_empty (predicted_text e))); lia|].
  split; [destruct (Py.truthy (Py.or_empty (provided_text e))); lia|].
  split; [destruct (Py.truthy (Py.or_empty (corrected_text e))); lia|].
  split.
  { cbn [List.filter].
    destruct (Py.truthy (Py.or_empty (predicted_text e)));
      destruct (Py.truthy (Py.or_empty (provided_text e)));
      destruct (Py.truthy (Py.or_empty (corrected_text e))); simpl; lia. }
  split; [|done].
  destruct (Py.truthy (Py.strip (Py.lower (Py.or_empty (predicted_text e)))))
    eqn:Ep; simpl.
  - destruct (Py.truthy (Py.strip (Py.lower (Py.or_empty (provided_text e)))))
      eqn:Ev; simpl.
    + eexists [_]. split; [done|].
      rewrite (strip_lower_truthy _ Ep), (strip_lower_truthy _ Ev). simpl. lia.
    + exists []. rewrite app_nil_r. split; [done|]. simpl.
      destruct (Py.truthy (Py.or_empty (predicted_text e)));
        destruct (Py.truthy (Py.or_empty (provided_text e))); lia.
  - exists []. rewrite app_nil_r. split; [done|]. simpl.
    destruct (Py.truthy (Py.or_empty (predicted_text e)));
      destruct (Py.truthy (Py.or_empty (provided_text e))); lia.
Qed.

Lemma analysis_fold labels a :
  let a' := fold_left (Analyzer.entry_step isalnum) labels a in
  let n := Z.of_nat (length labels) in
  an_total_samples a' = an_total_samples a
  /\ foldr Z.add 0 (Dict.values (an_status_breakdown a'))
     = foldr Z.add 0 (Dict.values (an_status_breakdown a)) + n
  /\ (forall s,
         default 0 (Dict.get s (an_status_breakdown a'))
         = default 0 (Dict.get s (an_status_breakdown a))
           + Z.of_nat (length (List.filter
                                 (fun it => String.eqb
                                              (default "unknown"%string (status (snd it))) s)
                                 labels)))
  /\ Z.of_nat (length (size_distribution a'))
     = Z.of_nat (length (size_distribution a)) + n
  /\ total_size a' - foldr Z.add 0 (size_distribution a')
     = total_size a - foldr Z.add 0 (size_distribution a)
  /\ Z.of_nat (length (text_length_stats a'))
     - (has_predicted_text a' + has_provided_text a' + has_corrected_text a')
     = Z.of_nat (length (text_length_stats a))
       - (has_predicted_text a + has_provided_text a + has_corrected_text a)
  /\ (has_predicted_text a <= has_predicted_text a' <= has_predicted_text a + n)
  /\ (has_provided_text a <= has_provided_text a' <= has_provided_text a + n)
  /\ (has_corrected_text a <= has_corrected_text a' <= has_corrected_text a + n)
  /\ (Z.of_nat (length (prediction_accuracy a'))
      - Z.of_nat (length (prediction_accuracy a))
      <= has_predicted_text a' - has_predicted_text a)
  /\ (Z.of_nat (length (prediction_accuracy a'))
      - Z.of_nat (length (prediction_accuracy a))
      <= has_provided_text a' - has_provided_text a).
Proof.
  revert a. induction labels as [|item labels IH]; intros a.
  - cbv zeta. cbn [fold_left length List.filter].
    repeat split; try lia. all: intros s; lia.
  - cbn [fold_left]. cbv zeta.
    destruct (IH (Analyzer.entry_step isalnum a item))
      as (I1 & I2 & I3 & I4 & I5 & I6 & I7 & I8 & I9 & I10 & I11).
    destruct (entry_step_delta a item)
      as (D1 & D2 & D3 & D4 & D5 & D6 & (acc & D7 & D7a & D7b) & D8 & D9).
    cbv zeta in *.
    rewrite D2 in I2, I3. rewrite D9 in I4, I5. rewrite D7 in I10, I11.
    rewrite incr_sum in I2. rewrite length_app in I4, I10, I11.
    rewrite sum_snoc in I5. cbn [length] in *.
    assert (Hb : forall o : option string,
               0 <= (if Py.truthy_opt o then 1 else 0) <= 1)
      by (intros o; destruct (Py.truthy_opt o); lia).
    pose proof (Hb (predicted_text (snd item))).
    pose proof (Hb (provided_text (snd item))).
    pose proof (Hb (corrected_text (snd item))).
    split; [congruence|]. split; [lia|]. split.
    { intros s. rewrite I3, incr_get. cbn [List.filter].
      destruct (String.eqb (default "unknown"%string (status (snd item))) s);
        simpl; lia. }
    repeat split; lia.
Qed.

End AnalysisFacts.

(** X17.  The accumulators of [analyze_dataset] stay consistent with each
    other: the status counts add up to the number of samples, which is also
    the number of recorded sizes; the total size is the sum of the recorded
    sizes; one text length is recorded for every text counted by the three
    [has_..._text] counters; no counter exceeds the number of samples; and an
    accuracy value is recorded only for samples that have both a predicted
    and a provided text.  The analysis is the error dict exactly when the
    label store reads as empty. *)
Theorem analysis_counts_consistent :
  forall (isalnum : ascii -> bool) (dir : gmap string doc),
    (forall a,
        Analyzer.analyze_dataset isalnum dir = inr a ->
        let n := Z.of_nat (length (OCRMonitor.load_labels dir)) in
        (an_total_samples a = n /\ 0 < n
         /\ foldr Z.add 0 (Dict.values (an_status_breakdown a)) = n
         /\ Z.of_nat (length (size_distribution a)) = n
         /\ total_size a = foldr Z.add 0 (size_distribution a)
         /\ Z.of_nat (length (text_length_stats a))
            = has_predicted_text a + has_provided_text a + has_corrected_text a
         /\ 0 <= has_predicted_text a <= n
         /\ 0 <= has_provided_text a <= n
         /\ 0 <= has_corrected_text a <= n
         /\ Z.of_nat (length (prediction_accuracy a)) <= has_predicted_text a
         /\ Z.of_nat (length (prediction_accuracy a)) <= has_provided_text a)%Z)
    /\ (forall msg,
           Analyzer.analyze_dataset isalnum dir = inl msg <->
           OCRMonitor.load_labels dir = [] /\ msg = "No data available").
Proof.
  intros isalnum dir. unfold Analyzer.analyze_dataset.
  destruct (OCRMonitor.load_labels dir) as [|item rest] eqn:Hl.
  - split; [discriminate|]. intros msg. split.
    + intros [= <-]. by split.
    + by intros [_ ->].
  - split; [|intros msg; split; [discriminate|by intros [? _]]].
    intros a [= <-]. cbv zeta.
    assert (Hpos : (0 < Z.of_nat (length (item :: rest)))%Z) by (simpl; lia).
    set (labels := item :: rest) in *.
    destruct (analysis_fold isalnum labels
                (Analyzer.empty_analysis (Z.of_nat (length labels))))
      as (I1 & I2 & _ & I4 & I5 & I6 & I7 & I8 & I9 & I10 & I11).
    cbv zeta in I1, I2, I4, I5, I6, I7, I8, I9, I10, I11.
    set (a := fold_left (Analyzer.entry_step isalnum) labels
                        (Analyzer.empty_analysis (Z.of_nat (length labels)))) in *.
    simpl in I1, I2, I4, I5, I6, I7, I8, I9, I10, I11.
    change (fold_left (Analyzer.entry_step isalnum) rest _) with a.
    clearbody a. subst labels. cbn [length] in *.
    repeat split; lia.
Qed.

Lemma analysis_counts_consistent_witness :
  exists a,
    Analyzer.analyze_dataset (fun _ => true) (Demo.approved_store 2) = inr a
    /\ an_total_samples a = 2%Z
    /\ Z.of_nat (length (text_length_stats a)) = 2%Z.
Proof.
  eexists. split; [reflexivity|].
  destruct (proj1 (analysis_counts_consistent (fun _ => true)
                     (Demo.approved_store 2)) _ eq_refl)
    as (H1 & _ & _ & _ & _ & H6 & _).
  split; [exact H1|exact H6].
Defined.

Lemma filter_values_length {V} (P : V -> bool) (d : list (string * V)) :
  length (List.filter P (Dict.values d))
  = length (List.filter (fun it => P (snd it)) d).
Proof.
  induction d as [|[k v] d IH]; simpl; [done|].
  destruct (P v); simpl; by rewrite IH.
Qed.

(** X18.  The analysis and the readiness report read the same store the
    same way: on a non-empty store the report's total is the analysis'
    number of samples and its number of approved samples is the analysis'
    status count for ["approved"]. *)
Theorem analysis_agrees_with_readiness :
  forall (isalnum : ascii -> bool) (dir : gmap string doc)
         (train_txt_exists : bool) (a : analysis),
    Analyzer.analyze_dataset isalnum dir = inr a ->
    exists is_ready recs issues,
      OCRMonitor.generate_training_readiness_report dir train_txt_exists
      = Report is_ready (an_total_samples a)
               (default 0%Z (Dict.get "approved" (an_status_breakdown a)))
               100 recs issues train_txt_exists.
Proof.
  intros isalnum dir t a.
  unfold Analyzer.analyze_dataset, OCRMonitor.generate_training_readiness_report.
  destruct (OCRMonitor.load_labels dir) as [|item rest] eqn:Hl; [discriminate|].
  intros [= <-]. cbv zeta. set (labels := item :: rest) in *.
  destruct (analysis_fold isalnum labels
              (Analyzer.empty_analysis (Z.of_nat (length labels))))
    as (I1 & _ & I3 & _).
  cbv zeta in I1, I3.
  change (fold_left (Analyzer.entry_step isalnum) rest _)
    with (fold_left (Analyzer.entry_step isalnum) labels
            (Analyzer.empty_analysis (Z.of_nat (length labels)))).
  rewrite I1, I3. cbn [Analyzer.empty_analysis
    an_total_samples an_status_breakdown Dict.get from_option].
  eexists _, _, _. f_equal.
  rewrite filter_values_length. rewrite Z.add_0_l. f_equal. f_equal.
  clear. induction labels as [|[k e] l IH]; [done|].
  cbn [List.filter snd]. rewrite IH. unfold OCRMonitor.is_approved.
  destruct (status e) as [s|].
  - destruct (String.eqb_spec s "approved") as [->|Hne].
    + rewrite bool_decide_eq_true_2 by done. reflexivity.
    + rewrite bool_decide_eq_false_2 by congruence. cbn [from_option id].
      by rewrite (proj2 (String.eqb_neq _ _) Hne).
  - rewrite bool_decide_eq_false_2 by done. reflexivity.
Qed.

Lemma analysis_agrees_with_readiness_witness :
  exists is_ready recs issues,
    OCRMonitor.generate_training_readiness_report (Demo.approved_store 2) false
    = Report is_ready 2 2 100 recs issues false.
Proof.
  exact (analysis_agrees_with_readiness (fun _ => true) (Demo.approved_store 2)
                                        false _ eq_refl).
Defined.

(** ** [train.py]: the text of a training line *)

Lemma string_app_cons c (r s : string) : String c r ++ s = String c (r ++ s).
Proof. reflexivity. Qed.

Lemma string_app_nil_r (s : string) : s ++ "" = s.
Proof. induction s as [|c r IH]; [done|]. by rewrite string_app_cons, IH. Qed.

Lemma string_app_assoc (s1 s2 s3 : string) : (s1 ++ s2) ++ s3 = s1 ++ s2 ++ s3.
Proof. induction s1 as [|c r IH]; [done|]. by rewrite !string_app_cons, IH. Qed.

Lemma string_length_app (s1 s2 : string) :
  String.length (s1 ++ s2) = (String.length s1 + String.length s2)%nat.
Proof.
  induction s1 as [|c r IH]; [done|]. rewrite string_app_cons.
  cbn [String.length]. by rewrite IH.
Qed.

Lemma rev_app_app s1 s2 : String.rev_app s1 s2 = String.rev s1 ++ s2.
Proof.
  unfold String.rev. revert s2. induction s1 as [|c r IH]; intros s2; simpl; [done|].
  rewrite (IH (String c s2)), (IH (String c "")). by rewrite string_app_assoc.
Qed.

Lemma rev_app_rev_app s t u :
  String.rev_app (String.rev_app s t) u = String.rev_app t (s ++ u).
Proof.
  revert t. induction s as [|c r IH]; intros t; simpl; [done|]. by rewrite IH.
Qed.

Lemma rev_involutive s : String.rev (String.rev s) = s.
Proof. unfold String.rev. rewrite rev_app_rev_app. simpl. apply string_app_nil_r. Qed.

Lemma rev_cons_truthy c w : Py.truthy (String.rev (String c w)) = true.
Proof.
  unfold String.rev. simpl. rewrite rev_app_app.
  by destruct (String.rev w).
Qed.

(** ** split then join *)

Lemma split_go_Some_nonempty w s : Py.split_go (Some w) s <> [].
Proof.
  revert w. induction s as [|c r IH]; intros w; simpl; [done|].
  destruct (Py.isspace c); [done|]. apply IH.
Qed.

Lemma join_cons sep x l :
  l <> [] -> Py.join sep (x :: l) = x ++ sep ++ Py.join sep l.
Proof. by destruct l. Qed.

Lemma join_split_go s :
  (forall w, single_spaced false false s = true ->
             Py.join " " (Py.split_go (Some w) s) = String.rev_app w s)
  /\ (single_spaced false true s = true ->
      Py.join " " (Py.split_go None s) = s).
Proof.
  induction s as [|c r [IH1 IH2]].
  - split; [|done]. intros w _. reflexivity.
  - split.
    + intros w. cbn [single_spaced Py.split_go].
      destruct (Py.isspace c) eqn:Ec.
      * cbn [negb andb]. intros H. apply andb_prop in H as [Hc Hr].
        apply Ascii.eqb_eq in Hc as ->.
        assert (Hne : Py.split_go None r <> []).
        { destruct r as [|c' r']; [done|]. cbn [single_spaced] in Hr.
          cbn [Py.split_go]. destruct (Py.isspace c'); [done|].
          apply split_go_Some_nonempty. }
        rewrite join_cons by done. rewrite (IH2 Hr).
        by rewrite rev_app_app.
      * intros H. cbn [default from_option id]. rewrite (IH1 _ H). reflexivity.
    + cbn [single_spaced Py.split_go].
      destruct (Py.isspace c) eqn:Ec; [done|].
      intros H. cbn [default from_option id]. rewrite (IH1 _ H). reflexivity.
Qed.

Lemma join_split_normalised s :
  normalised s = true -> Py.join " " (Py.split s) = s.
Proof.
  destruct s as [|c r]; [done|]. intros H.
  by apply (proj2 (join_split_go (String c r))).
Qed.

(** ** join of words is normalised *)

Lemma split_go_word cur s :
  (forall w, cur = Some w -> word w = true) ->
  Forall (fun w => word w = true) (Py.split_go cur s).
Proof.
  assert (Hrev : forall w, word w = true -> word (String.rev w) = true).
  { intros [|c w]; [done|]. unfold word. intros H. apply andb_prop in H as [_ H].
    by rewrite rev_cons_truthy, string_forallb_rev. }
  revert cur. induction s as [|c r IH]; intros cur Hcur; simpl.
  - destruct cur as [w|]; [|constructor].
    constructor; [|constructor]. by apply Hrev, Hcur.
  - destruct (Py.isspace c) eqn:E.
    + destruct cur as [w|].
      * constructor; [by apply Hrev, Hcur|]. by apply IH.
      * by apply IH.
    + apply IH. intros w [= <-]. unfold word. cbn [Py.truthy string_forallb].
      rewrite E. cbn [negb andb].
      destruct cur as [w|]; cbn [default from_option id]; [|done].
      specialize (Hcur w eq_refl). unfold word in Hcur.
      by apply andb_prop in Hcur as [_ ?].
Qed.

Lemma single_spaced_word t b w s :
  word w = true ->
  single_spaced t b (w ++ s) = single_spaced t false s.
Proof.
  unfold word. destruct w as [|c w]; [done|]. cbn [Py.truthy andb].
  revert b c. induction w as [|c' w IH]; intros b c H; simpl in H |- *.
  - apply andb_prop in H as [Hc _]. apply negb_true_iff in Hc. by rewrite Hc.
  - apply andb_prop in H as [Hc H]. apply negb_true_iff in Hc. rewrite Hc.
    by apply (IH false c').
Qed.

Lemma join_words_spaced ws :
  ws <> [] -> Forall (fun w => word w = true) ws ->
  single_spaced false true (Py.join " " ws) = true.
Proof.
  intros Hne H. induction H as [|w ws Hw Hws IH]; [done|].
  destruct ws as [|w' ws].
  - cbn [Py.join]. rewrite <- (string_app_nil_r w).
    by rewrite single_spaced_word.
  - rewrite join_cons by done. rewrite single_spaced_word by done.
    cbn. by apply IH.
Qed.

Lemma join_split_spaced t :
  normalised (Py.join " " (Py.split t)) = true.
Proof.
  unfold Py.split. pose proof (split_go_word None t) as H.
  destruct (Py.split_go None t) as [|w ws] eqn:E; [done|].
  assert (Hs : single_spaced false true (Py.join " " (w :: ws)) = true).
  { apply join_words_spaced; [done|]. by apply H. }
  unfold normalised. by destruct (Py.join " " (w :: ws)).
Qed.

(** ** the normal form is kept by the later steps of [_sanitize_text] *)

Lemma single_spaced_weaken t b s :
  single_spaced t b s = true -> single_spaced true b s = true.
Proof.
  revert b. induction s as [|c r IH]; intros b; cbn [single_spaced]; [done|].
  destruct (Py.isspace c); [|apply IH].
  intros H. apply andb_prop in H as [H1 H2]. rewrite H1. by apply IH.
Qed.

Lemma normalised_spaced s : normalised s = true -> single_spaced true true s = true.
Proof. destruct s as [|c r]; [done|]. apply single_spaced_weaken. Qed.

Lemma replace_char_spaced a t b s :
  Py.isspace a = true -> a <> " "%char ->
  single_spaced t b s = true -> Py.replace_char a " " s = s.
Proof.
  intros Ha Hne. revert b. induction s as [|c r IH]; intros b; [done|].
  cbn [single_spaced Py.replace_char]. destruct (Py.isspace c) eqn:Ec.
  - intros H. apply andb_prop in H as [H1 H2]. apply andb_prop in H1 as [_ H1].
    apply Ascii.eqb_eq in H1 as ->.
    rewrite (proj2 (Ascii.eqb_neq _ _)) by congruence. by rewrite (IH _ H2).
  - intros H. rewrite (proj2 (Ascii.eqb_neq _ _)) by congruence.
    by rewrite (IH _ H).
Qed.

Lemma single_spaced_prefix t b n s :
  single_spaced t b s = true ->
  single_spaced true b (String.substring 0 n s) = true.
Proof.
  revert b n. induction s as [|c r IH]; intros b n.
  - by destruct n.
  - destruct n as [|n]; [done|]. cbn [String.substring single_spaced].
    destruct (Py.isspace c); [|apply IH].
    intros H. apply andb_prop in H as [H1 H2]. rewrite H1. by apply IH.
Qed.

Lemma rstrip_all_space s : Py.all_space s = true -> Py.rstrip s = "".
Proof. destruct s as [|c r]; [done|]. cbn [Py.rstrip]. by intros ->. Qed.

Lemma single_spaced_rstrip b s :
  single_spaced true b s = true -> Py.all_space s = false ->
  single_spaced false b (Py.rstrip s) = true.
Proof.
  revert b. induction s as [|c r IH]; intros b; [done|].
  intros H Hall. cbn [Py.rstrip]. rewrite Hall.
  cbn [single_spaced Py.all_space] in *.
  destruct (Py.isspace c) eqn:Ec.
  - apply andb_prop in H as [H1 H2]. rewrite H1. cbn [andb] in *. by apply IH.
  - destruct (Py.all_space r) eqn:Er.
    + by rewrite rstrip_all_space.
    + by apply IH.
Qed.

Lemma lstrip_spaced t s : single_spaced t true s = true -> Py.lstrip s = s.
Proof.
  destruct s as [|c r]; [done|]. cbn [single_spaced Py.lstrip].
  by destruct (Py.isspace c).
Qed.

Lemma rstrip_spaced b s : single_spaced false b s = true -> Py.rstrip s = s.
Proof.
  revert b. induction s as [|c r IH]; intros b; [done|].
  intros H. cbn [Py.rstrip].
  assert (Hall : Py.all_space (String c r) = false).
  { cbn [single_spaced Py.all_space] in *. destruct (Py.isspace c); [|done].
    apply andb_prop in H as [_ H]. destruct r as [|c' r']; [done|].
    cbn [single_spaced Py.all_space] in *. by destruct (Py.isspace c'). }
  rewrite Hall. f_equal. cbn [single_spaced] in H.
  destruct (Py.isspace c); [|by apply (IH false)].
  apply andb_prop in H as [_ H]. by apply (IH true).
Qed.

Lemma strip_prefix_normalised p :
  single_spaced true true p = true -> normalised (Py.strip p) = true.
Proof.
  intros H. unfold Py.strip. rewrite (lstrip_spaced _ _ H).
  destruct (Py.all_space p) eqn:E.
  - by rewrite rstrip_all_space.
  - pose proof (single_spaced_rstrip _ _ H E) as Hr.
    unfold normalised. by destruct (Py.rstrip p).
Qed.

Lemma normalised_strip s : normalised s = true -> Py.strip s = s.
Proof.
  destruct s as [|c r]; [done|]. unfold normalised, Py.strip. intros H.
  rewrite (lstrip_spaced _ _ H). by apply (rstrip_spaced true).
Qed.

Lemma length_lstrip s : (String.length (Py.lstrip s) <= String.length s)%nat.
Proof.
  induction s as [|c r IH]; [done|]. cbn [Py.lstrip].
  destruct (Py.isspace c); cbn [String.length]; lia.
Qed.

Lemma length_rstrip s : (String.length (Py.rstrip s) <= String.length s)%nat.
Proof.
  induction s as [|c r IH]; [done|]. cbn [Py.rstrip].
  destruct (Py.all_space (String c r)); cbn [String.length]; lia.
Qed.

Lemma length_strip s : (String.length (Py.strip s) <= String.length s)%nat.
Proof.
  unfold Py.strip. pose proof (length_rstrip (Py.lstrip s)).
  pose proof (length_lstrip s). lia.
Qed.

Lemma length_substring_0 n s : (String.length (String.substring 0 n s) <= n)%nat.
Proof.
  revert n. induction s as [|c r IH]; intros [|n]; cbn [String.substring String.length];
    try lia. specialize (IH n). lia.
Qed.

Lemma sanitize_text_normalised text :
  normalised (_sanitize_text text) = true
  /\ (String.length (_sanitize_text text) <= 1000)%nat.
Proof.
  unfold _sanitize_text. destruct (Py.truthy text); cbn [negb]; [|split; [done|cbn; lia]].
  cbv zeta.
  pose proof (join_split_spaced text) as Hj.
  pose proof (normalised_spaced _ Hj) as Hs.
  rewrite (replace_char_spaced "009" true true (Py.join " " (Py.split text))) by done.
  rewrite (replace_char_spaced "010" true true (Py.join " " (Py.split text))) by done.
  rewrite (replace_char_spaced "013" true true (Py.join " " (Py.split text))) by done.
  destruct (Nat.ltb_spec 1000 (String.length (Py.join " " (Py.split text)))) as [Hlt|Hge].
  - split.
    + apply strip_prefix_normalised. unfold Py.slice_to.
      by apply (single_spaced_prefix true).
    + eapply Nat.le_trans; [apply length_strip|]. unfold Py.slice_to.
      eapply Nat.le_trans; [apply length_substring_0|]. apply Nat.le_min_l.
  - split; [by apply strip_prefix_normalised|].
    eapply Nat.le_trans; [apply length_strip|exact Hge].
Qed.

Lemma sanitize_text_fixed s :
  normalised s = true -> (String.length s <= 1000)%nat -> _sanitize_text s = s.
Proof.
  intros Hn Hlen. unfold _sanitize_text. destruct s as [|c r] eqn:Es; [done|].
  rewrite <- Es in *. assert (Py.truthy s = true) as -> by by subst s.
  cbn [negb]. cbv zeta. rewrite (join_split_normalised _ Hn).
  pose proof (normalised_spaced _ Hn) as Hs.
  rewrite (replace_char_spaced "009" true true s) by done.
  rewrite (replace_char_spaced "010" true true s) by done.
  rewrite (replace_char_spaced "013" true true s) by done.
  destruct (Nat.ltb_spec 1000 (String.length s)) as [Hlt|Hge]; [lia|].
  by apply normalised_strip.
Qed.

Lemma sanitize_text_idem text :
  _sanitize_text (_sanitize_text text) = _sanitize_text text.
Proof.
  destruct (sanitize_text_normalised text). by apply sanitize_text_fixed.
Qed.

(** ** blank texts *)

Lemma all_space_lstrip s : Py.all_space (Py.lstrip s) = Py.all_space s.
Proof.
  induction s as [|c r IH]; [done|]. cbn [Py.lstrip].
  destruct (Py.isspace c) eqn:E; [|done]. cbn [Py.all_space]. by rewrite E, IH.
Qed.

Lemma rstrip_empty_iff s : Py.rstrip s = "" <-> Py.all_space s = true.
Proof.
  split; [|apply rstrip_all_space].
  destruct s as [|c r]; [done|]. cbn [Py.rstrip].
  by destruct (Py.all_space (String c r)).
Qed.

Lemma strip_empty_iff s : Py.strip s = "" <-> Py.all_space s = true.
Proof. unfold Py.strip. by rewrite rstrip_empty_iff, all_space_lstrip. Qed.

Lemma split_all_space s : Py.all_space s = true -> Py.split s = [].
Proof.
  unfold Py.split. induction s as [|c r IH]; [done|].
  cbn [Py.all_space Py.split_go]. intros H. apply andb_prop in H as [-> H].
  by apply IH.
Qed.

Lemma split_not_all_space s : Py.all_space s = false -> Py.split s <> [].
Proof.
  unfold Py.split. induction s as [|c r IH]; [done|].
  cbn [Py.all_space Py.split_go]. destruct (Py.isspace c); [apply IH|].
  intros _. apply split_go_Some_nonempty.
Qed.

Lemma sanitize_text_empty_iff text :
  _sanitize_text text = "" <-> Py.strip text = "".
Proof.
  rewrite strip_empty_iff. split.
  - intros Hs. destruct (Py.all_space text) eqn:E; [done|]. exfalso.
    revert Hs. unfold _sanitize_text.
    assert (Py.truthy text = true) as -> by (by destruct text).
    cbn [negb]. cbv zeta.
    pose proof (split_not_all_space _ E) as Hne.
    pose proof (split_go_word None text) as Hw.
    unfold Py.split in *.
    assert (Hsp : single_spaced false true (Py.join " " (Py.split_go None text)) = true).
    { apply join_words_spaced; [done|]. by apply Hw. }
    pose proof (single_spaced_weaken _ _ _ Hsp) as Hs.
    rewrite (replace_char_spaced "009" true true _) by done.
    rewrite (replace_char_spaced "010" true true _) by done.
    rewrite (replace_char_spaced "013" true true _) by done.
    destruct (Py.join " " (Py.split_go None text)) as [|c r] eqn:Ej; [done|].
    assert (Hc : Py.isspace c = false).
    { cbn [single_spaced] in Hsp. by destruct (Py.isspace c). }
    assert (Hp : forall p, single_spaced true true (String c p) = true ->
                           Py.strip (String c p) <> "").
    { intros p Hp. unfold Py.strip. rewrite (lstrip_spaced _ _ Hp).
      cbn [Py.rstrip Py.all_space]. by rewrite Hc. }
    destruct (Nat.ltb_spec 1000 (String.length (String c r))) as [Hlt|Hge].
    + unfold Py.slice_to. rewrite Nat.min_l by lia.
      change 1000%nat with (S 999). cbn [String.substring].
      apply Hp. change (String c (String.substring 0 999 r))
        with (String.substring 0 (S 999) (String c r)).
      by apply (single_spaced_prefix false).
    + by apply Hp.
  - intros E. unfold _sanitize_text. destruct (Py.truthy text); [|done].
    cbn [negb]. cbv zeta. by rewrite (split_all_space _ E).
Qed.

Lemma first_text_cons t r :
  first_text (t :: r)
  = if Py.truthy (Py.strip t) then _sanitize_text t else first_text r.
Proof.
  cbn [first_text]. destruct (Py.truthy (Py.strip t)) eqn:E.
  - by rewrite (strip_truthy _ E).
  - by rewrite andb_false_r.
Qed.

Lemma truthy_false s : Py.truthy s = false <-> s = "".
Proof. by destruct s. Qed.

Lemma truthy_true s : Py.truthy s = true <-> s <> "".
Proof. by destruct s. Qed.

Lemma best_text_corrected e :
  Py.truthy (Py.strip (Py.or_empty (corrected_text e))) = true ->
  _get_best_text e = _sanitize_text (Py.or_empty (corrected_text e)).
Proof. intros H. unfold _get_best_text. by rewrite first_text_cons, H. Qed.

(** X19.  Whatever text [_sanitize_text] is given, its result has at most
    1000 characters, holds words separated by single blanks with no
    whitespace at either end and none but the blank inside, and is left
    unchanged by trimming and by sanitising it again; it is empty exactly
    when the given text is blank. *)
Theorem sanitize_text_normal_form :
  forall text : string,
    let s := _sanitize_text text in
    (String.length s <= 1000)%nat
    /\ normalised s = true
    /\ Py.strip s = s
    /\ string_forallb line_safe s = true
    /\ _sanitize_text s = s
    /\ (s = "" <-> Py.strip text = "").
Proof.
  intros text s. subst s.
  destruct (sanitize_text_normalised text) as [Hn Hlen].
  split; [done|]. split; [done|]. split; [by apply normalised_strip|].
  split; [apply sanitize_text_safe|]. split; [by apply sanitize_text_fixed|].
  apply sanitize_text_empty_iff.
Qed.

(** X20.  [_get_best_text] takes the first of the corrected, the provided
    and the predicted text that is not blank, and returns it sanitised; the
    result is empty exactly when all three are blank or missing, so a record
    is skipped for want of text only then. *)
Theorem best_text_priority :
  forall e : entry,
    let c := Py.or_empty (corrected_text e) in
    let p := Py.or_empty (provided_text e) in
    let q := Py.or_empty (predicted_text e) in
    (_get_best_text e = "" <-> Py.strip c = "" /\ Py.strip p = "" /\ Py.strip q = "")
    /\ (Py.strip c <> "" -> _get_best_text e = _sanitize_text c)
    /\ (Py.strip c = "" -> Py.strip p <> "" -> _get_best_text e = _sanitize_text p)
    /\ (Py.strip c = "" -> Py.strip p = "" -> _get_best_text e = _sanitize_text q).
Proof.
  intros e c p q. unfold _get_best_text. fold c p q.
  rewrite !first_text_cons. cbn [first_text].
  pose proof (sanitize_text_empty_iff c) as Hc.
  pose proof (sanitize_text_empty_iff p) as Hp.
  pose proof (sanitize_text_empty_iff q) as Hq.
  destruct (Py.truthy (Py.strip c)) eqn:Ec;
    [apply truthy_true in Ec|apply truthy_false in Ec].
  { split; [|by split]. split; [intros H; by apply Hc in H|by intros [? _]]. }
  destruct (Py.truthy (Py.strip p)) eqn:Ep;
    [apply truthy_true in Ep|apply truthy_false in Ep].
  { split; [|by split]. split; [intros H; by apply Hp in H|by intros (_ & ? & _)]. }
  destruct (Py.truthy (Py.strip q)) eqn:Eq;
    [apply truthy_true in Eq|apply truthy_false in Eq].
  { split; [|by split]. split; [intros H; by apply Hq in H|by intros (_ & _ & ?)]. }
  split; [done|]. split; [done|]. split; [done|]. intros _ _. symmetry. by apply Hq.
Qed.

(** ** From upload to training line *)

Lemma uuid_char_plain c :
  uuid_char c = true ->
  Py.isspace c = false /\ Ascii.eqb c "/" = false /\ Ascii.eqb c "." = false.
Proof.
  destruct c as [[] [] [] [] [] [] [] []]; vm_compute; intros H;
    try discriminate H; repeat split.
Qed.

Lemma split_on_go_plain sep cur s :
  string_forallb (fun c => negb (Ascii.eqb c sep)) s = true ->
  Py.split_on_go sep cur s = [String.rev (String.rev_app s cur)].
Proof.
  revert cur. induction s as [|c r IH]; intros cur; [done|].
  cbn [string_forallb Py.split_on_go]. intros H. apply andb_prop in H as [Hc Hr].
  apply negb_true_iff in Hc. rewrite Hc. by rewrite (IH _ Hr).
Qed.

Lemma split_on_plain sep s :
  string_forallb (fun c => negb (Ascii.eqb c sep)) s = true ->
  Py.split_on sep s = [s].
Proof.
  intros H. unfold Py.split_on. rewrite (split_on_go_plain _ _ _ H).
  change (String.rev_app s "") with (String.rev s). by rewrite rev_involutive.
Qed.

Lemma substring_app_skip u n s :
  String.substring (String.length u) n (u ++ s) = String.substring 0 n s.
Proof. induction u as [|c u IH]; [done|]. rewrite string_app_cons. apply IH. Qed.

Lemma substring_all s : String.substring 0 (String.length s) s = s.
Proof. induction s as [|c r IH]; [done|]. cbn. by rewrite IH. Qed.

Lemma suffix_stored_name u ext :
  u <> "" -> string_forallb uuid_char u = true -> In ext ALLOWED_EXTENSIONS ->
  Path.suffix (u ++ ext) = ext.
Proof.
  intros Hne Hu Hext.
  assert (Hslash : string_forallb (fun c => negb (Ascii.eqb c "/")) (u ++ ext) = true).
  { rewrite string_forallb_app. apply andb_true_intro. split.
    - clear Hne. induction u as [|c u IH]; [done|]. cbn [string_forallb] in *.
      apply andb_prop in Hu as [Hc Hu].
      destruct (uuid_char_plain c Hc) as (_ & -> & _). by apply IH.
    - unfold ALLOWED_EXTENSIONS in Hext. cbn [In] in Hext.
      repeat (destruct Hext as [<-|Hext]; [reflexivity|]). destruct Hext. }
  assert (Hlen : (2 <= String.length ext)%nat).
  { unfold ALLOWED_EXTENSIONS in Hext. cbn [In] in Hext.
    repeat (destruct Hext as [<-|Hext]; [cbn; lia|]). destruct Hext. }
  assert (Hname : Path.name (u ++ ext) = u ++ ext).
  { unfold Path.name. rewrite (split_on_plain _ _ Hslash). cbn [List.filter].
    destruct u as [|c u]; [done|]. rewrite string_app_cons.
    assert (String.eqb (String c (u ++ ext)) "" = false) as -> by done.
    assert (String.eqb (String c (u ++ ext)) "." = false) as ->.
    { apply String.eqb_neq. intros [= _ H].
      apply (f_equal String.length) in H. rewrite string_length_app in H.
      cbn [String.length] in H. lia. }
    done. }
  unfold Path.suffix. cbv zeta. rewrite Hname, (rfind_dot_app _ _ Hext).
  rewrite string_length_app.
  assert ((0 <? String.length u)%nat = true) as ->.
  { apply Nat.ltb_lt. destruct u; [done|cbn; lia]. }
  assert ((String.length u <? String.length u + String.length ext - 1)%nat = true)
    as -> by (apply Nat.ltb_lt; lia).
  cbn [andb]. unfold Py.slice_from. rewrite string_length_app, substring_app_skip.
  replace (String.length u + String.length ext - String.length u)%nat
    with (String.length ext) by lia.
  apply substring_all.
Qed.

Lemma allowed_ext_valid ext :
  In ext ALLOWED_EXTENSIONS ->
  existsb (String.eqb (Py.lower ext)) valid_extensions = true.
Proof.
  unfold ALLOWED_EXTENSIONS. cbn [In]. intros Hext.
  repeat (destruct Hext as [<-|Hext]; [reflexivity|]). destruct Hext.
Qed.

(** A non-empty file stored under [<uuid><ext>] is a valid image for
    [train.py]. *)
Lemma stored_name_valid (dir : gmap string (list byte)) u ext c :
  u <> "" -> string_forallb uuid_char u = true -> In ext ALLOWED_EXTENSIONS ->
  dir !! (u ++ ext) = Some c -> c <> [] ->
  _validate_image_file dir (u ++ ext) = true.
Proof.
  intros Hne Hu Hext Hc Hnil. unfold _validate_image_file. rewrite Hc.
  assert ((Z.of_nat (length c) =? 0)%Z = false) as ->.
  { apply Z.eqb_neq. destruct c; [done|cbn [length]; lia]. }
  rewrite (suffix_stored_name _ _ Hne Hu Hext). by apply allowed_ext_valid.
Qed.

Lemma uuid_word u :
  u <> "" -> string_forallb uuid_char u = true -> word u = true.
Proof.
  intros Hne Hu. unfold word. apply andb_true_intro. split; [by destruct u|].
  clear Hne. induction u as [|c u IH]; [done|].
  cbn [string_forallb] in *. apply andb_prop in Hu as [Hc Hu].
  destruct (uuid_char_plain c Hc) as (-> & _). by apply IH.
Qed.

Lemma strip_uuid u : string_forallb uuid_char u = true -> Py.strip u = u.
Proof.
  intros Hu. destruct (String.eqb_spec u "") as [->|Hne]; [done|].
  apply normalised_strip.
  assert (H : single_spaced false true (u ++ "") = true)
    by (by rewrite single_spaced_word by by apply uuid_word).
  rewrite string_app_nil_r in H. unfold normalised. by destruct u.
Qed.

(** X21.  The upload service and [train.py] fit together.  A sample that [upload_file]
    stored under a fresh id (a string of hexadecimal digits and dashes, as
    [uuid4] gives) and that [admin_approve_upload] then approved is accepted
    by [train.py]: its file is in the approved directory under the stored
    name, that name and content pass [_validate_image_file], its text is the
    sanitised corrected text and is not empty, and once the copy is verified
    the record is prepared with the line [<id><ext>TAB<text>]. *)
Theorem approved_upload_is_prepared :
  forall (sha md5 : list byte -> string) (config : Config) (uio : upload_io)
         (aio : approve_io) (pio : prepare_io) (f : UploadFile)
         (text : option string) (corrected : string) (token : option string)
         (w w1 w2 : world) (r : UploadResponse) (r1 : AdminResponse),
    upload_file sha config uio f text w = (Return r, w1) ->
    message r = "Upload successful" ->
    Py.truthy (uuid4 uio) = true ->
    string_forallb uuid_char (uuid4 uio) = true ->
    admin_approve_upload config aio (upload_id r) corrected token w1
    = (Return r1, w2) ->
    exists e contents,
      let name := upload_id r ++ resolve_ext f in
      body f = Some contents
      /\ DataManager.get_upload (upload_id r) w2 = Some e
      /\ file e = Some name
      /\ approved w2 !! name = Some contents
      /\ _validate_image_file (approved w2) name = true
      /\ _get_best_text e = _sanitize_text (Py.strip corrected)
      /\ _get_best_text e <> ""
      /\ (forall written,
             copy pio name contents = CopyWrites written ->
             md5 written = md5 contents ->
             prepared md5 pio (approved w2) (upload_id r, e) = true
             /\ train_line (upload_id r, e)
                = name ++ Py.TAB ++ _sanitize_text (Py.strip corrected)).
Proof.
  intros sha md5 config uio aio pio f text corrected token w w1 w2 r r1
         Hup Hmsg Hne Huuid Happ.
  apply truthy_true in Hne.
  destruct (upload_file_Return_passes _ _ _ _ _ _ _ _ Hup)
    as (contents & _ & Hbody & Hsize).
  destruct (upload_file_Return_cases _ _ _ _ _ _ _ _ _ Hbody Hup)
    as [(e & _ & _ & Hm & _)|(e0 & _ & Hid & _ & Hfile & _ & Hl & Hi & Ha)];
    [rewrite Hm in Hmsg; discriminate|].
  destruct (approve_Return_state _ _ _ _ _ _ _ _ Happ)
    as (e1 & name & c & Hget & Hfile1 & Himg & Hl2 & _ & Ha2 & _).
  rewrite Hid in *. rewrite (strip_uuid _ Huuid) in *.
  unfold DataManager.get_upload in *.
  rewrite Hl, dict_get_set_eq in Hget. injection Hget as <-.
  rewrite Hfile in Hfile1. injection Hfile1 as <-.
  rewrite Hi, lookup_insert_eq in Himg. injection Himg as <-.
  pose proof (resolve_ext_allowed f) as Hext.
  assert (Htext : Py.truthy (Py.strip corrected) = true).
  { revert Happ. unfold admin_approve_upload.
    destruct (verify_admin_token config token); [|discriminate].
    destruct (negb (Py.truthy (uuid4 uio))
              || negb (Py.truthy (Py.strip (uuid4 uio)))); [discriminate|].
    destruct (Py.truthy (Py.strip corrected)); [done|].
    rewrite orb_true_r. discriminate. }
  set (e2 := DataManager.update_approved (Py.strip corrected) (approve_now aio) e0)
    in *.
  assert (Hbest : _get_best_text e2 = _sanitize_text (Py.strip corrected)).
  { rewrite best_text_corrected; [done|]. cbn [e2 DataManager.update_approved
      corrected_text Py.or_empty default from_option id].
    by rewrite strip_idem. }
  assert (Hnonempty : _get_best_text e2 <> "").
  { rewrite Hbest. intros H. apply sanitize_text_empty_iff in H.
    rewrite strip_idem in H. by apply truthy_true in Htext. }
  assert (Hvalid : _validate_image_file (approved w2) (uuid4 uio ++ resolve_ext f)
                   = true).
  { apply (stored_name_valid _ _ _ contents); try done.
    - rewrite Ha2. apply lookup_insert_eq.
    - destruct Hsize as [Hpos _]. intros ->. cbn in Hpos. lia. }
  exists e2, contents. cbv zeta.
  split; [done|]. split; [rewrite Hl2; apply dict_get_set_eq|].
  split; [done|]. split; [rewrite Ha2; apply lookup_insert_eq|].
  split; [done|]. split; [done|]. split; [done|].
  intros written Hcopy Hmd5. split.
  - unfold prepared. cbv zeta. cbn [snd].
    assert (Hf2 : file e2 = Some (uuid4 uio ++ resolve_ext f)) by done.
    rewrite Hf2. cbn [Py.or_empty default from_option id].
    rewrite Hvalid. rewrite Ha2, lookup_insert_eq. cbn [default from_option id].
    rewrite Hcopy, Hmd5, String.eqb_refl.
    rewrite bool_decide_eq_true_2 by done.
    apply truthy_true in Hnonempty. rewrite Hnonempty.
    unfold Py.truthy_opt. cbn [Py.or_empty default from_option id].
    destruct (uuid4 uio) as [|ch u]; [done|]. reflexivity.
  - unfold train_line. cbn [snd]. rewrite Hbest.
    assert (Hf2 : file e2 = Some (uuid4 uio ++ resolve_ext f)) by done.
    rewrite Hf2. cbn [Py.or_empty default from_option id].
    by rewrite !string_app_assoc.
Qed.

Lemma approved_upload_is_prepared_witness :
  let up := upload_file Demo.digest Demo.config (Demo.io "a1")
              (Demo.png "scan.jpeg" [x68]) None Demo.empty_world in
  let ap := admin_approve_upload Demo.config Demo.approve_ok "a1"
              " hello   world " (Some "changeme") (snd up) in
  exists e,
    DataManager.get_upload "a1" (snd ap) = Some e
    /\ _validate_image_file (approved (snd ap)) "a1.png" = true
    /\ prepared Demo.digest Demo.prepare_ok (approved (snd ap)) ("a1", e) = true
    /\ train_line ("a1", e) = "a1.png" ++ Py.TAB ++ "hello world".
Proof.
  destruct (approved_upload_is_prepared Demo.digest Demo.digest Demo.config
              (Demo.io "a1") Demo.approve_ok Demo.prepare_ok
              (Demo.png "scan.jpeg" [x68]) None " hello   world "
              (Some "changeme") Demo.empty_world _ _ _ _
              eq_refl eq_refl eq_refl eq_refl eq_refl)
    as (e & contents & Hb & Hget & _ & _ & Hvalid & _ & _ & Hprep).
  injection Hb as <-.
  destruct (Hprep [x68] eq_refl eq_refl) as [Hp Hline].
  exists e. split; [exact Hget|]. split; [exact Hvalid|].
  split; [exact Hp|exact Hline].
Defined.

(** ** [train.py]: what [prepare_training_data] counts and touches *)

Section PrepareCounts.

Variable md5 : list byte -> string.
Variable io : prepare_io.
Variable approved_dir : gmap string (list byte).




End PrepareCounts.


(** ** [sanitize_for_json] *)

Section SanitizeFacts.

Context {ndarray scalar other key : Type}.
Variable tolist : ndarray -> pyobj ndarray scalar other key.
Variable str : other -> scalar.

Lemma sanitize_for_json_fixed obj :
  json_safe obj = true -> sanitize_for_json tolist str obj = obj.
Proof.
  revert obj. fix IH 1. intros [a|l|d|s|o]; cbn [json_safe sanitize_for_json];
    try done.
  - intros H. f_equal. induction l as [|x l IHl]; [done|].
    cbn [forallb map] in *. apply andb_prop in H as [Hx Hl].
    by rewrite (IH x Hx), (IHl Hl).
  - intros H. f_equal. induction d as [|[k v] d IHd]; [done|].
    cbn [forallb map] in *. apply andb_prop in H as [Hv Hd].
    by rewrite (IH v Hv), (IHd Hd).
Qed.

Lemma sanitize_for_json_safe_result :
  (forall a, json_safe (tolist a) = true) ->
  forall obj, json_safe (sanitize_for_json tolist str obj) = true.
Proof.
  intros Htolist. fix IH 1. intros [a|l|d|s|o]; cbn [json_safe sanitize_for_json];
    try done.
  - induction l as [|x l IHl]; [done|]. cbn [forallb map].
    by rewrite (IH x), IHl.
  - induction d as [|[k v] d IHd]; [done|]. cbn [forallb map].
    by rewrite (IH v), IHd.
Qed.

Lemma sanitize_for_json_shape obj :
  match obj, sanitize_for_json tolist str obj with
  | PyList l, PyList l' => length l' = length l
  | PyDict d, PyDict d' => map fst d' = map fst d
  | PyList _, _ | PyDict _, _ => False
  | _, _ => True
  end.
Proof.
  destruct obj as [a|l|d|s|o]; cbn [sanitize_for_json].
  - by destruct (tolist a).
  - apply length_map.
  - induction d as [|[k v] d IHd]; [done|]. cbn [map fst]. by rewrite IHd.
  - done.
  - done.
Qed.

End SanitizeFacts.

(** X23.  When [tolist] gives plain values (lists and scalars), the result
    of [sanitize_for_json] is built from lists, dicts and scalars only,
    whatever the argument holds; sanitising again changes nothing, a value
    that is already plain is returned as it is, a dict keeps its keys in
    their order and a list its length. *)
Theorem sanitize_for_json_result_is_plain :
  forall (ndarray scalar other key : Type)
         (tolist : ndarray -> pyobj ndarray scalar other key)
         (str : other -> scalar),
    (forall a, json_safe (tolist a) = true) ->
    forall obj,
      json_safe (sanitize_for_json tolist str obj) = true
      /\ sanitize_for_json tolist str (sanitize_for_json tolist str obj)
         = sanitize_for_json tolist str obj
      /\ (json_safe obj = true -> sanitize_for_json tolist str obj = obj)
      /\ (forall d, obj = PyDict d ->
                    exists d', sanitize_for_json tolist str obj = PyDict d'
                               /\ map fst d' = map fst d)
      /\ (forall l, obj = PyList l ->
                    exists l', sanitize_for_json tolist str obj = PyList l'
                               /\ length l' = length l).
Proof.
  intros ndarray scalar other key tolist str Htolist obj.
  pose proof (sanitize_for_json_safe_result tolist str Htolist obj) as Hsafe.
  split; [done|]. split; [by apply sanitize_for_json_fixed|].
  split; [apply sanitize_for_json_fixed|].
  pose proof (sanitize_for_json_shape tolist str obj) as Hshape.
  split.
  - intros d ->. cbn [sanitize_for_json] in *. by eexists.
  - intros l ->. cbn [sanitize_for_json] in *. by eexists.
Qed.

Lemma sanitize_for_json_result_is_plain_witness :
  let tolist (_ : unit) : pyobj unit Z string string :=
    PyList [Scalar 1%Z; Scalar 2%Z] in
  let str (_ : string) : Z := 0%Z in
  let obj := PyDict [("boxes", Ndarray tt); ("poly", PyList [Other "Polygon"])] in
  sanitize_for_json tolist str obj
  = PyDict [("boxes", PyList [Scalar 1%Z; Scalar 2%Z]);
            ("poly", PyList [Scalar 0%Z])]
  /\ json_safe (sanitize_for_json tolist str obj) = true.
Proof.
  split; [reflexivity|].
  exact (proj1 (sanitize_for_json_result_is_plain unit Z string string
                  (fun _ => PyList [Scalar 1%Z; Scalar 2%Z]) (fun _ => 0%Z)
                  (fun _ => eq_refl) _)).
Defined.
